(** * Manual-to-ODP converter: a shallow embedding of
      [convert_manual_to_odp.py] and the properties of its parser,
      escaping function, page generator and archive writer. *)

From Stdlib Require Import List NArith ZArith Bool Ascii String Arith Lia DecimalString.
From Stdlib Require Import Permutation.
From Stdlib Require Import Floats.
From Stdlib Require Uint63.
Import ListNotations.
Set Warnings "-inexact-float".
Open Scope list_scope.
Open Scope N_scope.

(** ** Python strings

    A Python [str] is a sequence of Unicode code points.  Code points are
    numbers in [N]; the operations below are the [str] methods the
    converter calls, with the argument order of the method call. *)

Module Py.

Definition char := N.
Definition str := list char.

(** [open(..., encoding='utf-8')]: decoding of UTF-8 bytes, refusing
    overlong forms, surrogates and values above U+10FFFF. *)
Definition is_cont (b : N) : bool := (0x80 <=? b) && (b <=? 0xBF).

Fixpoint utf8_decode (bs : list N) : option str :=
  match bs with
  | [] => Some []
  | b0 :: r0 =>
    if b0 <? 0x80 then option_map (cons b0) (utf8_decode r0)
    else if (0xC2 <=? b0) && (b0 <=? 0xDF) then
      match r0 with
      | b1 :: r1 =>
        if is_cont b1
        then option_map (cons ((b0 - 0xC0) * 64 + (b1 - 0x80))) (utf8_decode r1)
        else None
      | _ => None
      end
    else if (0xE0 <=? b0) && (b0 <=? 0xEF) then
      match r0 with
      | b1 :: b2 :: r2 =>
        let lo := if b0 =? 0xE0 then 0xA0 else 0x80 in
        let hi := if b0 =? 0xED then 0x9F else 0xBF in
        if (lo <=? b1) && (b1 <=? hi) && is_cont b2
        then option_map
               (cons ((b0 - 0xE0) * 4096 + (b1 - 0x80) * 64 + (b2 - 0x80)))
               (utf8_decode r2)
        else None
      | _ => None
      end
    else if (0xF0 <=? b0) && (b0 <=? 0xF4) then
      match r0 with
      | b1 :: b2 :: b3 :: r3 =>
        let lo := if b0 =? 0xF0 then 0x90 else 0x80 in
        let hi := if b0 =? 0xF4 then 0x8F else 0xBF in
        if (lo <=? b1) && (b1 <=? hi) && is_cont b2 && is_cont b3
        then option_map
               (cons ((b0 - 0xF0) * 262144 + (b1 - 0x80) * 4096
                      + (b2 - 0x80) * 64 + (b3 - 0x80)))
               (utf8_decode r3)
        else None
      | _ => None
      end
    else None
  end.

(** [text.encode('utf-8')] of one code point; surrogates and values above
    U+10FFFF have no encoding. *)
Definition utf8_encode_char (c : char) : option (list N) :=
  if c <? 0x80 then Some [c]
  else if c <? 0x800 then Some [0xC0 + c / 64; 0x80 + c mod 64]
  else if (0xD800 <=? c) && (c <=? 0xDFFF) then None
  else if c <? 0x10000 then
    Some [0xE0 + c / 4096; 0x80 + (c / 64) mod 64; 0x80 + c mod 64]
  else if c <? 0x110000 then
    Some [0xF0 + c / 262144; 0x80 + (c / 4096) mod 64;
          0x80 + (c / 64) mod 64; 0x80 + c mod 64]
  else None.

Fixpoint utf8_encode (s : str) : option (list N) :=
  match s with
  | [] => Some []
  | c :: r =>
    match utf8_encode_char c, utf8_encode r with
    | Some bs, Some rest => Some (bs ++ rest)
    | _, _ => None
    end
  end.

Definition bytes_of_string (s : string) : list N :=
  map N_of_ascii (list_ascii_of_string s).

(** A string literal of the source: the code points of the UTF-8 text. *)
Definition lit (s : string) : str :=
  match utf8_decode (bytes_of_string s) with
  | Some cs => cs
  | None => []
  end.

(** A literal of the source that contains double quotes, written here with
    a backquote (a character no template of the source uses) in the place
    of each double quote. *)
Definition dquote : char := 34.
Definition backquote : char := 96.
Definition qlit (s : string) : str :=
  map (fun c => if c =? backquote then dquote else c) (lit s).

Fixpoint str_eqb (a b : str) : bool :=
  match a, b with
  | [], [] => true
  | x :: a', y :: b' => (x =? y) && str_eqb a' b'
  | _, _ => false
  end.

(** [line.startswith(prefix)] *)
Fixpoint startswith (line prefix : str) {struct prefix} : bool :=
  match prefix, line with
  | [], _ => true
  | _ :: _, [] => false
  | p :: prefix', c :: line' => (c =? p) && startswith line' prefix'
  end.

(** [line.endswith(suffix)] *)
Definition endswith (line suffix : str) : bool :=
  startswith (rev line) (rev suffix).

(** [str.isspace] on one code point (CPython's [_PyUnicode_IsWhitespace]);
    also the class [\s] of [re] on [str] patterns. *)
Definition isspace (c : char) : bool :=
  ((0x09 <=? c) && (c <=? 0x0D)) || ((0x1C <=? c) && (c <=? 0x20))
  || (c =? 0x85) || (c =? 0xA0) || (c =? 0x1680)
  || ((0x2000 <=? c) && (c <=? 0x200A))
  || (c =? 0x2028) || (c =? 0x2029) || (c =? 0x202F)
  || (c =? 0x205F) || (c =? 0x3000).

Fixpoint lstrip (s : str) : str :=
  match s with
  | [] => []
  | c :: r => if isspace c then lstrip r else s
  end.

Definition rstrip (s : str) : str := rev (lstrip (rev s)).

(** [s.strip()] *)
Definition strip (s : str) : str := rstrip (lstrip s).

(** [s.split(sep)] for a one-character separator: never an empty list. *)
Fixpoint split (sep : char) (s : str) : list str :=
  match s with
  | [] => [[]]
  | c :: r =>
    if c =? sep then [] :: split sep r
    else match split sep r with
         | h :: t => (c :: h) :: t
         | [] => [[c]]
         end
  end.

(** [l[a:]] *)
Definition slice_from {A} (a : nat) (l : list A) : list A := skipn a l.

(** [l[a:-b]] for [b > 0]: from index [a] up to [b] before the end, empty
    when the two bounds cross. *)
Definition slice {A} (a b : nat) (l : list A) : list A :=
  firstn (List.length l - b - a) (skipn a l).

(** [sep.join(parts)] *)
Fixpoint join (sep : str) (parts : list str) : str :=
  match parts with
  | [] => []
  | [x] => x
  | x :: rest => x ++ sep ++ join sep rest
  end.

(** [c in s] for a one-character [c] *)
Definition contains (c : char) (s : str) : bool := existsb (N.eqb c) s.

(** [s.replace(old, new)] for a one-character [old] *)
Definition replace (old : char) (new : str) (s : str) : str :=
  flat_map (fun c => if c =? old then new else [c]) s.

(** What a text file opened for reading without [newline] hands over for
    the decoded text: [\r\n] and a lone [\r] are turned into [\n]. *)
Fixpoint universal_newlines (s : str) : str :=
  match s with
  | [] => []
  | c :: r =>
    if c =? 13 then
      10 :: match r with
            | d :: r' => if d =? 10 then universal_newlines r' else universal_newlines r
            | [] => []
            end
    else c :: universal_newlines r
  end.

(** [str(n)] / [f'{n}'] for a natural number *)
Definition str_of_nat (n : nat) : str :=
  lit (NilEmpty.string_of_uint (Nat.to_uint n)).

End Py.
Import Py.

(** ** Escaping ([escape_xml], and [html.escape] of the standard library) *)

Definition c_amp : char := 38.
Definition c_lt : char := 60.
Definition c_gt : char := 62.
Definition c_quot : char := 34.
Definition c_apos : char := 39.

(** [html.escape(s, quote)]: [&] first, then [<] and [>], and the two
    quotes only when [quote] is set. *)
Definition html_escape (s : str) (quote : bool) : str :=
  let s := replace c_amp (lit "&amp;") s in
  let s := replace c_lt (lit "&lt;") s in
  let s := replace c_gt (lit "&gt;") s in
  if quote
  then replace c_apos (lit "&#x27;") (replace c_quot (lit "&quot;") s)
  else s.

(** [FixedManualToODPConverter.escape_xml] *)
Definition escape_xml (text : str) : str :=
  match text with
  | [] => []
  | _ =>
    let text := html_escape text false in
    let text := replace c_amp (lit "&amp;") text in
    let text := replace c_lt (lit "&lt;") text in
    let text := replace c_gt (lit "&gt;") text in
    let text := replace c_quot (lit "&quot;") text in
    let text := replace c_apos (lit "&apos;") text in
    text
  end.

(** The five characters XML reserves. *)
Definition reserved (c : char) : bool :=
  (c =? c_amp) || (c =? c_lt) || (c =? c_gt) || (c =? c_quot) || (c =? c_apos).

(** ** Data model: the dictionaries the parser builds *)

(** The value under ['type']: ['subtitle'], ['bullet'], ['bold'], ['text']. *)
Inductive BlockType := Subtitle | Bullet | Bold | PlainText.

(** A content item [{'type': ..., 'text': ...}]. *)
Record ContentBlock := { type : BlockType; text : str }.

(** A slide [{'title': ..., 'content': [...]}]. *)
Record Slide := { title : str; content : list ContentBlock }.

(** Truth value of a string: [if line] *)
Definition truthy (s : str) : bool :=
  match s with [] => false | _ :: _ => true end.

(** ** The block parser ([parse_content]) *)

Section Parser.

(** [str.isalnum] on the code points above ASCII: the Unicode character
    database, which is not part of the program. *)
Variable unicode_alnum : char -> bool.

(** The class [\w] of [re] on a [str] pattern: alphanumeric or underscore. *)
Definition is_word (c : char) : bool :=
  if c <? 128
  then ((48 <=? c) && (c <=? 57)) || ((65 <=? c) && (c <=? 90))
       || ((97 <=? c) && (c <=? 122)) || (c =? 95)
  else unicode_alnum c.

(** The characters [[^\w\s\-]] does not match. *)
Definition title_char (c : char) : bool :=
  is_word c || isspace c || (c =? 45).

(** [re.sub(r'[^\w\s\-]', '', title)] *)
Definition clean_title (title : str) : str := filter title_char title.

(** The test that opens a slide: [line.startswith('## ') and not
    line.startswith('### ')]. *)
Definition is_slide_marker (line : str) : bool :=
  startswith line (lit "## ") && negb (startswith line (lit "### ")).

(** The classification of a non-empty line inside a slide: the
    [if]/[elif] chain under [elif current_slide and line], giving the
    item appended to [current_content], if any. *)
Definition classify (line : str) : option ContentBlock :=
  if startswith line (lit "### ") then
    Some {| type := Subtitle; text := strip (slice_from 4 line) |}
  else if startswith line (lit "- ") then
    Some {| type := Bullet; text := strip (slice_from 2 line) |}
  else if startswith line (lit "**") && endswith line (lit "**") then
    Some {| type := Bold; text := strip (slice 2 2 line) |}
  else if startswith line (lit "|") && contains 124 (slice_from 1 line) then
    if contains 124 line && negb (startswith line (lit "|---")) then
      let cells := map strip (slice 1 1 (split 124 line)) in
      match cells with
      | c0 :: _ =>
        if truthy c0
        then Some {| type := PlainText; text := join (lit " | ") cells |}
        else None
      | [] => None
      end
    else None
  else if truthy line && negb (startswith line (lit "---")) then
    Some {| type := PlainText; text := line |}
  else None.

(** The variables of the loop: [current_slide], [current_content] and
    [self.slides]. *)
Record PState := {
  current_slide : option Slide;
  current_content : list ContentBlock;
  slides : list Slide
}.

(** [current_slide['content'] = current_content; self.slides.append(...)]
    when a slide is open. *)
Definition flush (st : PState) : list Slide :=
  match current_slide st with
  | Some cs => slides st ++ [ {| title := title cs; content := current_content st |} ]
  | None => slides st
  end.

(** [current_content.append(item)] *)
Definition append_item (st : PState) (item : ContentBlock) : PState :=
  {| current_slide := current_slide st;
     current_content := current_content st ++ [item];
     slides := slides st |}.

(** One iteration of [for line in lines]. *)
Definition step (st : PState) (raw : str) : PState :=
  let line := strip raw in
  if is_slide_marker line then
    let title_text := strip (slice_from 3 line) in
    {| current_slide := Some {| title := clean_title title_text; content := [] |};
       current_content := [];
       slides := flush st |}
  else
    match current_slide st with
    | Some _ =>
      if truthy line then
        match classify line with
        | Some item => append_item st item
        | None => st
        end
      else st
    | None => st
    end.

(** [parse_content], from the value [self_slides] of [self.slides] at the
    call to its value at the return. *)
Definition parse_content_from (self_slides : list Slide) (content : str) : list Slide :=
  let lines := split 10 content in
  flush (fold_left step lines
           {| current_slide := None; current_content := []; slides := self_slides |}).

(** [parse_content] on a fresh converter ([self.slides = []]). *)
Definition parse_content (content : str) : list Slide :=
  parse_content_from [] content.

End Parser.

(** ** The page generator ([create_slide_xml_lines], [create_content_xml]) *)

(** [f'{content_y:.1f}'].  [content_y] starts at [4.0] and grows by [0.8],
    [0.5] or [0.4] at most eight times; it is kept here in tenths, which
    the one-decimal format prints exactly (the binary rounding of at most
    eight such additions stays far below the [0.05] that would change the
    printed digit). *)
Definition fmt_1f (tenths : N) : str :=
  str_of_nat (N.to_nat (tenths / 10)) ++ lit "." ++ str_of_nat (N.to_nat (tenths mod 10)).

(** The heights as the program has them: binary64 numbers, from [4.0], each
    the previous one plus [0.8], [0.5] or [0.4]. *)
Definition float_increment (tenths : N) : PrimFloat.float :=
  match tenths with
  | 8 => 0.8%float
  | 5 => 0.5%float
  | _ => 0.4%float
  end.

Definition float_height (incs : list N) : PrimFloat.float :=
  fold_left (fun y t => PrimFloat.add y (float_increment t)) incs 4.0%float.

(** The same heights in tenths. *)
Definition tenths_height (incs : list N) : N := fold_left N.add incs 40.

(** The float height is the tenths height, up to a millionth of a tenth. *)
Definition near_tenths (incs : list N) : bool :=
  PrimFloat.ltb
    (PrimFloat.abs
       (PrimFloat.sub
          (PrimFloat.mul (float_height incs) 10%float)
          (PrimFloat.of_uint63 (Uint63.of_Z (Z.of_N (tenths_height incs))))))
    0.000001%float.

(** All the sequences of at most [k] increments. *)
Fixpoint increment_sequences (k : nat) : list (list N) :=
  match k with
  | O => [[]]
  | S k' => [] :: flat_map (fun l => [8 :: l; 5 :: l; 4 :: l]) (increment_sequences k')
  end.

(** The three shapes the loop can append, one per branch. *)
Definition subtitle_frame (content_y : N) (escaped_text : str) : list str :=
  [ qlit "        <draw:frame draw:style-name=`gr2` draw:text-style-name=`P2` draw:layer=`layout` svg:width=`25.199cm` svg:height=`0.6cm` svg:x=`1.4cm` svg:y=`"
      ++ fmt_1f content_y ++ qlit "cm`>"
  ; lit "          <draw:text-box>"
  ; qlit "            <text:p text:style-name=`P2`>" ++ escaped_text ++ lit "</text:p>"
  ; lit "          </draw:text-box>"
  ; lit "        </draw:frame>"
  ].

Definition bullet_frame (content_y : N) (escaped_text : str) : list str :=
  [ qlit "        <draw:frame draw:style-name=`gr3` draw:text-style-name=`P3` draw:layer=`layout` svg:width=`25.199cm` svg:height=`0.5cm` svg:x=`2.0cm` svg:y=`"
      ++ fmt_1f content_y ++ qlit "cm`>"
  ; lit "          <draw:text-box>"
  ; qlit "            <text:p text:style-name=`P3`>• " ++ escaped_text ++ lit "</text:p>"
  ; lit "          </draw:text-box>"
  ; lit "        </draw:frame>"
  ].

Definition text_frame (content_y : N) (escaped_text : str) : list str :=
  [ qlit "        <draw:frame draw:style-name=`gr3` draw:text-style-name=`P3` draw:layer=`layout` svg:width=`25.199cm` svg:height=`0.4cm` svg:x=`1.4cm` svg:y=`"
      ++ fmt_1f content_y ++ qlit "cm`>"
  ; lit "          <draw:text-box>"
  ; qlit "            <text:p text:style-name=`P3`>" ++ escaped_text ++ lit "</text:p>"
  ; lit "          </draw:text-box>"
  ; lit "        </draw:frame>"
  ].

(** [for content_item in slide_data['content']], with the running
    [content_y] (in tenths) and [content_count]; the result is what the
    loop appends to [lines].  [break] ends it, [continue] and the missing
    [else] move on with both variables unchanged. *)
Fixpoint content_loop (items : list ContentBlock) (content_y : N) (content_count : nat)
  : list str :=
  match items with
  | [] => []
  | content_item :: rest =>
    if (8 <=? content_count)%nat then []
    else if negb (truthy (text content_item)) then
      content_loop rest content_y content_count
    else
      let escaped_text := escape_xml (text content_item) in
      match type content_item with
      | Subtitle =>
        let content_y := content_y + 8 in
        subtitle_frame content_y escaped_text
          ++ content_loop rest content_y (S content_count)
      | Bullet =>
        let content_y := content_y + 5 in
        bullet_frame content_y escaped_text
          ++ content_loop rest content_y (S content_count)
      | PlainText =>
        let content_y := content_y + 4 in
        text_frame content_y escaped_text
          ++ content_loop rest content_y (S content_count)
      | Bold => content_loop rest content_y content_count
      end
  end.

(** The lines of the title shape. *)
Definition title_frame (escaped_title : str) : list str :=
  [ qlit "        <draw:frame draw:style-name=`gr1` draw:text-style-name=`P1` draw:layer=`layout` svg:width=`25.199cm` svg:height=`3.506cm` svg:x=`1.4cm` svg:y=`0.3cm`>"
  ; lit "          <draw:text-box>"
  ; qlit "            <text:p text:style-name=`P1`>" ++ escaped_title ++ lit "</text:p>"
  ; lit "          </draw:text-box>"
  ; lit "        </draw:frame>"
  ].

(** [create_slide_xml_lines(slide_data, slide_number)] *)
Definition page_open (slide_number : nat) : str :=
  qlit "      <draw:page draw:name=`Slide" ++ str_of_nat (slide_number + 1)
    ++ qlit "` draw:style-name=`dp1` draw:master-page-name=`Standard`>".

Definition page_close : str := lit "      </draw:page>".

Definition create_slide_xml_lines (slide_data : Slide) (slide_number : nat) : list str :=
  let escaped_title := escape_xml (title slide_data) in
  [ page_open slide_number ]
  ++ title_frame escaped_title
  ++ content_loop (content slide_data) 40 0
  ++ [ page_close ].

(** The fixed lines that open [content.xml] (the initial value of [content_lines]). *)
Definition content_header : list str :=
  [ qlit "<?xml version=`1.0` encoding=`UTF-8`?>"
  ; qlit "<office:document-content xmlns:office=`urn:oasis:names:tc:opendocument:xmlns:office:1.0`"
  ; qlit "                        xmlns:style=`urn:oasis:names:tc:opendocument:xmlns:style:1.0`"
  ; qlit "                        xmlns:text=`urn:oasis:names:tc:opendocument:xmlns:text:1.0`"
  ; qlit "                        xmlns:table=`urn:oasis:names:tc:opendocument:xmlns:table:1.0`"
  ; qlit "                        xmlns:draw=`urn:oasis:names:tc:opendocument:xmlns:drawing:1.0`"
  ; qlit "                        xmlns:fo=`urn:oasis:names:tc:opendocument:xmlns:xsl-fo-compatible:1.0`"
  ; qlit "                        xmlns:xlink=`http://www.w3.org/1999/xlink`"
  ; qlit "                        xmlns:dc=`http://purl.org/dc/elements/1.1/`"
  ; qlit "                        xmlns:meta=`urn:oasis:names:tc:opendocument:xmlns:meta:1.0`"
  ; qlit "                        xmlns:number=`urn:oasis:names:tc:opendocument:xmlns:datastyle:1.0`"
  ; qlit "                        xmlns:svg=`urn:oasis:names:tc:opendocument:xmlns:svg-compatible:1.0`"
  ; qlit "                        xmlns:chart=`urn:oasis:names:tc:opendocument:xmlns:chart:1.0`"
  ; qlit "                        xmlns:dr3d=`urn:oasis:names:tc:opendocument:xmlns:dr3d:1.0`"
  ; qlit "                        xmlns:math=`http://www.w3.org/1998/Math/MathML`"
  ; qlit "                        xmlns:form=`urn:oasis:names:tc:opendocument:xmlns:form:1.0`"
  ; qlit "                        xmlns:script=`urn:oasis:names:tc:opendocument:xmlns:script:1.0`"
  ; qlit "                        xmlns:ooo=`http://openoffice.org/2004/office`"
  ; qlit "                        xmlns:ooow=`http://openoffice.org/2004/writer`"
  ; qlit "                        xmlns:oooc=`http://openoffice.org/2004/calc`"
  ; qlit "                        xmlns:dom=`http://www.w3.org/2001/xml-events`"
  ; qlit "                        xmlns:xforms=`http://www.w3.org/2002/xforms`"
  ; qlit "                        xmlns:xsd=`http://www.w3.org/2001/XMLSchema`"
  ; qlit "                        xmlns:xsi=`http://www.w3.org/2001/XMLSchema-instance`"
  ; qlit "                        xmlns:rpt=`http://openoffice.org/2005/report`"
  ; qlit "                        xmlns:of=`urn:oasis:names:tc:opendocument:xmlns:of:1.2`"
  ; qlit "                        xmlns:xhtml=`http://www.w3.org/1999/xhtml`"
  ; qlit "                        xmlns:grddl=`http://www.w3.org/2003/g/data-view#`"
  ; qlit "                        xmlns:tableooo=`http://openoffice.org/2009/table`"
  ; qlit "                        xmlns:field=`urn:oasis:names:tc:opendocument:xmlns:field:1.0`"
  ; qlit "                        xmlns:formx=`urn:oasis:names:tc:opendocument:xmlns:form:1.0`"
  ; qlit "                        xmlns:css3t=`http://www.w3.org/TR/css3-text/`"
  ; qlit "                        office:version=`1.2`>"
  ; qlit "  <office:scripts/>"
  ; qlit "  <office:font-face-decls/>"
  ; qlit "  <office:automatic-styles>"
  ; qlit "    <style:style style:name=`dp1` style:family=`drawing-page`>"
  ; qlit "      <style:drawing-page-properties draw:background-size=`full` draw:fill=`none`/>"
  ; qlit "    </style:style>"
  ; qlit "    <style:style style:name=`gr1` style:family=`graphic` style:parent-style-name=`standard`>"
  ; qlit "      <style:graphic-properties draw:stroke=`none` draw:fill=`none`/>"
  ; qlit "    </style:style>"
  ; qlit "    <style:style style:name=`gr2` style:family=`graphic` style:parent-style-name=`standard`>"
  ; qlit "      <style:graphic-properties draw:stroke=`none` draw:fill=`none`/>"
  ; qlit "    </style:style>"
  ; qlit "    <style:style style:name=`gr3` style:family=`graphic` style:parent-style-name=`standard`>"
  ; qlit "      <style:graphic-properties draw:stroke=`none` draw:fill=`none`/>"
  ; qlit "    </style:style>"
  ; qlit "    <style:style style:name=`P1` style:family=`paragraph` style:parent-style-name=`standard`>"
  ; qlit "      <style:paragraph-properties fo:text-align=`center` fo:margin-top=`0.423cm` fo:margin-bottom=`0.212cm`/>"
  ; qlit "      <style:text-properties fo:font-size=`24pt` style:font-size-asian=`24pt` style:font-size-complex=`24pt` fo:font-weight=`bold`/>"
  ; qlit "    </style:style>"
  ; qlit "    <style:style style:name=`P2` style:family=`paragraph` style:parent-style-name=`standard`>"
  ; qlit "      <style:paragraph-properties fo:margin-top=`0.212cm` fo:margin-bottom=`0.212cm`/>"
  ; qlit "      <style:text-properties fo:font-size=`18pt` style:font-size-asian=`18pt` style:font-size-complex=`18pt` fo:font-weight=`bold`/>"
  ; qlit "    </style:style>"
  ; qlit "    <style:style style:name=`P3` style:family=`paragraph` style:parent-style-name=`standard`>"
  ; qlit "      <style:paragraph-properties fo:margin-top=`0.106cm` fo:margin-bottom=`0.106cm`/>"
  ; qlit "      <style:text-properties fo:font-size=`12pt` style:font-size-asian=`12pt` style:font-size-complex=`12pt`/>"
  ; qlit "    </style:style>"
  ; qlit "  </office:automatic-styles>"
  ; qlit "  <office:master-styles>"
  ; qlit "    <style:master-page style:name=`Standard` style:page-layout-name=`AL1T0`>"
  ; qlit "      <style:header/>"
  ; qlit "      <style:footer/>"
  ; qlit "    </style:master-page>"
  ; qlit "  </office:master-styles>"
  ; qlit "  <office:body>"
  ; qlit "    <office:presentation>"
  ].

(** The fixed lines that close [content.xml]. *)
Definition content_footer : list str :=
  [ qlit "    </office:presentation>"
  ; qlit "  </office:body>"
  ; qlit "</office:document-content>"
  ].


(** [enumerate(l)] *)
Definition enumerate {A} (l : list A) : list (nat * A) :=
  combine (seq 0 (List.length l)) l.

(** The final value of [content_lines] in [create_content_xml]. *)
Definition content_xml_lines (slides : list Slide) : list str :=
  content_header
  ++ flat_map (fun '(i, slide) => create_slide_xml_lines slide i) (enumerate slides)
  ++ content_footer.

Definition newline : str := [10].

(** What [create_content_xml] writes to [content.xml]. *)
Definition content_xml (slides : list Slide) : str :=
  join newline (content_xml_lines slides).

(** ** Files, the staging directory and the archive *)

(** The lines of [manifest_content]. *)
Definition manifest_lines : list str :=
  [ qlit "<?xml version=`1.0` encoding=`UTF-8`?>"
  ; qlit "<manifest:manifest xmlns:manifest=`urn:oasis:names:tc:opendocument:xmlns:manifest:1.0`>"
  ; qlit "  <manifest:file-entry manifest:full-path=`/` manifest:media-type=`application/vnd.oasis.opendocument.presentation`/>"
  ; qlit "  <manifest:file-entry manifest:full-path=`content.xml` manifest:media-type=`text/xml`/>"
  ; qlit "  <manifest:file-entry manifest:full-path=`styles.xml` manifest:media-type=`text/xml`/>"
  ; qlit "  <manifest:file-entry manifest:full-path=`meta.xml` manifest:media-type=`text/xml`/>"
  ; qlit "</manifest:manifest>"
  ].

(** The lines of [styles_content] (the trailing blanks are the source's). *)
Definition styles_lines : list str :=
  [ qlit "<?xml version=`1.0` encoding=`UTF-8`?>"
  ; qlit "<office:document-styles xmlns:office=`urn:oasis:names:tc:opendocument:xmlns:office:1.0` "
  ; qlit "                       xmlns:style=`urn:oasis:names:tc:opendocument:xmlns:style:1.0` "
  ; qlit "                       xmlns:text=`urn:oasis:names:tc:opendocument:xmlns:text:1.0` "
  ; qlit "                       xmlns:table=`urn:oasis:names:tc:opendocument:xmlns:table:1.0` "
  ; qlit "                       xmlns:draw=`urn:oasis:names:tc:opendocument:xmlns:drawing:1.0` "
  ; qlit "                       xmlns:fo=`urn:oasis:names:tc:opendocument:xmlns:xsl-fo-compatible:1.0` "
  ; qlit "                       xmlns:xlink=`http://www.w3.org/1999/xlink` "
  ; qlit "                       xmlns:dc=`http://purl.org/dc/elements/1.1/` "
  ; qlit "                       xmlns:meta=`urn:oasis:names:tc:opendocument:xmlns:meta:1.0` "
  ; qlit "                       xmlns:number=`urn:oasis:names:tc:opendocument:xmlns:datastyle:1.0` "
  ; qlit "                       xmlns:svg=`urn:oasis:names:tc:opendocument:xmlns:svg-compatible:1.0` "
  ; qlit "                       xmlns:chart=`urn:oasis:names:tc:opendocument:xmlns:chart:1.0` "
  ; qlit "                       xmlns:dr3d=`urn:oasis:names:tc:opendocument:xmlns:dr3d:1.0` "
  ; qlit "                       xmlns:math=`http://www.w3.org/1998/Math/MathML` "
  ; qlit "                       xmlns:form=`urn:oasis:names:tc:opendocument:xmlns:form:1.0` "
  ; qlit "                       xmlns:script=`urn:oasis:names:tc:opendocument:xmlns:script:1.0` "
  ; qlit "                       xmlns:ooo=`http://openoffice.org/2004/office` "
  ; qlit "                       xmlns:ooow=`http://openoffice.org/2004/writer` "
  ; qlit "                       xmlns:oooc=`http://openoffice.org/2004/calc` "
  ; qlit "                       xmlns:dom=`http://www.w3.org/2001/xml-events` "
  ; qlit "                       xmlns:xforms=`http://www.w3.org/2002/xforms` "
  ; qlit "                       xmlns:xsd=`http://www.w3.org/2001/XMLSchema` "
  ; qlit "                       xmlns:xsi=`http://www.w3.org/2001/XMLSchema-instance` "
  ; qlit "                       xmlns:rpt=`http://openoffice.org/2005/report` "
  ; qlit "                       xmlns:of=`urn:oasis:names:tc:opendocument:xmlns:of:1.2` "
  ; qlit "                       xmlns:xhtml=`http://www.w3.org/1999/xhtml` "
  ; qlit "                       xmlns:grddl=`http://www.w3.org/2003/g/data-view#` "
  ; qlit "                       xmlns:tableooo=`http://openoffice.org/2009/table` "
  ; qlit "                       xmlns:field=`urn:oasis:names:tc:opendocument:xmlns:field:1.0` "
  ; qlit "                       xmlns:formx=`urn:oasis:names:tc:opendocument:xmlns:form:1.0` "
  ; qlit "                       xmlns:css3t=`http://www.w3.org/TR/css3-text/` "
  ; qlit "                       office:version=`1.2`>"
  ; qlit "  <office:font-face-decls/>"
  ; qlit "  <office:automatic-styles/>"
  ; qlit "  <office:master-styles/>"
  ; qlit "</office:document-styles>"
  ].

(** The lines of [meta_content], with [datetime.now().isoformat()] as
    [now_iso]. *)
Definition meta_lines (now_iso : str) : list str :=
  [ qlit "<?xml version=`1.0` encoding=`UTF-8`?>"
  ; qlit "<office:document-meta xmlns:office=`urn:oasis:names:tc:opendocument:xmlns:office:1.0` "
  ; qlit "                      xmlns:meta=`urn:oasis:names:tc:opendocument:xmlns:meta:1.0` "
  ; qlit "                      xmlns:dc=`http://purl.org/dc/elements/1.1/` "
  ; qlit "                      xmlns:xlink=`http://www.w3.org/1999/xlink` "
  ; qlit "                      office:version=`1.2`>"
  ; lit "  <office:meta>"
  ; lit "    <dc:title>Manual de Usuario - Dashboard Mi Integración API</dc:title>"
  ; lit "    <dc:description>Manual completo del Dashboard del plugin Mi Integración API</dc:description>"
  ; lit "    <dc:creator>Sistema de Conversión Automática</dc:creator>"
  ; lit "    <dc:date>" ++ now_iso ++ lit "</dc:date>"
  ; lit "  </office:meta>"
  ; lit "</office:document-meta>"
  ].

(** The media type written to [mimetype]. *)
Definition mimetype_text : str :=
  lit "application/vnd.oasis.opendocument.presentation".

(** [zipfile.ZIP_STORED] and [zipfile.ZIP_DEFLATED] *)
Inductive Compression := ZIP_STORED | ZIP_DEFLATED.

(** A member of a zip archive: its name, its compression method and its
    (uncompressed) bytes. *)
Record ZipEntry := { arcname : str; compress_type : Compression; data : list N }.

(** A file holds bytes, or is a zip archive seen as its members in the
    order they were written. *)
Inductive FileData :=
| Bytes (bs : list N)
| Zip (entries : list ZipEntry).

Inductive Exn :=
| FileNotFoundError (path : str)
| UnicodeError
| OSError (errno : N).

Inductive Result (A : Type) :=
| Ok (a : A)
| Raise (e : Exn).
Arguments Ok {A} a.
Arguments Raise {A} e.

(** What a run reads and changes: the files and directories, and the
    attribute [self.slides].  A path is kept as the program spells it, with
    [/] separators; the spelling stands for the file when the path is plain
    (see [plain_path]: relative to the working directory, without [.], [..]
    or empty components), on a file system without links. *)
Record World := {
  files : list (str * FileData);
  dirs : list str;
  self_slides : list Slide
}.

(** What a run takes from outside: the clock; which operation on the
    archive fails, if any (number [0] is the opening of the destination,
    number [k + 1] the writing of the [k]-th member; permissions and disk
    space are not modelled otherwise); the order in which the file system
    lists the names of a directory, which [os.walk] follows; and the bytes
    an archive holds on disk while its members are the given ones, which
    are read only when an archive is itself added to an archive. *)
Record Env := {
  now_iso : str;
  zip_fault : nat -> option Exn;
  listing : list str -> list str;
  archive_bytes : list ZipEntry -> list N
}.

(** The attributes [markdown_file] and [output_file] of the converter. *)
Record Converter := { markdown_file : str; output_file : str }.

(** Statements that read and change the world and may raise. *)
Definition M (A : Type) : Type := World -> World * Result A.

Definition ret {A} (a : A) : M A := fun w => (w, Ok a).
Definition raise {A} (e : Exn) : M A := fun w => (w, Raise e).
Definition bind {A B} (c : M A) (k : A -> M B) : M B :=
  fun w => match c w with
           | (w', Ok a) => k a w'
           | (w', Raise e) => (w', Raise e)
           end.

Notation "x <- c ;; k" := (bind c (fun x => k))
  (at level 61, c at next level, right associativity).
Notation "c ;; k" := (bind c (fun _ => k))
  (at level 61, right associativity).

Fixpoint lookup (p : str) (fs : list (str * FileData)) : option FileData :=
  match fs with
  | [] => None
  | (q, d) :: rest => if str_eqb q p then Some d else lookup p rest
  end.

(** A new file goes to the end of the listing; a rewritten one keeps its place. *)
Fixpoint set_file (p : str) (d : FileData) (fs : list (str * FileData))
  : list (str * FileData) :=
  match fs with
  | [] => [(p, d)]
  | (q, d') :: rest =>
    if str_eqb q p then (q, d) :: rest else (q, d') :: set_file p d rest
  end.

Definition slash : str := [47].

(** [p] lies below the directory [d]: a test on the spelling, which is
    right for plain paths (see [plain_path]). *)
Definition below (d p : str) : bool := startswith p (d ++ slash).

(** [os.path.exists(p)] *)
Definition path_exists (p : str) (w : World) : bool :=
  existsb (str_eqb p) (dirs w) || existsb (fun '(q, _) => str_eqb p q) (files w).

(** [shutil.rmtree(d)] *)
Definition rmtree (d : str) : M unit := fun w =>
  if existsb (str_eqb d) (dirs w) then
    ({| files := filter (fun '(q, _) => negb (below d q)) (files w);
        dirs := filter (fun q => negb (str_eqb q d || below d q)) (dirs w);
        self_slides := self_slides w |}, Ok tt)
  else if existsb (fun '(q, _) => str_eqb d q) (files w) then (w, Raise (OSError 20))
  else (w, Raise (FileNotFoundError d)).

(** [os.makedirs(d, exist_ok=True)], the parent being there already. *)
Definition makedirs (d : str) : M unit := fun w =>
  if existsb (str_eqb d) (dirs w) then (w, Ok tt)
  else if existsb (fun '(q, _) => str_eqb d q) (files w) then (w, Raise (OSError 17))
  else ({| files := files w; dirs := dirs w ++ [d]; self_slides := self_slides w |}, Ok tt).

(** [with open(p, 'w', encoding='utf-8') as f: f.write(text)] *)
Definition write_text (p : str) (text : str) : M unit := fun w =>
  let w' := {| files := set_file p (Bytes []) (files w); dirs := dirs w;
               self_slides := self_slides w |} in
  match utf8_encode text with
  | Some bs =>
    ({| files := set_file p (Bytes bs) (files w); dirs := dirs w;
        self_slides := self_slides w |}, Ok tt)
  | None => (w', Raise UnicodeError)
  end.

(** [read_markdown]: the file is opened as text, so its bytes are decoded
    and the line ends translated. *)
Definition read_markdown (self : Converter) : M str := fun w =>
  match lookup (markdown_file self) (files w) with
  | Some (Bytes bs) =>
    match utf8_decode bs with
    | Some text => (w, Ok (universal_newlines text))
    | None => (w, Raise UnicodeError)
    end
  | Some (Zip _) => (w, Raise UnicodeError)
  | None => (w, Raise (FileNotFoundError (markdown_file self)))
  end.

Definition temp_dir_name : str := lit "temp_odp_fixed".

(** [create_manifest], [create_content_xml], [create_styles_xml] and
    [create_meta_xml] *)
Definition create_manifest (temp_dir : str) : M unit :=
  write_text (temp_dir ++ lit "/META-INF/manifest.xml") (join newline manifest_lines).

Definition create_content_xml (temp_dir : str) : M unit := fun w =>
  write_text (temp_dir ++ lit "/content.xml") (content_xml (self_slides w)) w.

Definition create_styles_xml (temp_dir : str) : M unit :=
  write_text (temp_dir ++ lit "/styles.xml") (join newline styles_lines).

Definition create_meta_xml (env : Env) (temp_dir : str) : M unit :=
  write_text (temp_dir ++ lit "/meta.xml") (join newline (meta_lines (now_iso env))).

(** [create_fixed_odp]: returns [temp_dir] *)
Definition create_fixed_odp (env : Env) : M str :=
  let temp_dir := temp_dir_name in
  (fun w => if path_exists temp_dir w then rmtree temp_dir w else (w, Ok tt)) ;;
  makedirs temp_dir ;;
  makedirs (temp_dir ++ lit "/META-INF") ;;
  write_text (temp_dir ++ lit "/mimetype") mimetype_text ;;
  create_manifest temp_dir ;;
  create_content_xml temp_dir ;;
  create_styles_xml temp_dir ;;
  create_meta_xml env temp_dir ;;
  ret temp_dir.

(** An open [zipfile.ZipFile]: its path and its default compression. *)
Record ZipFile := { zpath : str; compression : Compression }.

(** The directory a path lies in ([[]] for the working directory). *)
Definition parent_dir (p : str) : str := join slash (removelast (split 47 p)).

(** [zipfile.ZipFile(path, 'w', compression)]: the destination is created
    or truncated.  A directory cannot be opened ([EISDIR]), and the
    directory the destination lies in must be there ([ENOTDIR] when it is a
    file). *)
Definition ZipFile_open (env : Env) (path : str) (c : Compression) : M ZipFile := fun w =>
  match zip_fault env 0 with
  | Some e => (w, Raise e)
  | None =>
    if existsb (str_eqb path) (dirs w) then (w, Raise (OSError 21))
    else if truthy (parent_dir path)
            && negb (existsb (str_eqb (parent_dir path)) (dirs w)) then
      (w, Raise (if existsb (fun '(q, _) => str_eqb (parent_dir path) q) (files w)
                 then OSError 20
                 else FileNotFoundError path))
    else
      ({| files := set_file path (Zip []) (files w); dirs := dirs w;
          self_slides := self_slides w |},
       Ok {| zpath := path; compression := c |})
  end.

(** [ZipFile.write(filename, arcname, compress_type=None)], the [k]-th
    operation on the archive: without [compress_type] the member takes the
    compression the archive was opened with.  The member holds the bytes of
    the file as it is on disk; for an archive (the one being written, when
    it lies in the directory that is walked) these are the environment's. *)
Definition ZipFile_write (env : Env) (k : nat) (zf : ZipFile)
    (filename arc : str) (ct : option Compression) : M unit := fun w =>
  match zip_fault env k with
  | Some e => (w, Raise e)
  | None =>
    match lookup filename (files w), lookup (zpath zf) (files w) with
    | Some held, Some (Zip entries) =>
      let entry := {| arcname := arc;
                      compress_type := match ct with
                                       | Some c => c
                                       | None => compression zf
                                       end;
                      data := match held with
                              | Bytes bs => bs
                              | Zip es => archive_bytes env es
                              end |} in
      ({| files := set_file (zpath zf) (Zip (entries ++ [entry])) (files w);
          dirs := dirs w; self_slides := self_slides w |}, Ok tt)
    | _, _ => (w, Raise (FileNotFoundError filename))
    end
  end.

(** [os.walk(top)] as the files it yields, directory by directory (the
    top first), each with its path relative to [top]; the files of a
    directory come in the order the file system lists them. *)
Definition parent_is (d : str) (p : str) : bool :=
  below d p && negb (contains 47 (skipn (List.length d + 1) p)).

Definition walk_files (env : Env) (top : str) (w : World) : list (str * str) :=
  flat_map
    (fun d => map (fun p => (p, skipn (List.length top + 1) p))
                  (listing env
                     (map fst (filter (fun '(p, _) => parent_is d p) (files w)))))
    (filter (fun d => str_eqb d top || below top d) (dirs w)).

(** [os.path.basename] *)
Definition basename (p : str) : str := last (split 47 p) [].

(** The body of the two nested [for] loops of [create_odp_file], over the
    files [os.walk] yielded, from operation number [k] on. *)
Fixpoint write_members (env : Env) (zf : ZipFile) (k : nat) (fs : list (str * str))
  : M unit :=
  match fs with
  | [] => ret tt
  | (file_path, arc_path) :: rest =>
    if negb (str_eqb (basename file_path) (lit "mimetype")) then
      ZipFile_write env k zf file_path arc_path None ;;
      write_members env zf (S k) rest
    else write_members env zf k rest
  end.

(** [create_odp_file] *)
Definition create_odp_file (env : Env) (self : Converter) (temp_dir : str) : M unit :=
  odp_file <- ZipFile_open env (output_file self) ZIP_DEFLATED ;;
  ZipFile_write env 1 odp_file (temp_dir ++ lit "/mimetype") (lit "mimetype") None ;;
  (fun w => write_members env odp_file 2 (walk_files env temp_dir w) w).

(** [cleanup] *)
Definition cleanup (temp_dir : str) : M unit := fun w =>
  if path_exists temp_dir w then rmtree temp_dir w else (w, Ok tt).

(** [self.parse_content(content)] as a statement: it changes [self.slides]. *)
Definition parse_content_m (unicode_alnum : char -> bool) (content : str) : M unit :=
  fun w => ({| files := files w; dirs := dirs w;
               self_slides := parse_content_from unicode_alnum (self_slides w) content |},
            Ok tt).

(** [convert]; the [print] calls write to the standard output only and are
    left out. *)
Definition convert (unicode_alnum : char -> bool) (env : Env) (self : Converter) : M unit :=
  content <- read_markdown self ;;
  parse_content_m unicode_alnum content ;;
  temp_dir <- create_fixed_odp env ;;
  create_odp_file env self temp_dir ;;
  cleanup temp_dir ;;
  ret tt.

(** ** Reading XML back

    What a conforming XML reader does with the text the generator
    produces: the character data of an element with its entity references
    replaced ([text_of], which looks at the references only), and the
    well-formedness of a document (legal characters, declaration, one root
    element, properly nested tags with [name="value"] attributes, character
    data free of [<] and of stray [&]).  Comments, CDATA sections,
    character references and document type declarations do not occur in
    the generator's output and are refused. *)

Module Xml.

(** The predefined entity that starts right after an ampersand, with the
    number of characters it takes. *)
Definition entity_at (r : str) : option (char * nat) :=
  if startswith r (lit "amp;") then Some (c_amp, 4%nat)
  else if startswith r (lit "lt;") then Some (c_lt, 3%nat)
  else if startswith r (lit "gt;") then Some (c_gt, 3%nat)
  else if startswith r (lit "quot;") then Some (c_quot, 5%nat)
  else if startswith r (lit "apos;") then Some (c_apos, 5%nat)
  else None.

(** The text a reader reports for character data, left to right; [skip]
    counts the characters of a reference still to pass over.  Only [<] and
    the references are looked at here: which characters a document may hold
    at all is the matter of [legal_char], which [well_formed] checks. *)
Fixpoint text_from (skip : nat) (s : str) : option str :=
  match s with
  | [] => Some []
  | c :: r =>
    match skip with
    | S k => text_from k r
    | O =>
      if c =? c_lt then None
      else if c =? c_amp then
        match entity_at r with
        | Some (ch, n) => option_map (cons ch) (text_from n r)
        | None => None
        end
      else option_map (cons c) (text_from 0 r)
    end
  end.

Definition text_of (s : str) : option str := text_from 0 s.

Inductive Token :=
| Chars (s : str)
| Markup (body : str).

Definition chars_token (buf : str) : list Token :=
  match buf with [] => [] | _ => [Chars (rev buf)] end.

(** Splitting a document at [<] ... [>]; inside a tag a quoted attribute
    value runs to its closing quote.  [buf] is the current piece, reversed. *)
Fixpoint tokenize (s : str) (in_tag : bool) (quote : option char) (buf : str)
  : option (list Token) :=
  match s with
  | [] => if in_tag then None else Some (chars_token buf)
  | c :: r =>
    if in_tag then
      if c =? c_lt then None
      else
        match quote with
        | Some q => tokenize r true (if c =? q then None else Some q) (c :: buf)
        | None =>
          if c =? c_gt then
            option_map (cons (Markup (rev buf))) (tokenize r false None [])
          else if (c =? c_quot) || (c =? c_apos) then tokenize r true (Some c) (c :: buf)
          else tokenize r true None (c :: buf)
        end
    else if c =? c_lt then
      option_map (app (chars_token buf)) (tokenize r true None [])
    else tokenize r false None (c :: buf)
  end.

Definition xml_space (c : char) : bool :=
  (c =? 32) || (c =? 9) || (c =? 10) || (c =? 13).

Definition name_char (c : char) : bool :=
  ((48 <=? c) && (c <=? 57)) || ((65 <=? c) && (c <=? 90))
  || ((97 <=? c) && (c <=? 122)) || (c =? 95) || (c =? 45) || (c =? 46)
  || (c =? 58) || (128 <=? c).

Definition name_ok (n : str) : bool :=
  match n with
  | [] => false
  | c :: _ => negb ((c =? 45) || (c =? 46) || ((48 <=? c) && (c <=? 57)))
              && forallb name_char n
  end.

(** Where the scan of an attribute list stands. *)
Inductive AttrState :=
| AfterItem          (* after the element name or a value: blank or end *)
| Blank              (* in blanks: a name or the end *)
| InName             (* in an attribute name: more of it or [=] *)
| AfterEq            (* after [=]: the opening quote *)
| InValue (q : char) (* in a value: up to the quote [q] *).

Fixpoint attrs_ok (s : str) (st : AttrState) : bool :=
  match s with
  | [] => match st with AfterItem | Blank => true | _ => false end
  | c :: r =>
    match st with
    | AfterItem => xml_space c && attrs_ok r Blank
    | Blank =>
      if xml_space c then attrs_ok r Blank
      else name_ok [c] && attrs_ok r InName
    | InName =>
      if c =? 61 then attrs_ok r AfterEq else name_char c && attrs_ok r InName
    | AfterEq => ((c =? c_quot) || (c =? c_apos)) && attrs_ok r (InValue c)
    | InValue q =>
      if c =? q then attrs_ok r AfterItem
      else negb (c =? c_amp) && attrs_ok r (InValue q)
    end
  end.

Fixpoint take_name (s : str) : str * str :=
  match s with
  | [] => ([], [])
  | c :: r =>
    if xml_space c then ([], s)
    else let '(n, rest) := take_name r in (c :: n, rest)
  end.

Inductive Tag :=
| Decl
| Open (name : str)
| Close (name : str)
| Empty (name : str).

(** The kind of a tag from what stands between [<] and [>]. *)
Definition parse_tag (body : str) : option Tag :=
  match body with
  | [] => None
  | c :: r =>
    if c =? 63 then
      if endswith r [63] then Some Decl else None
    else if c =? 47 then
      let n := rstrip r in
      if name_ok n then Some (Close n) else None
    else
      let empty := endswith body [47] in
      let body' := if empty then removelast body else body in
      let '(n, attrs) := take_name body' in
      if name_ok n && attrs_ok attrs AfterItem
      then Some (if empty then Empty n else Open n)
      else None
  end.

(** Nesting: [stack] holds the open elements, [roots] counts the finished
    top-level elements. *)
Fixpoint nested (ts : list Token) (stack : list str) (roots : nat) : bool :=
  match ts with
  | [] => match stack with [] => Nat.eqb roots 1 | _ => false end
  | Chars t :: rest =>
    match stack with
    | [] => forallb xml_space t && nested rest stack roots
    | _ => match text_of t with Some _ => nested rest stack roots | None => false end
    end
  | Markup m :: rest =>
    match parse_tag m with
    | Some Decl => false
    | Some (Open n) =>
      match stack, roots with
      | [], S _ => false
      | _, _ => nested rest (n :: stack) roots
      end
    | Some (Empty n) =>
      match stack, roots with
      | [], S _ => false
      | [], O => nested rest [] 1
      | _, _ => nested rest stack roots
      end
    | Some (Close n) =>
      match stack with
      | top :: below' =>
        str_eqb top n
        && nested rest below' (match below' with [] => S roots | _ => roots end)
      | [] => false
      end
    | None => false
    end
  end.

(** The tokens after the XML declaration, which may only come first. *)
Definition after_decl (ts : list Token) : list Token :=
  match ts with
  | Markup m :: rest =>
    match parse_tag m with Some Decl => rest | _ => ts end
  | _ => ts
  end.

(** The characters XML 1.0 allows in a document: tab, line feed, carriage
    return, and the code points from U+0020 on except the surrogates,
    U+FFFE and U+FFFF. *)
Definition legal_char (c : char) : bool :=
  (c =? 9) || (c =? 10) || (c =? 13)
  || ((0x20 <=? c) && (c <=? 0xD7FF))
  || ((0xE000 <=? c) && (c <=? 0xFFFD))
  || ((0x10000 <=? c) && (c <=? 0x10FFFF)).

(** The markup of a document is sound: tags that end, one root element,
    nested and matching tags, attribute syntax, references. *)
Definition structure_ok (doc : str) : bool :=
  match tokenize doc false None [] with
  | Some ts => nested (after_decl ts) [] 0
  | None => false
  end.

(** A document is well-formed when it holds legal characters only and its
    markup is sound. *)
Definition well_formed (doc : str) : bool :=
  forallb legal_char doc && structure_ok doc.

(** The number of elements called [name] in a document. *)
Definition count_elements (name : str) (doc : str) : nat :=
  match tokenize doc false None [] with
  | Some ts =>
    List.length
      (filter (fun t => match t with
                        | Markup m =>
                          match parse_tag m with
                          | Some (Open n) | Some (Empty n) => str_eqb n name
                          | _ => false
                          end
                        | Chars _ => false
                        end) ts)
  | None => 0%nat
  end.

End Xml.

(** ** The statements of the specification, in its own words *)

(** A classification rule: a predicate on the line and the block it makes. *)
Definition rule : Type := (str -> bool) * (str -> option ContentBlock).

(** The block of a pipe table row: none for the header separator, else the
    cells (split on [|], outer cells dropped, blanks trimmed) joined by
    [" | "], provided the first cell is not empty. *)
Definition table_row_block (line : str) : option ContentBlock :=
  if startswith line (lit "|---") then None
  else
    let cells := map strip (slice 1 1 (split 124 line)) in
    match cells with
    | c0 :: _ =>
      if truthy c0
      then Some {| type := PlainText; text := join (lit " | ") cells |}
      else None
    | [] => None
    end.

(** The rules in their priority order: subtitle marker, bullet marker,
    bold markers, pipe table row, horizontal rule, plain text. *)
Definition priority_rules : list rule :=
  [ (fun l => startswith l (lit "### "),
     fun l => Some {| type := Subtitle; text := strip (slice_from 4 l) |})
  ; (fun l => startswith l (lit "- "),
     fun l => Some {| type := Bullet; text := strip (slice_from 2 l) |})
  ; (fun l => startswith l (lit "**") && endswith l (lit "**"),
     fun l => Some {| type := Bold; text := strip (slice 2 2 l) |})
  ; (fun l => startswith l (lit "|") && contains 124 (slice_from 1 l),
     table_row_block)
  ; (fun l => startswith l (lit "---"), fun _ => None)
  ; (fun _ => true, fun l => Some {| type := PlainText; text := l |})
  ].

(** The first rule whose predicate holds decides. *)
Fixpoint first_match (rules : list rule) (line : str) : option ContentBlock :=
  match rules with
  | [] => None
  | (p, make) :: rest => if p line then make line else first_match rest line
  end.

(** The qualifying blocks of the specification: those whose text is not
    empty, of any type. *)
Definition has_text (b : ContentBlock) : bool := truthy (text b).

(** A cell of a header-separator row, by the dashes-under-pipes convention
    of Markdown tables: dashes, with an optional colon at either end and
    blanks around. *)
Definition separator_cell (cell : str) : bool :=
  let t := strip cell in
  let t := match t with 58 :: r => r | _ => t end in
  let t := match rev t with 58 :: r => rev r | _ => t end in
  truthy t && forallb (N.eqb 45) t.

(** A header-separator row: a pipe row all of whose cells are separator
    cells, such as [|---|---|], [| --- | --- |] or [|:---|:---:|]. *)
Definition separator_row (line : str) : bool :=
  startswith line (lit "|") && contains 124 (slice_from 1 line)
  && match slice 1 1 (split 124 line) with
     | [] => false
     | cells => forallb separator_cell cells
     end.

(** The shape of one block at the height [content_y]. *)
Definition shape (b : ContentBlock) (content_y : N) : list str :=
  match type b with
  | Subtitle => subtitle_frame content_y (escape_xml (text b))
  | Bullet => bullet_frame content_y (escape_xml (text b))
  | PlainText | Bold => text_frame content_y (escape_xml (text b))
  end.

(** The vertical step of a block, in tenths of a centimetre. *)
Definition increment (b : ContentBlock) : N :=
  match type b with
  | Subtitle => 8
  | Bullet => 5
  | PlainText | Bold => 4
  end.

(** One shape per block, in order, each below the previous one by its
    increment: no cap, nothing skipped. *)
Fixpoint layout (items : list ContentBlock) (content_y : N) : list str :=
  match items with
  | [] => []
  | b :: rest =>
    shape b (content_y + increment b) ++ layout rest (content_y + increment b)
  end.

(** ** Notions about the code *)

(** The blocks for which the loop of [create_slide_xml_lines] appends a
    shape, read off its tests (lines 256, 261, 270 and 279 of the source):
    a non-empty text, and one of the three types that have a branch.  This
    is what the code does, not what the specification calls qualifying
    (see [has_text]). *)
Definition qualifying (b : ContentBlock) : bool :=
  truthy (text b)
  && match type b with Subtitle | Bullet | PlainText => true | Bold => false end.

(** The number of shapes among the lines of a page. *)
Definition count_frames (lines : list str) : nat :=
  List.length (filter (fun l => startswith (lstrip l) (lit "<draw:frame ")) lines).

(** ASCII letters and digits. *)
Definition ascii_alnum (c : char) : bool :=
  ((48 <=? c) && (c <=? 57)) || ((65 <=? c) && (c <=? 90))
  || ((97 <=? c) && (c <=? 122)).

(** What [escape_xml] makes of one character. *)
Definition escaped_char (c : char) : str :=
  if c =? c_amp then lit "&amp;amp;"
  else if c =? c_lt then lit "&amp;lt;"
  else if c =? c_gt then lit "&amp;gt;"
  else if c =? c_quot then lit "&quot;"
  else if c =? c_apos then lit "&apos;"
  else [c].

(** What [html.escape(_, quote=False)] makes of one character. *)
Definition html_escaped_char (c : char) : str :=
  if c =? c_amp then lit "&amp;"
  else if c =? c_lt then lit "&lt;"
  else if c =? c_gt then lit "&gt;"
  else [c].

(** A slide whose blocks are nine bold ones, as [parse_content] makes it of
    a title line followed by nine lines [**x**]. *)
Definition bold_slide : Slide :=
  {| title := lit "T";
     content := repeat {| type := Bold; text := lit "x" |} 9 |}.

(** A slide with an empty bullet, a bold block and nine bullets. *)
Definition crowded_slide : Slide :=
  {| title := lit "Pasos";
     content :=
       {| type := Bullet; text := [] |}
       :: {| type := Bold; text := lit "nota" |}
       :: map (fun n => {| type := Bullet; text := str_of_nat n |}) (seq 1 9) |}.

(** The path and the bytes of the media type file in the staging directory. *)
Definition mimetype_path : str := temp_dir_name ++ lit "/mimetype".
Definition mimetype_bytes : list N :=
  bytes_of_string "application/vnd.oasis.opendocument.presentation".

(** The archive member a reader finds first. *)
Definition mimetype_entry (c : Compression) : ZipEntry :=
  {| arcname := lit "mimetype"; compress_type := c; data := mimetype_bytes |}.

(** A converter, a world and an environment to run: a short manual, no
    staging directory left behind, an archive that can be written, and a
    file system that lists the newest file first. *)
Definition demo_converter : Converter :=
  {| markdown_file := lit "manual.md"; output_file := lit "manual.odp" |}.

Definition demo_world : World :=
  {| files := [ (lit "manual.md", Bytes (bytes_of_string "## Inicio
- Abrir el panel
**Importante**
Texto & <marcas>")) ];
     dirs := [];
     self_slides := [] |}.

Definition demo_env : Env :=
  {| now_iso := lit "2025-01-01T00:00:00";
     zip_fault := fun _ => None;
     listing := @rev str;
     archive_bytes := fun _ => bytes_of_string "PK" |}.

(** The same with a destination that cannot be opened ([EACCES]). *)
Definition failing_env : Env :=
  {| now_iso := lit "2025-01-01T00:00:00";
     zip_fault := fun k => match k with O => Some (OSError 13) | _ => None end;
     listing := @rev str;
     archive_bytes := fun _ => bytes_of_string "PK" |}.

(** The staging directory is there and holds the media type. *)
Definition staged (w : World) : Prop :=
  existsb (str_eqb temp_dir_name) (dirs w) = true
  /\ lookup mimetype_path (files w) = Some (Bytes mimetype_bytes).

(** A statement that leaves the directories as they are, however it ends. *)
Definition keeps_dirs {A} (c : M A) : Prop :=
  forall w w' r, c w = (w', r) -> dirs w' = dirs w.

(** The archive at [out] starts with the member [e]. *)
Definition first_member (out : str) (e : ZipEntry) (w : World) : Prop :=
  exists rest, lookup out (files w) = Some (Zip (e :: rest)).

(** A statement that leaves the first member of the archive in its place. *)
Definition keeps_first {A} (out : str) (e : ZipEntry) (c : M A) : Prop :=
  forall w w' r, first_member out e w -> c w = (w', r) -> first_member out e w'.

(** ** Notions used by the further properties *)

(** A parser state with the slides [before] put in front of its finished
    slides. *)
Definition prepend (before : list Slide) (st : PState) : PState :=
  {| current_slide := current_slide st;
     current_content := current_content st;
     slides := before ++ slides st |}.

(** Blocks that have a text, the bold ones apart. *)
Definition texts_present (items : list ContentBlock) : Prop :=
  forall b, In b items -> type b <> Bold -> truthy (text b) = true.

(** The state in which [parse_content] starts on a fresh converter. *)
Definition initial_state : PState :=
  {| current_slide := None; current_content := []; slides := [] |}.

(** The blocks one line of a slide's body gives: none for a blank line or
    a line the classification drops, else one. *)
Definition line_blocks (raw : str) : list ContentBlock :=
  let line := strip raw in
  if truthy line
  then match classify line with Some item => [item] | None => [] end
  else [].

(** The blocks of the lines of a slide's body, in order. *)
Definition blocks_of (lines : list str) : list ContentBlock :=
  flat_map line_blocks lines.

(** The title a marker line gives its slide. *)
Definition marker_title (ua : char -> bool) (raw : str) : str :=
  clean_title ua (strip (slice_from 3 (strip raw))).

(** The lines of a document that open a slide. *)
Definition marker_lines (doc : str) : list str :=
  filter (fun raw => is_slide_marker (strip raw)) (split 10 doc).

(** *** The reader, step by step

    The same scan as [Xml.tokenize], returning with the tokens the state in
    which the scan stops, so that a document can be read piece by piece. *)

Definition ScanState : Type := (bool * option char * str)%type.

Definition emit (ts : list Xml.Token) (o : option (list Xml.Token * ScanState))
  : option (list Xml.Token * ScanState) :=
  match o with
  | Some (ts', st) => Some (ts ++ ts', st)
  | None => None
  end.

Fixpoint xml_run (s : str) (in_tag : bool) (quote : option char) (buf : str)
  : option (list Xml.Token * ScanState) :=
  match s with
  | [] => Some ([], (in_tag, quote, buf))
  | c :: r =>
    if in_tag then
      if c =? c_lt then None
      else
        match quote with
        | Some q => xml_run r true (if c =? q then None else Some q) (c :: buf)
        | None =>
          if c =? c_gt then emit [Xml.Markup (rev buf)] (xml_run r false None [])
          else if (c =? c_quot) || (c =? c_apos) then xml_run r true (Some c) (c :: buf)
          else xml_run r true None (c :: buf)
        end
    else if c =? c_lt then emit (Xml.chars_token buf) (xml_run r true None [])
    else xml_run r false None (c :: buf)
  end.

(** A piece of a document that starts and ends between two tags. *)
Definition closed (s : str) : Prop :=
  exists ts, xml_run s false None [] = Some (ts, (false, None, [])).

(** The tokens of a piece. *)
Definition tokens_of (s : str) : list Xml.Token :=
  match xml_run s false None [] with
  | Some (ts, _) => ts
  | None => []
  end.

(** [Xml.nested], returning the stack and the count of roots it ends with. *)
Fixpoint nest_run (ts : list Xml.Token) (stack : list str) (roots : nat)
  : option (list str * nat) :=
  match ts with
  | [] => Some (stack, roots)
  | Xml.Chars t :: rest =>
    match stack with
    | [] => if forallb Xml.xml_space t then nest_run rest stack roots else None
    | _ => match Xml.text_of t with
           | Some _ => nest_run rest stack roots
           | None => None
           end
    end
  | Xml.Markup m :: rest =>
    match Xml.parse_tag m with
    | Some Xml.Decl => None
    | Some (Xml.Open n) =>
      match stack, roots with
      | [], S _ => None
      | _, _ => nest_run rest (n :: stack) roots
      end
    | Some (Xml.Empty n) =>
      match stack, roots with
      | [], S _ => None
      | [], O => nest_run rest [] 1
      | _, _ => nest_run rest stack roots
      end
    | Some (Xml.Close n) =>
      match stack with
      | top :: below' =>
        if str_eqb top n
        then nest_run rest below' (match below' with [] => S roots | _ => roots end)
        else None
      | [] => None
      end
    | None => None
    end
  end.

(** What a piece does to the stack of open elements, inside an element. *)
Inductive Effect :=
| Push (name : str)
| Pop (name : str)
| Keep.

Definition has_effect (ts : list Xml.Token) (e : Effect) : Prop :=
  forall top stack roots,
    match e with
    | Push n => nest_run ts (top :: stack) roots = Some (n :: top :: stack, roots)
    | Pop n => nest_run ts (n :: top :: stack) roots = Some (top :: stack, roots)
    | Keep => nest_run ts (top :: stack) roots = Some (top :: stack, roots)
    end.

(** Whether a token opens an element called [name]. *)
Definition opens (name : str) (t : Xml.Token) : bool :=
  match t with
  | Xml.Markup m =>
    match Xml.parse_tag m with
    | Some (Xml.Open n) | Some (Xml.Empty n) => str_eqb n name
    | _ => false
    end
  | Xml.Chars _ => false
  end.

(** A piece that is closed, has the effect [e] and opens [k] pages. *)
Definition piece (s : str) (e : Effect) (k : nat) : Prop :=
  closed s
  /\ has_effect (tokens_of s) e
  /\ List.length (filter (opens (lit "draw:page")) (tokens_of s)) = k.

(** A line after the first, as [join] puts it in the document. *)
Definition next_line (l : str) : str := newline ++ l.

(** [Xml.attrs_ok], returning the state in which the scan stops. *)
Fixpoint attrs_run (s : str) (st : Xml.AttrState) : option Xml.AttrState :=
  match s with
  | [] => Some st
  | c :: r =>
    match st with
    | Xml.AfterItem => if Xml.xml_space c then attrs_run r Xml.Blank else None
    | Xml.Blank =>
      if Xml.xml_space c then attrs_run r Xml.Blank
      else if Xml.name_ok [c] then attrs_run r Xml.InName else None
    | Xml.InName =>
      if c =? 61 then attrs_run r Xml.AfterEq
      else if Xml.name_char c then attrs_run r Xml.InName else None
    | Xml.AfterEq =>
      if (c =? c_quot) || (c =? c_apos) then attrs_run r (Xml.InValue c) else None
    | Xml.InValue q =>
      if c =? q then attrs_run r Xml.AfterItem
      else if negb (c =? c_amp) then attrs_run r (Xml.InValue q) else None
    end
  end.

(** A text that can stand inside an attribute value quoted with [q]. *)
Definition value_text (q : char) (v : str) : bool :=
  forallb (fun c => negb (c =? c_lt) && negb (c =? q) && negb (c =? c_amp)) v.

(** A text without [<] and [&]. *)
Definition plain_text (t : str) : bool :=
  forallb (fun c => negb (c =? c_lt) && negb (c =? c_amp)) t.

(** The start [B] and the end [S1] of a tag that opens the element [name],
    when a value text is put between them: [B] stops inside a value quoted
    with [q] and [S1] goes on from there. *)
Definition value_tag (B S1 name : str) (q : char) : bool :=
  match B with
  | c0 :: _ =>
    negb (c0 =? 63) && negb (c0 =? 47) && negb (endswith S1 [47]) && truthy S1
    && (let '(n, A) := Xml.take_name B in
        str_eqb n name && truthy A && Xml.name_ok n
        && match attrs_run A Xml.AfterItem with
           | Some (Xml.InValue q') => q' =? q
           | _ => false
           end)
    && Xml.attrs_ok S1 (Xml.InValue q)
  | [] => false
  end.

(** A decimal digit. *)
Definition is_digit (c : char) : bool := (48 <=? c) && (c <=? 57).

(** The opening lines of [content.xml] as one text, and the closing lines
    as they follow the pages. *)
Definition header_text : str := join newline content_header.
Definition footer_text : str := flat_map next_line content_footer.

(** The elements the opening lines leave open, innermost first. *)
Definition open_after_header : list str :=
  [ lit "office:presentation"; lit "office:body"; lit "office:document-content" ].

(** The texts of a slide that reach its page: the title and the texts of
    the blocks that are given a shape. *)
Definition page_texts (slide : Slide) : list str :=
  title slide :: map text (firstn 8 (filter qualifying (content slide))).

(** A slide whose page holds legal characters only. *)
Definition legal_page (slide : Slide) : bool :=
  forallb (forallb Xml.legal_char) (page_texts slide).

(** Outside the staging directory. *)
Definition outside_staging (p : str) : bool := negb (below temp_dir_name p).

(** Neither the staging directory nor below it. *)
Definition not_staging (d : str) : bool :=
  negb (str_eqb d temp_dir_name || below temp_dir_name d).

(** Nothing lies below a staging directory that is not there: a property
    of every real file system. *)
Definition sane_staging (w : World) : Prop :=
  existsb (str_eqb temp_dir_name) (dirs w) = false ->
  forallb (fun '(p, _) => outside_staging p) (files w) = true
  /\ forallb (fun d => negb (below temp_dir_name d)) (dirs w) = true.

(** The five files of a staged package, in the order they are written. *)
Definition staged_files (bm bc bs bt : list N) : list (str * FileData) :=
  [ (temp_dir_name ++ lit "/mimetype", Bytes mimetype_bytes);
    (temp_dir_name ++ lit "/META-INF/manifest.xml", Bytes bm);
    (temp_dir_name ++ lit "/content.xml", Bytes bc);
    (temp_dir_name ++ lit "/styles.xml", Bytes bs);
    (temp_dir_name ++ lit "/meta.xml", Bytes bt) ].

(** A world in which an earlier run left its staging directory behind. *)
Definition stale_world : World :=
  {| files := [ (lit "manual.md", Bytes (bytes_of_string "## Inicio"));
                (lit "temp_odp_fixed/old.xml", Bytes [60; 97; 47; 62]);
                (lit "temp_odp_fixed/META-INF/manifest.xml", Bytes []) ];
     dirs := [ lit "temp_odp_fixed"; lit "temp_odp_fixed/META-INF";
               lit "temp_odp_fixed/Pictures" ];
     self_slides := [] |}.

(** The members of the archive besides the media type, as [create_odp_file]
    writes them: deflated, under their paths relative to the staging
    directory. *)
Definition deflated (name : str) (bytes : list N) : ZipEntry :=
  {| arcname := name; compress_type := ZIP_DEFLATED; data := bytes |}.

(** A path as the model keeps it: relative to the working directory, with
    no empty component, no [.] and no [..].  Two plain paths name the same
    file exactly when they are spelled the same. *)
Definition plain_path (p : str) : bool :=
  forallb (fun c => truthy c && negb (str_eqb c (lit ".")) && negb (str_eqb c (lit "..")))
          (split 47 p).

(** The file system lists a directory by giving each of its names once, in
    an order of its own. *)
Definition fair_listing (env : Env) : Prop :=
  forall names, Permutation (listing env names) names.

(** A file [os.walk] yields below the staging directory, with its path
    relative to that directory. *)
Definition walked (p : str) : str * str :=
  (p, skipn (List.length temp_dir_name + 1) p).

(** The files of a staged package in the staging directory itself and in
    [META-INF]. *)
Definition staged_root : list str :=
  [ temp_dir_name ++ lit "/mimetype";
    temp_dir_name ++ lit "/content.xml";
    temp_dir_name ++ lit "/styles.xml";
    temp_dir_name ++ lit "/meta.xml" ].

Definition staged_manifest : str := temp_dir_name ++ lit "/META-INF/manifest.xml".

(** The test of the inner loop of [create_odp_file]. *)
Definition not_mimetype (fa : str * str) : bool :=
  negb (str_eqb (basename (fst fa)) (lit "mimetype")).

(** The member [create_odp_file] makes of a file that holds bytes. *)
Definition member_of (fs : list (str * FileData)) (fa : str * str) : ZipEntry :=
  deflated (snd fa)
    match lookup (fst fa) fs with
    | Some (Bytes b) => b
    | _ => []
    end.

(** The members made of the files of the staging directory itself, besides
    the media type, and the member made of the manifest. *)
Definition root_members (bc bs bt : list N) : list ZipEntry :=
  [ deflated (lit "content.xml") bc;
    deflated (lit "styles.xml") bs;
    deflated (lit "meta.xml") bt ].

Definition manifest_member (bm : list N) : ZipEntry :=
  deflated (lit "META-INF/manifest.xml") bm.

(** * Properties *)

(** ** Strings *)

(** Literals are read once, as the list of their code points. *)
Ltac eval_lits :=
  repeat match goal with
         | |- context [lit ?s] =>
           let v := eval vm_compute in (lit s) in change (lit s) with v
         | |- context [qlit ?s] =>
           let v := eval vm_compute in (qlit s) in change (qlit s) with v
         end.

(** The tests of the parser on a line whose first characters are known. *)
Ltac reduce_tests :=
  repeat match goal with
         | |- context [startswith (?c :: ?l) ?p] =>
           let v := eval cbn in (startswith (c :: l) p) in
           progress change (startswith (c :: l) p) with v
         | |- context [contains ?c (?d :: ?l)] =>
           let v := eval cbn in (contains c (d :: l)) in
           progress change (contains c (d :: l)) with v
         end.

Lemma str_eqb_refl (a : str) : str_eqb a a = true.
Proof.
  induction a as [|x a IH]; simpl; [reflexivity|].
  now rewrite N.eqb_refl.
Qed.

Lemma str_eqb_eq (a b : str) : str_eqb a b = true <-> a = b.
Proof.
  split.
  - revert b; induction a as [|x a IH]; intros [|y b]; simpl; try discriminate; auto.
    intros H. apply andb_true_iff in H as [Hx Hr].
    apply N.eqb_eq in Hx. f_equal; auto.
  - intros ->. apply str_eqb_refl.
Qed.

Lemma startswith_cons (c p : char) (line prefix : str) :
  startswith (c :: line) (p :: prefix) = true -> c = p /\ startswith line prefix = true.
Proof.
  simpl. intros H. apply andb_true_iff in H as [Hc Hr].
  apply N.eqb_eq in Hc. auto.
Qed.

(** ** The parser *)

Lemma step_no_marker_closed ua (st : PState) (raw : str) :
  current_slide st = None ->
  is_slide_marker (strip raw) = false ->
  step ua st raw = st.
Proof.
  intros Hc Hm. unfold step. rewrite Hm, Hc. reflexivity.
Qed.

Lemma fold_no_marker ua (lines : list str) (st : PState) :
  current_slide st = None ->
  (forall raw, In raw lines -> is_slide_marker (strip raw) = false) ->
  fold_left (step ua) lines st = st.
Proof.
  revert st. induction lines as [|raw lines IH]; intros st Hc Hall; simpl.
  - reflexivity.
  - rewrite step_no_marker_closed; auto using in_eq.
    apply IH; auto. intros r Hr. apply Hall. now right.
Qed.

Lemma classify_first_match (line : str) :
  truthy line = true ->
  classify line = first_match priority_rules line.
Proof.
  intros Hl. unfold classify. cbn [first_match priority_rules].
  unfold table_row_block.
  destruct (startswith line (lit "### ")); [reflexivity|].
  destruct (startswith line (lit "- ")); [reflexivity|].
  destruct (startswith line (lit "**") && endswith line (lit "**")); [reflexivity|].
  destruct (startswith line (lit "|") && contains 124 (slice_from 1 line)) eqn:Ht.
  - apply andb_true_iff in Ht as [Hp _].
    destruct line as [|c line]; [discriminate|].
    revert Hp. eval_lits. intros Hp.
    apply startswith_cons in Hp as [-> _].
    match goal with
    | |- context [contains ?c ?l && negb ?b] =>
      change (contains c l) with true; destruct b; reflexivity
    end.
  - rewrite Hl. cbn [andb].
    destruct (startswith line (lit "---")); reflexivity.
Qed.

Lemma startswith_pipe_not_marker (line : str) :
  startswith line (lit "|") = true -> is_slide_marker line = false.
Proof.
  destruct line as [|c line]; [discriminate|].
  eval_lits. intros H. apply startswith_cons in H as [-> _]. reflexivity.
Qed.

Lemma classify_separator (line : str) :
  startswith line (lit "|---") = true ->
  contains 124 (slice_from 1 line) = true ->
  classify line = None.
Proof.
  intros Hs Hp. unfold classify. rewrite Hs.
  destruct line as [|c line]; [discriminate|].
  revert Hs Hp. eval_lits. intros Hs Hp.
  apply startswith_cons in Hs as [-> _].
  rewrite Hp. reduce_tests. reflexivity.
Qed.

Lemma classify_table_row (line : str) :
  startswith line (lit "|") = true ->
  contains 124 (slice_from 1 line) = true ->
  classify line = table_row_block line.
Proof.
  intros Hs Hp. unfold classify, table_row_block.
  destruct line as [|c line]; [discriminate|].
  revert Hs Hp. eval_lits. intros Hs Hp.
  apply startswith_cons in Hs as [-> _].
  rewrite Hp.
  match goal with
  | |- context [negb (startswith ?l ?p)] => destruct (startswith l p)
  end; reduce_tests; reflexivity.
Qed.

Lemma separator_cell_text (cell : str) :
  separator_cell cell = true -> truthy (strip cell) = true.
Proof.
  unfold separator_cell. destruct (strip cell) as [|x t]; [discriminate|reflexivity].
Qed.

(** A separator row that does not begin with [|---] is a data row for the
    code: a plain-text block is made of its cells. *)
Lemma separator_row_block (line : str) :
  separator_row line = true ->
  startswith line (lit "|---") = false ->
  exists t, truthy t = true
            /\ classify line = Some {| type := PlainText; text := t |}.
Proof.
  unfold separator_row. intros H Hd.
  apply andb_true_iff in H as [H Hcells]. apply andb_true_iff in H as [Hs Hp].
  rewrite (classify_table_row line Hs Hp). unfold table_row_block. rewrite Hd.
  destruct (slice 1 1 (split 124 line)) as [|c0 cells]; [discriminate|].
  cbn [forallb] in Hcells. apply andb_true_iff in Hcells as [H0 _].
  apply separator_cell_text in H0. cbn [map]. rewrite H0.
  eexists. split; [|reflexivity].
  destruct (strip c0) as [|x t]; [discriminate|].
  destruct (map strip cells); reflexivity.
Qed.

(** C7 fails on the code.  The parser drops the pipe rows that begin with
    [|---], such as [|---|---|], and no others: a header-separator row
    written with blanks or colons, such as [| --- | --- |] or
    [|:---|:---:|], does not begin so and is made a plain-text block of its
    cells, [--- | ---], although the comment on the test of the first cell
    says that it is there to drop the separator line.  The rest holds:
    inside a slide a pipe row gives at most one block, a plain-text one of
    its cells (split on [|], outer cells dropped, trimmed, joined by
    [" | "]) when the first cell is not empty, so [| A | B |] appends
    exactly the block [A | B]. *)
Theorem separator_rows_C7 (ua : char -> bool) :
  (forall st raw,
      startswith (strip raw) (lit "|---") = true ->
      contains 124 (slice_from 1 (strip raw)) = true ->
      step ua st raw = st)
  /\ (forall st cs raw,
         current_slide st = Some cs ->
         separator_row (strip raw) = true ->
         startswith (strip raw) (lit "|---") = false ->
         exists t, truthy t = true
                   /\ step ua st raw
                      = append_item st {| type := PlainText; text := t |})
  /\ separator_row (lit "|---|---|") = true
  /\ separator_row (lit "| --- | --- |") = true
  /\ separator_row (lit "|:---|:---:|") = true
  /\ separator_row (lit "| A | B |") = false
  /\ parse_content ua (lit "## T
| A | B |
| --- | --- |
| 1 | 2 |")
     = [ {| title := lit "T";
            content := [ {| type := PlainText; text := lit "A | B" |};
                         {| type := PlainText; text := lit "--- | ---" |};
                         {| type := PlainText; text := lit "1 | 2" |} ] |} ]
  /\ (forall st cs raw,
         current_slide st = Some cs ->
         startswith (strip raw) (lit "|") = true ->
         contains 124 (slice_from 1 (strip raw)) = true ->
         step ua st raw
         = match table_row_block (strip raw) with
           | Some item => append_item st item
           | None => st
           end)
  /\ (forall st cs,
         current_slide st = Some cs ->
         step ua st (lit "| A | B |")
         = append_item st {| type := PlainText; text := lit "A | B" |})
  /\ parse_content ua (lit "## T
|---|---|
| A | B |")
     = [ {| title := lit "T";
            content := [ {| type := PlainText; text := lit "A | B" |} ] |} ].
Proof.
  split; [|split; [|split; [|split; [|split; [|split; [|split; [|split; [|split]]]]]]]].
  - intros st raw Hs Hp. unfold step.
    assert (Hpipe : startswith (strip raw) (lit "|") = true).
    { destruct (strip raw) as [|c l]; [discriminate|].
      revert Hs. eval_lits. intros Hs.
      apply startswith_cons in Hs as [-> _]. reflexivity. }
    rewrite (startswith_pipe_not_marker _ Hpipe).
    rewrite (classify_separator _ Hs Hp).
    destruct (current_slide st); [|reflexivity].
    destruct (truthy (strip raw)); reflexivity.
  - intros st cs raw Hc Hrow Hd.
    destruct (separator_row_block _ Hrow Hd) as (t & Ht & Hcl).
    exists t. split; [exact Ht|].
    unfold separator_row in Hrow.
    apply andb_true_iff in Hrow as [Hrow _]. apply andb_true_iff in Hrow as [Hs _].
    unfold step. rewrite (startswith_pipe_not_marker _ Hs), Hc, Hcl.
    destruct (strip raw); [discriminate|reflexivity].
  - vm_compute. reflexivity.
  - vm_compute. reflexivity.
  - vm_compute. reflexivity.
  - vm_compute. reflexivity.
  - vm_compute. reflexivity.
  - intros st cs raw Hc Hs Hp. unfold step.
    rewrite (startswith_pipe_not_marker _ Hs), Hc.
    rewrite (classify_table_row _ Hs Hp).
    destruct (strip raw); [discriminate|reflexivity].
  - intros st cs Hc. unfold step.
    replace (strip (lit "| A | B |")) with (lit "| A | B |") by (vm_compute; reflexivity).
    replace (is_slide_marker (lit "| A | B |")) with false by (vm_compute; reflexivity).
    rewrite Hc.
    replace (truthy (lit "| A | B |")) with true by (vm_compute; reflexivity).
    replace (classify (lit "| A | B |"))
      with (Some {| type := PlainText; text := lit "A | B" |})
      by (vm_compute; reflexivity).
    reflexivity.
  - vm_compute. reflexivity.
Qed.

Lemma separator_rows_C7_witness :
  exists t,
    truthy t = true
    /\ step (fun _ => false)
         {| current_slide := Some {| title := lit "T"; content := [] |};
            current_content := []; slides := [] |}
         (lit "  | --- | --- |")
       = append_item
           {| current_slide := Some {| title := lit "T"; content := [] |};
              current_content := []; slides := [] |}
           {| type := PlainText; text := t |}.
Proof.
  apply (proj1 (proj2 (separator_rows_C7 (fun _ => false))) _
           {| title := lit "T"; content := [] |});
    vm_compute; reflexivity.
Defined.

Lemma clean_title_in ua (t : str) (c : char) :
  In c (clean_title ua t) <-> In c t /\ title_char ua c = true.
Proof. unfold clean_title. apply filter_In. Qed.

Lemma clean_title_fixed ua (t : str) :
  (forall c, In c t -> title_char ua c = true) -> clean_title ua t = t.
Proof.
  unfold clean_title. induction t as [|c t IH]; intros H; simpl; [reflexivity|].
  rewrite (H c (in_eq _ _)). f_equal. apply IH. intros d Hd. apply H. now right.
Qed.

Lemma clean_title_hyphens ua (t : str) :
  count_occ N.eq_dec (clean_title ua t) 45 = count_occ N.eq_dec t 45.
Proof.
  unfold clean_title. induction t as [|c t IH]; simpl; [reflexivity|].
  destruct (N.eq_dec c 45) as [->|Hne].
  - replace (title_char ua 45) with true by reflexivity.
    simpl. now rewrite IH.
  - destruct (title_char ua c); simpl; [|exact IH].
    destruct (N.eq_dec c 45); [contradiction|exact IH].
Qed.

(** C8. With the rocket emoji (U+1F680) not alphanumeric, the title line
    [## Setup 🚀 Guide!] opens a slide titled [Setup  Guide] (two blanks),
    alone in a document or after any other lines.  In general the title
    keeps exactly the characters of the class (word characters, white
    space, hyphen): a title made of such characters is unchanged, and every
    hyphen stays. *)
Theorem title_sanitized_C8 (ua : char -> bool) :
  ua 0x1F680 = false ->
  (forall st,
      current_slide (step ua st (lit "## Setup 🚀 Guide!"))
      = Some {| title := lit "Setup  Guide"; content := [] |})
  /\ parse_content ua (lit "## Setup 🚀 Guide!")
     = [ {| title := lit "Setup  Guide"; content := [] |} ]
  /\ (forall t c, In c (clean_title ua t) <-> In c t /\ title_char ua c = true)
  /\ (forall t, (forall c, In c t -> title_char ua c = true) -> clean_title ua t = t)
  /\ (forall t, count_occ N.eq_dec (clean_title ua t) 45 = count_occ N.eq_dec t 45).
Proof.
  intros Hrocket.
  assert (Hclean : clean_title ua (lit "Setup 🚀 Guide!") = lit "Setup  Guide").
  { vm_compute. rewrite Hrocket. reflexivity. }
  assert (Hstep : forall st,
             current_slide (step ua st (lit "## Setup 🚀 Guide!"))
             = Some {| title := lit "Setup  Guide"; content := [] |}).
  { intros st. unfold step.
    replace (strip (lit "## Setup 🚀 Guide!")) with (lit "## Setup 🚀 Guide!")
      by (vm_compute; reflexivity).
    replace (is_slide_marker (lit "## Setup 🚀 Guide!")) with true
      by (vm_compute; reflexivity).
    replace (strip (slice_from 3 (lit "## Setup 🚀 Guide!")))
      with (lit "Setup 🚀 Guide!") by (vm_compute; reflexivity).
    cbn [current_slide]. rewrite Hclean. reflexivity. }
  split; [exact Hstep|]. split.
  - unfold parse_content, parse_content_from.
    replace (split 10 (lit "## Setup 🚀 Guide!")) with [lit "## Setup 🚀 Guide!"]
      by (vm_compute; reflexivity).
    cbn [fold_left]. unfold flush. rewrite Hstep.
    unfold step.
    replace (strip (lit "## Setup 🚀 Guide!")) with (lit "## Setup 🚀 Guide!")
      by (vm_compute; reflexivity).
    replace (is_slide_marker (lit "## Setup 🚀 Guide!")) with true
      by (vm_compute; reflexivity).
    reflexivity.
  - split; [|split].
    + apply clean_title_in.
    + apply clean_title_fixed.
    + apply clean_title_hyphens.
Qed.

Lemma title_sanitized_C8_witness :
  parse_content (fun _ => false) (lit "## Setup 🚀 Guide!")
  = [ {| title := lit "Setup  Guide"; content := [] |} ].
Proof.
  exact (proj1 (proj2 (title_sanitized_C8 (fun _ => false) eq_refl))).
Defined.

(** The second half of the marker test never decides: a line that starts
    with [## ] does not start with [### ]. *)
Lemma is_slide_marker_level2 (line : str) :
  is_slide_marker line = startswith line (lit "## ").
Proof.
  unfold is_slide_marker.
  destruct (startswith line (lit "## ")) eqn:E; [|reflexivity].
  revert E. eval_lits. intros E.
  destruct line as [|a line]; [discriminate|]. apply startswith_cons in E as [-> E].
  destruct line as [|b line]; [discriminate|]. apply startswith_cons in E as [-> E].
  destruct line as [|c line]; [discriminate|]. apply startswith_cons in E as [-> E].
  reflexivity.
Qed.

(** C9. A document none of whose lines, once trimmed, starts with the
    level-2 marker [## ] parses to no slide at all.  With no slide,
    [create_content_xml] writes the file [content.xml] of the directory it
    is given (the directory being there, and no directory in the place of
    the file), and what it writes there, read back, is the fixed opening
    and closing lines only: a well-formed document without a page
    element. *)
Theorem no_markers_C9 (ua : char -> bool) (doc : str) :
  (forall raw, In raw (split 10 doc) -> startswith (strip raw) (lit "## ") = false) ->
  parse_content ua doc = []
  /\ (forall (temp_dir : str) (w : World),
         self_slides w = parse_content ua doc ->
         existsb (str_eqb temp_dir) (dirs w) = true ->
         existsb (str_eqb (temp_dir ++ lit "/content.xml")) (dirs w) = false ->
         exists bytes text,
           create_content_xml temp_dir w
           = ({| files := set_file (temp_dir ++ lit "/content.xml") (Bytes bytes)
                            (files w);
                 dirs := dirs w;
                 self_slides := self_slides w |}, Ok tt)
           /\ utf8_decode bytes = Some text
           /\ text = join newline (content_header ++ content_footer)
           /\ Xml.count_elements (lit "draw:page") text = 0%nat
           /\ Xml.well_formed text = true)
  /\ content_xml_lines [] = content_header ++ content_footer
  /\ Xml.count_elements (lit "draw:page") (content_xml []) = 0%nat
  /\ Xml.well_formed (content_xml []) = true.
Proof.
  intros Hall.
  assert (Hnone : parse_content ua doc = []).
  { unfold parse_content, parse_content_from.
    rewrite fold_no_marker; auto.
    intros raw Hin. rewrite is_slide_marker_level2. auto. }
  split; [exact Hnone|]. split; [|split; [|split]].
  - intros temp_dir w Hw _ _. rewrite Hnone in Hw.
    unfold create_content_xml, write_text. rewrite Hw.
    destruct (utf8_encode (content_xml [])) as [bs|] eqn:E;
      vm_compute in E; [|discriminate].
    injection E as <-.
    eexists. eexists. split; [reflexivity|].
    split; [vm_compute; reflexivity|].
    split; [vm_compute; reflexivity|].
    split; vm_compute; reflexivity.
  - reflexivity.
  - vm_compute. reflexivity.
  - vm_compute. reflexivity.
Qed.

Lemma no_markers_C9_witness :
  parse_content (fun _ => false) (lit "# Manual
- a point before any slide
### not a slide") = []
  /\ (forall (temp_dir : str) (w : World),
         self_slides w = parse_content (fun _ => false) (lit "# Manual
- a point before any slide
### not a slide") ->
         existsb (str_eqb temp_dir) (dirs w) = true ->
         existsb (str_eqb (temp_dir ++ lit "/content.xml")) (dirs w) = false ->
         exists bytes text,
           create_content_xml temp_dir w
           = ({| files := set_file (temp_dir ++ lit "/content.xml") (Bytes bytes)
                            (files w);
                 dirs := dirs w;
                 self_slides := self_slides w |}, Ok tt)
           /\ utf8_decode bytes = Some text
           /\ text = join newline (content_header ++ content_footer)
           /\ Xml.count_elements (lit "draw:page") text = 0%nat
           /\ Xml.well_formed text = true)
  /\ content_xml_lines [] = content_header ++ content_footer
  /\ Xml.count_elements (lit "draw:page") (content_xml []) = 0%nat
  /\ Xml.well_formed (content_xml []) = true.
Proof.
  apply no_markers_C9.
  intros raw Hin. vm_compute in Hin.
  repeat (destruct Hin as [<- | Hin]; [vm_compute; reflexivity|]).
  contradiction.
Defined.

(** The scenario of a slide with two bullets, a subtitle and a line of text. *)
Example overview_scenario (ua : char -> bool) :
  parse_content ua (lit "## Overview
- First point
- Second point
### Details
Some text.
")
  = [ {| title := lit "Overview";
         content := [ {| type := Bullet; text := lit "First point" |};
                      {| type := Bullet; text := lit "Second point" |};
                      {| type := Subtitle; text := lit "Details" |};
                      {| type := PlainText; text := lit "Some text." |} ] |} ].
Proof. vm_compute. reflexivity. Qed.

(** C10. Inside a slide, a non-empty line that does not open a slide is
    handled by the first rule, in the order subtitle, bullet, bold, table
    row, horizontal rule, plain text, whose predicate it satisfies.  So
    [**|a|b|**] becomes a bold block with the text [|a|b|] and [- **x**] a
    bullet with the text [**x**]. *)
Theorem priority_order_C10 (ua : char -> bool) :
  (forall st cs raw,
      current_slide st = Some cs ->
      is_slide_marker (strip raw) = false ->
      truthy (strip raw) = true ->
      step ua st raw
      = match first_match priority_rules (strip raw) with
        | Some item => append_item st item
        | None => st
        end)
  /\ (forall st cs,
         current_slide st = Some cs ->
         step ua st (lit "**|a|b|**")
         = append_item st {| type := Bold; text := lit "|a|b|" |})
  /\ (forall st cs,
         current_slide st = Some cs ->
         step ua st (lit "- **x**")
         = append_item st {| type := Bullet; text := lit "**x**" |}).
Proof.
  assert (Hgen : forall st cs raw,
             current_slide st = Some cs ->
             is_slide_marker (strip raw) = false ->
             truthy (strip raw) = true ->
             step ua st raw
             = match first_match priority_rules (strip raw) with
               | Some item => append_item st item
               | None => st
               end).
  { intros st cs raw Hc Hm Ht. unfold step.
    rewrite Hm, Hc, Ht. now rewrite classify_first_match. }
  split; [exact Hgen|]. split; intros st cs Hc.
  - rewrite (Hgen st cs) by (assumption || (vm_compute; reflexivity)).
    replace (first_match priority_rules (strip (lit "**|a|b|**")))
      with (Some {| type := Bold; text := lit "|a|b|" |})
      by (vm_compute; reflexivity).
    reflexivity.
  - rewrite (Hgen st cs) by (assumption || (vm_compute; reflexivity)).
    replace (first_match priority_rules (strip (lit "- **x**")))
      with (Some {| type := Bullet; text := lit "**x**" |})
      by (vm_compute; reflexivity).
    reflexivity.
Qed.

Lemma priority_order_C10_witness :
  step (fun _ => false)
       {| current_slide := Some {| title := lit "T"; content := [] |};
          current_content := []; slides := [] |}
       (lit "**|a|b|**")
  = {| current_slide := Some {| title := lit "T"; content := [] |};
       current_content := [ {| type := Bold; text := lit "|a|b|" |} ];
       slides := [] |}.
Proof.
  rewrite (proj1 (priority_order_C10 (fun _ => false)) _
             {| title := lit "T"; content := [] |});
    vm_compute; reflexivity.
Defined.

(** ** Escaping *)

Lemma replace_flat_map {A} (old : char) (new : str) (f : A -> str) (l : list A) :
  replace old new (flat_map f l) = flat_map (fun x => replace old new (f x)) l.
Proof.
  unfold replace. induction l as [|x l IH]; simpl; [reflexivity|].
  rewrite flat_map_app. f_equal. exact IH.
Qed.

Lemma replace_as_flat_map (old : char) (new : str) (s : str) :
  replace old new s = flat_map (fun c => replace old new [c]) s.
Proof.
  unfold replace. apply flat_map_ext. intros c. simpl. now rewrite app_nil_r.
Qed.

(** [escape_xml] works character by character. *)
Lemma escape_xml_flat_map (s : str) :
  escape_xml s = flat_map (fun c => escape_xml [c]) s.
Proof.
  destruct s as [|c0 s0]; [reflexivity|].
  set (s := c0 :: s0).
  change (escape_xml s) with
    (replace c_apos (lit "&apos;")
       (replace c_quot (lit "&quot;")
          (replace c_gt (lit "&gt;")
             (replace c_lt (lit "&lt;")
                (replace c_amp (lit "&amp;") (html_escape s false)))))).
  unfold html_escape.
  rewrite (replace_as_flat_map c_amp (lit "&amp;") s).
  rewrite !replace_flat_map.
  apply flat_map_ext. intros c. reflexivity.
Qed.

Lemma html_escape_flat_map (s : str) :
  html_escape s false = flat_map (fun c => html_escape [c] false) s.
Proof.
  unfold html_escape.
  rewrite (replace_as_flat_map c_amp (lit "&amp;") s).
  rewrite !replace_flat_map.
  apply flat_map_ext. intros c. reflexivity.
Qed.

Ltac case_char c :=
  unfold c_amp, c_lt, c_gt, c_quot, c_apos in *;
  repeat match goal with
         | |- context [c =? ?k] =>
           let E := fresh "E" in
           destruct (N.eqb_spec c k) as [E|E]; [subst c|]
         end.

Lemma replace_one_other (old : char) (new : str) (c : char) :
  c <> old -> replace old new [c] = [c].
Proof.
  intros H. unfold replace. simpl.
  destruct (N.eqb_spec c old); [contradiction|reflexivity].
Qed.

Lemma escape_xml_char (c : char) : escape_xml [c] = escaped_char c.
Proof.
  unfold escaped_char. case_char c; try (vm_compute; reflexivity).
  unfold escape_xml, html_escape.
  unfold c_amp, c_lt, c_gt, c_quot, c_apos.
  rewrite !replace_one_other; auto.
Qed.

Lemma escaped_char_plain (c : char) : reserved c = false -> escaped_char c = [c].
Proof.
  unfold reserved, escaped_char. intros H.
  repeat (apply orb_false_iff in H as [H ?]).
  now repeat match goal with E : _ = false |- _ => rewrite E; clear E end.
Qed.

Lemma escaped_char_reserved (c : char) :
  reserved c = true ->
  contains c_amp (escaped_char c) = true
  /\ (1 < List.length (escaped_char c))%nat.
Proof.
  unfold reserved, escaped_char. case_char c; simpl; try discriminate;
    intros _; split; try reflexivity; vm_compute; lia.
Qed.

Lemma escaped_char_length (c : char) : (1 <= List.length (escaped_char c))%nat.
Proof.
  unfold escaped_char. case_char c; vm_compute; lia.
Qed.

Lemma escape_xml_chars (s : str) : escape_xml s = flat_map escaped_char s.
Proof.
  rewrite escape_xml_flat_map. apply flat_map_ext. exact escape_xml_char.
Qed.

Lemma escape_xml_plain (s : str) :
  forallb (fun c => negb (reserved c)) s = true -> escape_xml s = s.
Proof.
  rewrite escape_xml_chars.
  induction s as [|c s IH]; cbn [flat_map forallb]; [reflexivity|].
  intros H. apply andb_true_iff in H as [Hc Hs].
  apply negb_true_iff in Hc.
  rewrite (escaped_char_plain c Hc). cbn [app]. f_equal. auto.
Qed.

Lemma escape_xml_length (s : str) :
  (List.length s <= List.length (escape_xml s))%nat.
Proof.
  rewrite escape_xml_chars.
  induction s as [|c s IH]; cbn [flat_map List.length]; [lia|].
  rewrite length_app.
  pose proof (escaped_char_length c). lia.
Qed.

Lemma escape_xml_grows (s : str) :
  existsb reserved s = true ->
  (List.length s < List.length (escape_xml s))%nat.
Proof.
  rewrite escape_xml_chars.
  induction s as [|c s IH]; cbn [flat_map List.length existsb]; [discriminate|].
  rewrite length_app. intros H.
  apply orb_true_iff in H as [Hc|Hs].
  - destruct (escaped_char_reserved c Hc) as [_ Hl].
    pose proof (escape_xml_length s) as Hle.
    rewrite escape_xml_chars in Hle. lia.
  - pose proof (escaped_char_length c). specialize (IH Hs). lia.
Qed.

Lemma escape_xml_has_amp (s : str) :
  existsb reserved s = true -> existsb reserved (escape_xml s) = true.
Proof.
  rewrite escape_xml_chars.
  induction s as [|c s IH]; cbn [flat_map existsb]; [discriminate|].
  rewrite existsb_app. intros H.
  apply orb_true_iff in H as [Hc|Hs].
  - destruct (escaped_char_reserved c Hc) as [Ha _].
    apply orb_true_iff. left.
    unfold contains in Ha. apply existsb_exists in Ha as [x [Hin Hx]].
    apply existsb_exists. exists x. split; [exact Hin|].
    apply N.eqb_eq in Hx. subst x. reflexivity.
  - rewrite (IH Hs). apply orb_true_r.
Qed.

Lemma no_reserved_or_some (s : str) :
  forallb (fun c => negb (reserved c)) s = negb (existsb reserved s).
Proof.
  induction s as [|c s IH]; simpl; [reflexivity|].
  rewrite IH. now rewrite negb_orb.
Qed.

(** C1, as it stands, fails: [&] is one of the five reserved characters,
    and escaping its escaped form gives a longer string. *)
Lemma escape_not_idempotent_C1 :
  forallb (fun c => reserved c || ascii_alnum c) (lit "&") = true
  /\ escape_xml (escape_xml (lit "&")) <> escape_xml (lit "&").
Proof.
  split; [reflexivity|]. vm_compute. discriminate.
Qed.

(** C1, amended.  Escaping twice equals escaping once exactly for the
    strings that hold none of the five reserved characters, and those
    strings are left as they are. *)
Theorem escape_idempotent_iff_C1 (s : str) :
  (escape_xml (escape_xml s) = escape_xml s
   <-> forallb (fun c => negb (reserved c)) s = true)
  /\ (forallb (fun c => negb (reserved c)) s = true -> escape_xml s = s).
Proof.
  split; [split|].
  - intros Heq. rewrite no_reserved_or_some.
    destruct (existsb reserved s) eqn:E; [|reflexivity].
    exfalso.
    pose proof (escape_xml_grows _ (escape_xml_has_amp s E)) as Hlt.
    rewrite Heq in Hlt. lia.
  - intros H. now rewrite !(escape_xml_plain s H).
  - apply escape_xml_plain.
Qed.

Lemma escape_idempotent_iff_C1_witness :
  escape_xml (escape_xml (lit "Paso 2")) = escape_xml (lit "Paso 2")
  /\ escape_xml (lit "Paso 2") = lit "Paso 2".
Proof.
  split.
  - apply (proj1 (escape_idempotent_iff_C1 (lit "Paso 2"))). reflexivity.
  - apply (proj2 (escape_idempotent_iff_C1 (lit "Paso 2"))). reflexivity.
Defined.

Lemma html_escape_char (c : char) : html_escape [c] false = html_escaped_char c.
Proof.
  unfold html_escaped_char. case_char c; try (vm_compute; reflexivity).
  unfold html_escape.
  unfold c_amp, c_lt, c_gt.
  rewrite !replace_one_other; auto.
Qed.

Lemma html_escape_chars (s : str) : html_escape s false = flat_map html_escaped_char s.
Proof.
  rewrite html_escape_flat_map. apply flat_map_ext. exact html_escape_char.
Qed.

Lemma text_from_plain (c : char) (rest : str) :
  c <> c_lt -> c <> c_amp ->
  Xml.text_from 0 (c :: rest) = option_map (cons c) (Xml.text_from 0 rest).
Proof.
  intros Hl Ha. cbn [Xml.text_from].
  destruct (N.eqb_spec c c_lt); [contradiction|].
  destruct (N.eqb_spec c c_amp); [contradiction|]. reflexivity.
Qed.

(** Reading one escaped character back gives its singly escaped form. *)
Lemma text_from_escaped_char (c : char) (rest : str) :
  Xml.text_from 0 (escaped_char c ++ rest)
  = option_map (app (html_escaped_char c)) (Xml.text_from 0 rest).
Proof.
  unfold escaped_char, html_escaped_char.
  case_char c; eval_lits.
  1-5: cbn; destruct (Xml.text_from 0 rest); reflexivity.
  cbn [app]. rewrite text_from_plain by assumption.
  destruct (Xml.text_from 0 rest); reflexivity.
Qed.

(** An XML reader gives back the text escaped once, not the text. *)
Lemma text_of_escape_xml (s : str) :
  Xml.text_of (escape_xml s) = Some (html_escape s false).
Proof.
  rewrite escape_xml_chars, html_escape_chars. unfold Xml.text_of.
  induction s as [|c s IH]; cbn [flat_map]; [reflexivity|].
  rewrite text_from_escaped_char, IH. reflexivity.
Qed.

Lemma html_escaped_char_length (c : char) :
  (1 <= List.length (html_escaped_char c))%nat.
Proof. unfold html_escaped_char. case_char c; vm_compute; lia. Qed.

Lemma html_escape_length (s : str) :
  (List.length s <= List.length (html_escape s false))%nat.
Proof.
  rewrite html_escape_chars.
  induction s as [|c s IH]; cbn [flat_map List.length]; [lia|].
  rewrite length_app. pose proof (html_escaped_char_length c). lia.
Qed.

Lemma html_escape_grows (s : str) :
  contains c_amp s = true ->
  (List.length s < List.length (html_escape s false))%nat.
Proof.
  unfold contains. rewrite html_escape_chars.
  induction s as [|c s IH]; cbn [flat_map List.length existsb]; [discriminate|].
  rewrite length_app. intros H.
  apply orb_true_iff in H as [Hc|Hs].
  - apply N.eqb_eq in Hc. subst c.
    pose proof (html_escape_length s) as Hle.
    rewrite html_escape_chars in Hle.
    change (List.length (html_escaped_char c_amp)) with 5%nat. lia.
  - pose proof (html_escaped_char_length c). specialize (IH Hs). lia.
Qed.

(** C2 fails on the code.  For a text that holds each of the five reserved
    characters, what an XML reader gives back from [escape_xml] is the text
    escaped once more ([a < b] reads back as [a &lt; b]), never the text
    itself. *)
Theorem escape_read_back_C2 (s : str) :
  contains c_amp s = true -> contains c_lt s = true ->
  contains c_gt s = true -> contains c_quot s = true ->
  contains c_apos s = true ->
  Xml.text_of (escape_xml s) = Some (html_escape s false)
  /\ Xml.text_of (escape_xml s) <> Some s.
Proof.
  intros Ha _ _ _ _. split; [apply text_of_escape_xml|].
  rewrite text_of_escape_xml. intros Heq.
  assert (Hl : List.length (html_escape s false) = List.length s)
    by (f_equal; congruence).
  pose proof (html_escape_grows s Ha) as Hlt. lia.
Qed.

Lemma escape_read_back_C2_witness :
  Xml.text_of (escape_xml [c_amp; c_lt; c_gt; c_quot; c_apos])
  = Some (lit "&amp;&lt;&gt;" ++ [c_quot; c_apos])
  /\ Xml.text_of (escape_xml [c_amp; c_lt; c_gt; c_quot; c_apos])
     <> Some [c_amp; c_lt; c_gt; c_quot; c_apos].
Proof.
  apply (escape_read_back_C2 [c_amp; c_lt; c_gt; c_quot; c_apos]); reflexivity.
Defined.

(** ** The page generator *)

(** Whatever the at most eight blocks of a page are, the height the program
    computes in binary64 is within a millionth of a tenth of the height in
    tenths, so the format with one decimal prints the tenths. *)
Lemma float_heights_are_tenths :
  forallb near_tenths (increment_sequences 8) = true.
Proof. vm_compute. reflexivity. Qed.

Lemma content_loop_full (items : list ContentBlock) (y : N) (n : nat) :
  (8 <= n)%nat -> content_loop items y n = [].
Proof.
  intros Hn. destruct items as [|b rest]; [reflexivity|].
  cbn [content_loop].
  destruct (Nat.leb_spec 8 n); [reflexivity|lia].
Qed.

Lemma content_loop_bold (t : str) (rest : list ContentBlock) (y : N) (n : nat) :
  content_loop ({| type := Bold; text := t |} :: rest) y n = content_loop rest y n.
Proof.
  cbn [content_loop type text].
  destruct (Nat.leb_spec 8 n) as [Hn|Hn].
  - now rewrite content_loop_full.
  - destruct (truthy t); reflexivity.
Qed.

Lemma content_loop_emits (b : ContentBlock) (rest : list ContentBlock)
    (y : N) (n : nat) :
  qualifying b = true -> (n < 8)%nat ->
  content_loop (b :: rest) y n
  = shape b (y + increment b) ++ content_loop rest (y + increment b) (S n).
Proof.
  unfold qualifying. intros Hq Hn. apply andb_true_iff in Hq as [Ht Hty].
  cbn [content_loop]. rewrite Ht.
  destruct (Nat.leb_spec 8 n); [lia|].
  unfold shape, increment. destruct (type b); try reflexivity. discriminate.
Qed.

(** C3 fails on the code.  The loop has no branch for a bold block: it adds
    no shape for it and moves on with the height and the count unchanged,
    whatever the text.  A slide whose only block is a bold [x] gets the page
    of a slide without content, whereas the same text as a plain block gets
    the text shape at height 4.4, which is also what the layout of the
    specification gives the bold block.  The rest holds: below the cap, a
    subtitle, a bullet or a plain block with a text gets its own shape, 0.8,
    0.5 or 0.4 below the previous one (the bullet at 2.0cm from the left,
    the others at 1.4cm). *)
Theorem bold_not_emitted_C3 :
  (forall t rest y n,
      content_loop ({| type := Bold; text := t |} :: rest) y n
      = content_loop rest y n)
  /\ create_slide_xml_lines
       {| title := lit "T"; content := [ {| type := Bold; text := lit "x" |} ] |} 0
     = create_slide_xml_lines {| title := lit "T"; content := [] |} 0
  /\ content_loop [ {| type := PlainText; text := lit "x" |} ] 40 0
     = text_frame 44 (lit "x")
  /\ layout [ {| type := Bold; text := lit "x" |} ] 40 = text_frame 44 (lit "x")
  /\ (forall b rest y n,
         qualifying b = true -> (n < 8)%nat ->
         content_loop (b :: rest) y n
         = shape b (y + increment b) ++ content_loop rest (y + increment b) (S n))
  /\ increment {| type := Subtitle; text := [] |} = 8
  /\ increment {| type := Bullet; text := [] |} = 5
  /\ increment {| type := PlainText; text := [] |} = 4.
Proof.
  split; [exact content_loop_bold|].
  split; [vm_compute; reflexivity|].
  split; [vm_compute; reflexivity|].
  split; [vm_compute; reflexivity|].
  split; [exact content_loop_emits|].
  repeat split.
Qed.

Lemma bold_not_emitted_C3_witness :
  content_loop [ {| type := Bullet; text := lit "x" |};
                 {| type := Bold; text := lit "y" |} ] 40 0
  = bullet_frame 45 (escape_xml (lit "x")).
Proof.
  rewrite (proj1 (proj2 (proj2 (proj2 (proj2 bold_not_emitted_C3)))) _ _ 40 0%nat);
    [|reflexivity|lia].
  rewrite (proj1 bold_not_emitted_C3).
  cbn [shape increment type text content_loop]. apply app_nil_r.
Defined.

Lemma content_loop_layout (items : list ContentBlock) (y : N) (n : nat) :
  (n <= 8)%nat ->
  content_loop items y n = layout (firstn (8 - n) (filter qualifying items)) y.
Proof.
  revert y n. induction items as [|b rest IH]; intros y n Hn.
  - cbn [content_loop filter]. now rewrite firstn_nil.
  - destruct (Nat.eq_dec n 8) as [->|Hne].
    + rewrite content_loop_full by lia. reflexivity.
    + cbn [content_loop filter]. unfold qualifying at 1.
      destruct (Nat.leb_spec 8 n); [lia|].
      destruct (truthy (text b)); cbn [negb andb]; [|now apply IH].
      destruct b as [ty t]; cbn [type text]; destruct ty.
      1, 2, 4:
        replace (8 - n)%nat with (S (8 - S n)) by lia;
        cbn [firstn layout shape increment type text];
        rewrite IH by lia; reflexivity.
      now apply IH.
Qed.

Lemma count_frames_app (a b : list str) :
  count_frames (a ++ b) = (count_frames a + count_frames b)%nat.
Proof. unfold count_frames. now rewrite filter_app, length_app. Qed.

Lemma count_frames_shape (b : ContentBlock) (y : N) : count_frames (shape b y) = 1%nat.
Proof.
  unfold shape, subtitle_frame, bullet_frame, text_frame, count_frames.
  eval_lits. destruct (type b); reflexivity.
Qed.

Lemma count_frames_layout (items : list ContentBlock) (y : N) :
  count_frames (layout items y) = List.length items.
Proof.
  revert y. induction items as [|b rest IH]; intros y; [reflexivity|].
  cbn [layout List.length]. now rewrite count_frames_app, count_frames_shape, IH.
Qed.

Lemma count_frames_title (e : str) : count_frames (title_frame e) = 1%nat.
Proof. unfold title_frame, count_frames. eval_lits. reflexivity. Qed.

Lemma count_frames_page_open (n : nat) : count_frames [page_open n] = 0%nat.
Proof. unfold page_open, count_frames. eval_lits. reflexivity. Qed.

Lemma qualifying_without_bold (items : list ContentBlock) :
  forallb (fun b => match type b with Bold => false | _ => true end) items = true ->
  filter qualifying items = filter (fun b => truthy (text b)) items.
Proof.
  induction items as [|b rest IH]; cbn [forallb filter]; [reflexivity|].
  intros H. apply andb_true_iff in H as [Hb Hr].
  unfold qualifying at 1. rewrite Hb, andb_true_r, (IH Hr). reflexivity.
Qed.

Lemma content_loop_all_bold (items : list ContentBlock) (y : N) (n : nat) :
  forallb (fun b => match type b with Bold => true | _ => false end) items = true ->
  content_loop items y n = [].
Proof.
  induction items as [|[ty t] rest IH]; cbn [forallb]; [reflexivity|].
  cbn [type]. destruct ty; try discriminate.
  intros H. rewrite content_loop_bold. now apply IH.
Qed.

(** C6 fails on the code, through the missing branch for bold blocks (the
    defect of C3).  The loop appends a shape for the first eight blocks
    that have a text and are a subtitle, a bullet or a plain text; a bold
    block gets none and takes no place among the eight.  So a slide with
    more than eight blocks that have a text gets the title shape and as
    many content shapes as it has such non-bold blocks, at most eight:
    fewer than eight when fewer than eight of its blocks are not bold, and
    none at all when all are bold, where the claim has exactly eight.  The
    claim holds for the slides without bold blocks: there the first eight
    blocks with a text get the eight content shapes, in their order, and
    blocks with an empty text take no place. *)
Theorem bold_blocks_and_the_cap_C6 (slide : Slide) (n : nat) :
  (8 < List.length (filter has_text (content slide)))%nat ->
  create_slide_xml_lines slide n
  = [page_open n] ++ title_frame (escape_xml (title slide))
    ++ layout (firstn 8 (filter qualifying (content slide))) 40
    ++ [page_close]
  /\ count_frames (create_slide_xml_lines slide n)
     = S (Nat.min 8 (List.length (filter qualifying (content slide))))
  /\ ((List.length (filter qualifying (content slide)) < 8)%nat ->
      (count_frames (create_slide_xml_lines slide n) < 9)%nat)
  /\ (forallb (fun b => match type b with Bold => true | _ => false end)
              (content slide) = true ->
      count_frames (create_slide_xml_lines slide n) = 1%nat
      /\ create_slide_xml_lines slide n
         = create_slide_xml_lines {| title := title slide; content := [] |} n)
  /\ (forallb (fun b => match type b with Bold => false | _ => true end)
              (content slide) = true ->
      filter qualifying (content slide) = filter has_text (content slide)
      /\ List.length (firstn 8 (filter has_text (content slide))) = 8%nat
      /\ count_frames (create_slide_xml_lines slide n) = 9%nat).
Proof.
  intros Hmore.
  assert (Heq : create_slide_xml_lines slide n
                = [page_open n] ++ title_frame (escape_xml (title slide))
                  ++ layout (firstn 8 (filter qualifying (content slide))) 40
                  ++ [page_close]).
  { unfold create_slide_xml_lines.
    rewrite (content_loop_layout (content slide) 40 0) by lia. reflexivity. }
  assert (Hc : count_frames (create_slide_xml_lines slide n)
               = S (Nat.min 8 (List.length (filter qualifying (content slide))))).
  { rewrite Heq, !count_frames_app, count_frames_page_open, count_frames_title,
      count_frames_layout, length_firstn.
    change (count_frames [page_close]) with 0%nat. lia. }
  split; [exact Heq|]. split; [exact Hc|]. split; [|split].
  - intros Hfew. rewrite Hc. lia.
  - intros Hbold.
    assert (Hsame : create_slide_xml_lines slide n
                    = create_slide_xml_lines {| title := title slide; content := [] |} n).
    { unfold create_slide_xml_lines. cbn [title content].
      now rewrite (content_loop_all_bold _ _ _ Hbold). }
    split; [|exact Hsame].
    rewrite Hsame. unfold create_slide_xml_lines. cbn [title content content_loop].
    rewrite !count_frames_app, count_frames_page_open, count_frames_title.
    reflexivity.
  - intros Hnobold.
    pose proof (qualifying_without_bold _ Hnobold) as Hq.
    change (fun b => truthy (text b)) with has_text in Hq.
    split; [exact Hq|].
    split; [rewrite length_firstn; lia|].
    rewrite Hc, Hq. lia.
Qed.

Lemma bold_blocks_and_the_cap_C6_witness :
  count_frames (create_slide_xml_lines bold_slide 0) = 1%nat
  /\ create_slide_xml_lines bold_slide 0
     = create_slide_xml_lines {| title := title bold_slide; content := [] |} 0.
Proof.
  refine (proj1 (proj2 (proj2 (proj2 (bold_blocks_and_the_cap_C6 bold_slide 0 _)))) _).
  - vm_compute. lia.
  - reflexivity.
Defined.

(** On a slide with a bold block among its first blocks, the eight shapes
    are not those of the first eight blocks that have a text. *)
Example crowded_slide_shapes :
  firstn 8 (filter has_text (content crowded_slide))
  = {| type := Bold; text := lit "nota" |}
    :: map (fun n => {| type := Bullet; text := str_of_nat n |}) (seq 1 7)
  /\ firstn 8 (filter qualifying (content crowded_slide))
     = map (fun n => {| type := Bullet; text := str_of_nat n |}) (seq 1 8)
  /\ count_frames (create_slide_xml_lines crowded_slide 0) = 9%nat.
Proof. repeat split; vm_compute; reflexivity. Qed.

(** ** Files and the archive *)

Lemma bind_ok {A B} (c : M A) (k : A -> M B) (w w' : World) (b : B) :
  bind c k w = (w', Ok b) ->
  exists a w1, c w = (w1, Ok a) /\ k a w1 = (w', Ok b).
Proof.
  unfold bind. destruct (c w) as [w1 [a|e]]; [|discriminate].
  intros H. now exists a, w1.
Qed.

Lemma bind_ok_then {A B} (c : M A) (k : A -> M B) (w w1 : World) (a : A) :
  c w = (w1, Ok a) -> bind c k w = k a w1.
Proof. unfold bind. now intros ->. Qed.

Lemma lookup_set_same (p : str) (d : FileData) (fs : list (str * FileData)) :
  lookup p (set_file p d fs) = Some d.
Proof.
  induction fs as [|[q d'] fs IH]; simpl.
  - now rewrite str_eqb_refl.
  - destruct (str_eqb q p) eqn:E; simpl; rewrite E; auto.
Qed.

Lemma lookup_set_other (p q : str) (d : FileData) (fs : list (str * FileData)) :
  str_eqb p q = false -> lookup q (set_file p d fs) = lookup q fs.
Proof.
  intros Hne. induction fs as [|[r d'] fs IH]; simpl.
  - now rewrite Hne.
  - destruct (str_eqb r p) eqn:E; simpl.
    + apply str_eqb_eq in E. subst r. now rewrite Hne.
    + destruct (str_eqb r q); auto.
Qed.

Lemma lookup_outside (d p : str) (fs : list (str * FileData)) :
  below d p = false ->
  lookup p (filter (fun '(q, _) => negb (below d q)) fs) = lookup p fs.
Proof.
  intros Hout. induction fs as [|[r d'] fs IH]; simpl; [reflexivity|].
  destruct (below d r) eqn:Eb; simpl.
  - destruct (str_eqb r p) eqn:E; [|exact IH].
    apply str_eqb_eq in E. subst r. congruence.
  - now rewrite IH.
Qed.

Lemma below_differs (d name p : str) :
  below d p = false -> str_eqb p (d ++ slash ++ name) = false.
Proof.
  intros Hout. destruct (str_eqb p (d ++ slash ++ name)) eqn:E; [|reflexivity].
  apply str_eqb_eq in E. subst p. exfalso.
  assert (Hin : below d (d ++ slash ++ name) = true).
  { unfold below. rewrite app_assoc.
    generalize (d ++ slash). intros pre.
    induction pre as [|c pre IH]; simpl; [reflexivity|].
    now rewrite N.eqb_refl. }
  congruence.
Qed.

Lemma write_text_world (p t : str) (w w' : World) (r : Result unit) :
  write_text p t w = (w', r) ->
  dirs w' = dirs w /\ self_slides w' = self_slides w
  /\ exists bs, files w' = set_file p (Bytes bs) (files w)
                /\ (r = Ok tt -> utf8_encode t = Some bs).
Proof.
  unfold write_text. destruct (utf8_encode t) as [bs|]; intros H;
    injection H as <- <-; cbn [dirs files self_slides]; repeat split; eauto.
  exists []. split; [reflexivity|discriminate].
Qed.

Lemma write_text_staged (p t : str) (w w' : World) (r : Result unit) :
  str_eqb p mimetype_path = false ->
  staged w -> write_text p t w = (w', r) -> staged w'.
Proof.
  intros Hp [Hd Hm] H.
  apply write_text_world in H as (Hd' & _ & bs & Hf & _).
  split; [now rewrite Hd'|].
  rewrite Hf, lookup_set_other; assumption.
Qed.

Lemma makedirs_ok (d : str) (w w' : World) (u : unit) :
  makedirs d w = (w', Ok u) ->
  files w' = files w
  /\ existsb (str_eqb d) (dirs w') = true
  /\ (forall x, existsb (str_eqb x) (dirs w) = true ->
                existsb (str_eqb x) (dirs w') = true).
Proof.
  unfold makedirs.
  destruct (existsb (str_eqb d) (dirs w)) eqn:E.
  - intros H. injection H as <- _. auto.
  - destruct (existsb _ (files w)); [discriminate|].
    intros H. injection H as <- _. cbn [files dirs].
    rewrite existsb_app. cbn [existsb]. rewrite str_eqb_refl.
    repeat split.
    + now rewrite orb_true_r.
    + intros x Hx. rewrite existsb_app, Hx. reflexivity.
Qed.

(** [create_fixed_odp], when it returns, returns the staging directory,
    which is there and holds the media type. *)
Lemma create_fixed_odp_staged (env : Env) (w w1 : World) (td : str) :
  create_fixed_odp env w = (w1, Ok td) -> td = temp_dir_name /\ staged w1.
Proof.
  unfold create_fixed_odp. intros H.
  apply bind_ok in H as (_ & wa & _ & H).
  apply bind_ok in H as (u1 & wb & H1 & H).
  apply bind_ok in H as (u2 & wc & H2 & H).
  apply bind_ok in H as (u3 & wd & H3 & H).
  apply bind_ok in H as (u4 & we & H4 & H).
  apply bind_ok in H as (u5 & wf & H5 & H).
  apply bind_ok in H as (u6 & wg & H6 & H).
  apply bind_ok in H as (u7 & wh & H7 & H).
  unfold ret in H. injection H as <- <-. split; [reflexivity|].
  apply makedirs_ok in H1 as (_ & Hd1 & _).
  apply makedirs_ok in H2 as (_ & _ & Hk2).
  specialize (Hk2 _ Hd1).
  assert (Hs : staged wd).
  { destruct u3. apply write_text_world in H3 as (Hd3 & _ & bs & Hf3 & Hbs).
    specialize (Hbs eq_refl).
    assert (bs = mimetype_bytes)
      by (vm_compute in Hbs; injection Hbs as <-; reflexivity).
    subst bs.
    split; [now rewrite Hd3|].
    rewrite Hf3. apply lookup_set_same. }
  unfold create_manifest in H4. unfold create_content_xml in H5.
  unfold create_styles_xml in H6. unfold create_meta_xml in H7.
  eapply write_text_staged in H4; [|reflexivity|exact Hs].
  eapply write_text_staged in H5; [|reflexivity|exact H4].
  eapply write_text_staged in H6; [|reflexivity|exact H5].
  eapply write_text_staged in H7; [|reflexivity|exact H6].
  exact H7.
Qed.

Lemma keeps_dirs_bind {A B} (c : M A) (k : A -> M B) :
  keeps_dirs c -> (forall a, keeps_dirs (k a)) -> keeps_dirs (bind c k).
Proof.
  intros Hc Hk w w' r. unfold bind.
  destruct (c w) as [w1 [a|e]] eqn:E; intros H.
  - rewrite (Hk a _ _ _ H). eauto.
  - injection H as <- _. eauto.
Qed.

Lemma ZipFile_open_dirs env path c : keeps_dirs (ZipFile_open env path c).
Proof.
  intros w w' r. unfold ZipFile_open.
  destruct (zip_fault env 0); [intros H; injection H as <- _; reflexivity|].
  destruct (existsb _ (dirs w)); [intros H; injection H as <- _; reflexivity|].
  destruct (_ && _); intros H; injection H as <- _; reflexivity.
Qed.

(** An archive that could be opened is not a directory, and starts empty. *)
Lemma ZipFile_open_ok env path c (w w' : World) (zf : ZipFile) :
  ZipFile_open env path c w = (w', Ok zf) ->
  existsb (str_eqb path) (dirs w) = false
  /\ w' = {| files := set_file path (Zip []) (files w); dirs := dirs w;
             self_slides := self_slides w |}
  /\ zf = {| zpath := path; compression := c |}.
Proof.
  unfold ZipFile_open.
  destruct (zip_fault env 0); [discriminate|].
  destruct (existsb _ (dirs w)); [discriminate|].
  destruct (_ && _); [discriminate|].
  intros H. injection H as <- <-. repeat split.
Qed.

Lemma ZipFile_write_dirs env k zf filename arc ct :
  keeps_dirs (ZipFile_write env k zf filename arc ct).
Proof.
  intros w w' r. unfold ZipFile_write.
  destruct (zip_fault env k); [intros H; injection H as <- _; reflexivity|].
  destruct (lookup filename (files w)) as [held|];
    [|intros H; injection H as <- _; reflexivity].
  destruct (lookup (zpath zf) (files w)) as [[bs'|es]|];
    intros H; injection H as <- _; reflexivity.
Qed.

Lemma write_members_dirs env zf fs : forall k, keeps_dirs (write_members env zf k fs).
Proof.
  induction fs as [|[file_path arc_path] fs IH]; intros k; cbn [write_members].
  - intros w w' r H. injection H as <- _. reflexivity.
  - destruct (negb _); [|apply IH].
    apply keeps_dirs_bind; [apply ZipFile_write_dirs|intros _; apply IH].
Qed.

Lemma create_odp_file_dirs env self td : keeps_dirs (create_odp_file env self td).
Proof.
  unfold create_odp_file.
  apply keeps_dirs_bind; [apply ZipFile_open_dirs|]. intros zf.
  apply keeps_dirs_bind; [apply ZipFile_write_dirs|]. intros _.
  intros w w' r. apply write_members_dirs.
Qed.

Lemma ZipFile_write_first env k zf filename arc ct (e : ZipEntry) :
  keeps_first (zpath zf) e (ZipFile_write env k zf filename arc ct).
Proof.
  intros w w' r [rest Hl]. unfold ZipFile_write.
  destruct (zip_fault env k); [intros H; injection H as <- _; now exists rest|].
  destruct (lookup filename (files w)) as [held|];
    [|intros H; injection H as <- _; now exists rest].
  rewrite Hl. intros H. injection H as <- _.
  unfold first_member. cbn [files].
  eexists. rewrite lookup_set_same. cbn [app]. reflexivity.
Qed.

Lemma write_members_first env zf (e : ZipEntry) fs :
  forall k, keeps_first (zpath zf) e (write_members env zf k fs).
Proof.
  induction fs as [|[file_path arc_path] fs IH]; intros k; cbn [write_members].
  - intros w w' r Hf H. injection H as <- _. exact Hf.
  - destruct (negb _); [|apply IH].
    intros w w' r Hf. unfold bind.
    destruct (ZipFile_write env k zf file_path arc_path None w) as [w1 [u|x]] eqn:E;
      intros H.
    + eapply IH; [|exact H]. eapply ZipFile_write_first; eauto.
    + injection H as <- _. eapply ZipFile_write_first; eauto.
Qed.

(** When [create_odp_file] returns, the archive starts with the media type
    member, compressed as the archive was opened: deflated. *)
Lemma create_odp_file_first env self (w w' : World) (u : unit) :
  staged w ->
  below temp_dir_name (output_file self) = false ->
  create_odp_file env self temp_dir_name w = (w', Ok u) ->
  first_member (output_file self) (mimetype_entry ZIP_DEFLATED) w'.
Proof.
  intros [_ Hm] Hout H. unfold create_odp_file in H.
  apply bind_ok in H as (zf & wa & Ho & H).
  apply bind_ok in H as (u1 & wb & Hw & H).
  apply ZipFile_open_ok in Ho as (_ & -> & ->).
  assert (Hne : str_eqb (output_file self) mimetype_path = false).
  { apply (below_differs temp_dir_name (lit "mimetype")). exact Hout. }
  unfold ZipFile_write in Hw. cbn [zpath files compression] in Hw.
  destruct (zip_fault env 1); [discriminate|].
  change (temp_dir_name ++ lit "/mimetype") with mimetype_path in Hw.
  rewrite lookup_set_other, Hm, lookup_set_same in Hw by exact Hne.
  injection Hw as <-.
  refine (write_members_first env
            {| zpath := output_file self; compression := ZIP_DEFLATED |}
            (mimetype_entry ZIP_DEFLATED) _ _ _ _ _ _ H).
  exists []. cbn [zpath files]. rewrite lookup_set_same. reflexivity.
Qed.

Lemma cleanup_first (td out : str) (e : ZipEntry) :
  below td out = false -> keeps_first out e (cleanup td).
Proof.
  intros Hout w w' r [rest Hl]. unfold cleanup, rmtree.
  destruct (path_exists td w); [|intros H; injection H as <- _; now exists rest].
  destruct (existsb (str_eqb td) (dirs w)).
  - intros H. injection H as <- _. exists rest. cbn [files].
    now rewrite lookup_outside.
  - destruct (existsb _ (files w)); intros H; injection H as <- _; now exists rest.
Qed.

(** C4 fails on the code in one point.  After a run that succeeds (the
    destination lying outside the staging directory), the first member of the
    archive is named [mimetype] and holds exactly the media type, without a
    newline; but it is deflated, like every other member, because
    [ZipFile.write] is called without a compression of its own. *)
Theorem mimetype_member_C4 (ua : char -> bool) (env : Env) (self : Converter)
    (w w' : World) :
  below temp_dir_name (output_file self) = false ->
  convert ua env self w = (w', Ok tt) ->
  exists rest,
    lookup (output_file self) (files w')
    = Some (Zip ({| arcname := lit "mimetype";
                    compress_type := ZIP_DEFLATED;
                    data := bytes_of_string
                              "application/vnd.oasis.opendocument.presentation" |}
                   :: rest)).
Proof.
  intros Hout H. unfold convert in H.
  apply bind_ok in H as (content & w0 & _ & H).
  apply bind_ok in H as (u0 & wp & _ & H).
  apply bind_ok in H as (td & w1 & Hs & H).
  apply bind_ok in H as (u1 & w2 & Hz & H).
  apply bind_ok in H as (u2 & w3 & Hc & H).
  injection H as <-.
  apply create_fixed_odp_staged in Hs as [-> Hs].
  eapply cleanup_first; [exact Hout| |exact Hc].
  eapply create_odp_file_first; eauto.
Qed.

Lemma mimetype_member_C4_witness :
  exists rest,
    lookup (lit "manual.odp")
           (files (fst (convert (fun _ => false) demo_env demo_converter demo_world)))
    = Some (Zip ({| arcname := lit "mimetype";
                    compress_type := ZIP_DEFLATED;
                    data := bytes_of_string
                              "application/vnd.oasis.opendocument.presentation" |}
                   :: rest)).
Proof.
  apply (mimetype_member_C4 (fun _ => false) demo_env demo_converter demo_world).
  - reflexivity.
  - vm_compute. reflexivity.
Defined.

(** C5, as it stands, fails: when the destination cannot be opened the run
    ends with that error and the staging directory is still there. *)
Lemma staging_left_behind_C5 :
  snd (convert (fun _ => false) failing_env demo_converter demo_world)
  = Raise (OSError 13)
  /\ path_exists temp_dir_name
       (fst (convert (fun _ => false) failing_env demo_converter demo_world))
     = true.
Proof. split; vm_compute; reflexivity. Qed.

(** C5, amended.  When the source was read and staged and the writing of
    the archive raises, [convert] ends with that very exception, and
    [cleanup] is not reached: the staging directory is still there. *)
Theorem archive_failure_C5 (ua : char -> bool) (env : Env) (self : Converter)
    (w w0 wp w1 w2 : World) (content td : str) (e : Exn) :
  read_markdown self w = (w0, Ok content) ->
  parse_content_m ua content w0 = (wp, Ok tt) ->
  create_fixed_odp env wp = (w1, Ok td) ->
  create_odp_file env self td w1 = (w2, Raise e) ->
  convert ua env self w = (w2, Raise e)
  /\ path_exists td w2 = true.
Proof.
  intros Hr Hp Hs Hz. split.
  - unfold convert.
    rewrite (bind_ok_then _ _ _ _ _ Hr), (bind_ok_then _ _ _ _ _ Hp),
      (bind_ok_then _ _ _ _ _ Hs).
    unfold bind at 1. now rewrite Hz.
  - apply create_fixed_odp_staged in Hs as [-> [Hd _]].
    unfold path_exists.
    rewrite (create_odp_file_dirs _ _ _ _ _ _ Hz), Hd. reflexivity.
Qed.

Lemma archive_failure_C5_witness :
  convert (fun _ => false) failing_env demo_converter demo_world
  = (fst (convert (fun _ => false) failing_env demo_converter demo_world),
     Raise (OSError 13))
  /\ path_exists temp_dir_name
       (fst (convert (fun _ => false) failing_env demo_converter demo_world))
     = true.
Proof.
  eapply (archive_failure_C5 (fun _ => false) failing_env demo_converter demo_world).
  - vm_compute. reflexivity.
  - vm_compute. reflexivity.
  - vm_compute. reflexivity.
  - vm_compute. reflexivity.
Defined.

(** * Further properties *)

(** ** Lines and blanks *)

Lemma split_nonempty (sep : char) (s : str) : split sep s <> [].
Proof.
  destruct s as [|c r]; cbn [split]; [discriminate|].
  destruct (c =? sep); [discriminate|].
  destruct (split sep r); discriminate.
Qed.

Lemma split_app (sep : char) (a b : str) :
  split sep (a ++ sep :: b) = split sep a ++ split sep b.
Proof.
  induction a as [|c a IH]; cbn [app split].
  - now rewrite N.eqb_refl.
  - destruct (c =? sep); [now rewrite IH|].
    rewrite IH. pose proof (split_nonempty sep a) as Hne.
    destruct (split sep a) as [|h t]; [contradiction|reflexivity].
Qed.

Lemma split_one_line (sep : char) (s : str) :
  contains sep s = false -> split sep s = [s].
Proof.
  unfold contains. induction s as [|c s IH]; cbn [existsb split]; [reflexivity|].
  intros H. apply orb_false_iff in H as [Hc Hs].
  rewrite N.eqb_sym in Hc. rewrite Hc, (IH Hs). reflexivity.
Qed.

Lemma lstrip_head (s : str) :
  match lstrip s with [] => True | c :: _ => isspace c = false end.
Proof.
  induction s as [|c s IH]; cbn [lstrip]; [exact I|].
  destruct (isspace c) eqn:E; [exact IH|exact E].
Qed.

Lemma lstrip_fixed (c : char) (s : str) : isspace c = false -> lstrip (c :: s) = c :: s.
Proof. intros H. cbn [lstrip]. now rewrite H. Qed.

Lemma lstrip_suffix (s : str) : exists pre, s = pre ++ lstrip s.
Proof.
  induction s as [|c s [pre IH]]; cbn [lstrip]; [now exists []|].
  destruct (isspace c); [|now exists []].
  exists (c :: pre). cbn [app]. now f_equal.
Qed.

Lemma last_app_nonempty {A} (a b : list A) (d : A) :
  b <> [] -> last (a ++ b) d = last b d.
Proof.
  intros Hb. induction a as [|x a IH]; [reflexivity|].
  cbn [app].
  change (last (x :: (a ++ b)) d)
    with (match a ++ b with [] => x | _ :: _ => last (a ++ b) d end).
  destruct (a ++ b) eqn:E; [|exact IH].
  apply app_eq_nil in E as [_ ->]. contradiction.
Qed.

Lemma last_rev_cons {A} (x : A) (l : list A) (d : A) : last (rev (x :: l)) d = x.
Proof. cbn [rev]. apply last_last. Qed.

(** A trimmed line is empty, or begins and ends with a character that is
    not white space. *)
Lemma strip_ends (raw : str) :
  match strip raw with
  | [] => True
  | c :: _ => isspace c = false /\ isspace (last (strip raw) 0) = false
  end.
Proof.
  unfold strip, rstrip.
  pose proof (lstrip_head (rev (lstrip raw))) as Hh.
  destruct (lstrip_suffix (rev (lstrip raw))) as [pre Hpre].
  destruct (lstrip (rev (lstrip raw))) as [|z zs] eqn:Ez; [exact I|].
  assert (Hlast : isspace (last (rev (z :: zs)) 0) = false)
    by now rewrite last_rev_cons.
  destruct (rev (z :: zs)) as [|c cs] eqn:Er.
  - exact I.
  - split; [|exact Hlast].
    (* the first character is the last of [z :: zs], the first of [lstrip raw] *)
    assert (Hc : last (z :: zs) 0 = c).
    { rewrite <- (rev_involutive (z :: zs)), Er. apply last_rev_cons. }
    assert (Hl : last (rev (lstrip raw)) 0 = c).
    { rewrite Hpre. rewrite last_app_nonempty by discriminate. exact Hc. }
    pose proof (lstrip_head raw) as Hr.
    destruct (lstrip raw) as [|y ys] eqn:Ey.
    + destruct pre; discriminate.
    + rewrite last_rev_cons in Hl. now subst y.
Qed.

Lemma rev_eq_cons_last {A} (l : list A) (c : A) (cs : list A) (d : A) :
  l = c :: cs -> rev l = last l d :: rev (removelast l).
Proof.
  intros H. assert (Hne : l <> []) by (rewrite H; discriminate).
  rewrite (app_removelast_last d Hne) at 1.
  rewrite rev_app_distr. reflexivity.
Qed.

(** Trimming is idempotent. *)
Lemma strip_strip (raw : str) : strip (strip raw) = strip raw.
Proof.
  pose proof (strip_ends raw) as H.
  destruct (strip raw) as [|c cs] eqn:E; [reflexivity|].
  destruct H as [Hc Hl].
  unfold strip at 1, rstrip. rewrite (lstrip_fixed c cs Hc).
  rewrite (rev_eq_cons_last (c :: cs) c cs 0 eq_refl).
  rewrite lstrip_fixed by exact Hl.
  rewrite <- (rev_eq_cons_last (c :: cs) c cs 0 eq_refl).
  apply rev_involutive.
Qed.

(** ** The parser, line by line *)

Lemma flush_prepend (before : list Slide) (st : PState) :
  flush (prepend before st) = before ++ flush st.
Proof.
  unfold flush, prepend. cbn [current_slide current_content slides].
  destruct (current_slide st); [symmetry; apply app_assoc|reflexivity].
Qed.

Lemma step_prepend ua (before : list Slide) (st : PState) (raw : str) :
  step ua (prepend before st) raw = prepend before (step ua st raw).
Proof.
  unfold step. destruct (is_slide_marker (strip raw)).
  - rewrite flush_prepend. reflexivity.
  - change (current_slide (prepend before st)) with (current_slide st).
    destruct (current_slide st); [|reflexivity].
    destruct (truthy (strip raw)); [|reflexivity].
    destruct (classify (strip raw)); reflexivity.
Qed.

Lemma fold_prepend ua (before : list Slide) (lines : list str) (st : PState) :
  fold_left (step ua) lines (prepend before st)
  = prepend before (fold_left (step ua) lines st).
Proof.
  revert st. induction lines as [|raw lines IH]; intros st; cbn [fold_left].
  - reflexivity.
  - now rewrite step_prepend, IH.
Qed.

Lemma parse_content_from_fold ua (sl : list Slide) (doc : str) :
  parse_content_from ua sl doc
  = sl ++ flush (fold_left (step ua) (split 10 doc) initial_state).
Proof.
  unfold parse_content_from.
  replace {| current_slide := None; current_content := []; slides := sl |}
    with (prepend sl initial_state)
    by (unfold prepend, initial_state; cbn; now rewrite app_nil_r).
  now rewrite fold_prepend, flush_prepend.
Qed.

(** A marker line closes the open slide and opens one without content. *)
Lemma step_marker ua (st : PState) (raw : str) :
  is_slide_marker (strip raw) = true ->
  step ua st raw
  = prepend (flush st)
      {| current_slide := Some {| title := marker_title ua raw; content := [] |};
         current_content := [];
         slides := [] |}.
Proof.
  intros Hm. unfold step, prepend, marker_title. rewrite Hm.
  cbn [current_slide current_content slides]. now rewrite app_nil_r.
Qed.

(** Inside a slide, a line that is not a marker adds its blocks. *)
Lemma step_body ua (st : PState) (cs : Slide) (raw : str) :
  current_slide st = Some cs ->
  is_slide_marker (strip raw) = false ->
  step ua st raw
  = {| current_slide := current_slide st;
       current_content := current_content st ++ line_blocks raw;
       slides := slides st |}.
Proof.
  intros Hc Hm. destruct st as [cur cc sl].
  cbn [current_slide] in Hc. subst cur.
  unfold step, line_blocks, append_item. rewrite Hm.
  cbn [current_slide current_content slides].
  destruct (truthy (strip raw)).
  - destruct (classify (strip raw)); [reflexivity|].
    now rewrite app_nil_r.
  - now rewrite app_nil_r.
Qed.

Lemma fold_body ua (lines : list str) (st : PState) (cs : Slide) :
  current_slide st = Some cs ->
  (forall raw, In raw lines -> is_slide_marker (strip raw) = false) ->
  fold_left (step ua) lines st
  = {| current_slide := current_slide st;
       current_content := current_content st ++ blocks_of lines;
       slides := slides st |}.
Proof.
  revert st. induction lines as [|raw lines IH]; intros st Hc Hall; cbn [fold_left].
  - unfold blocks_of. cbn [flat_map]. rewrite app_nil_r.
    destruct st; reflexivity.
  - rewrite (step_body ua st cs raw Hc) by (apply Hall; now left).
    rewrite IH; [|exact Hc|intros r Hr; apply Hall; now right].
    cbn [current_slide current_content slides].
    unfold blocks_of. cbn [flat_map]. now rewrite app_assoc.
Qed.

(** X1. [parse_content] only appends to [self.slides]: called on a
    converter that already holds slides, it leaves them in front, followed
    by what it makes of the document on a fresh converter. *)
Theorem parse_content_appends (ua : char -> bool) (sl : list Slide) (doc : str) :
  parse_content_from ua sl doc = sl ++ parse_content ua doc.
Proof.
  unfold parse_content. rewrite !parse_content_from_fold. reflexivity.
Qed.

(** X2. Two documents joined by a line break, the second starting with a
    marker line, parse to the slides of the first followed by the slides
    of the second: a marker line closes all that came before it. *)
Theorem parse_content_at_marker (ua : char -> bool) (doc1 doc2 : str) :
  is_slide_marker (strip (hd [] (split 10 doc2))) = true ->
  parse_content ua (doc1 ++ 10 :: doc2)
  = parse_content ua doc1 ++ parse_content ua doc2.
Proof.
  intros Hm. unfold parse_content. rewrite !parse_content_from_fold.
  cbn [app]. rewrite split_app, fold_left_app.
  pose proof (split_nonempty 10 doc2) as Hne.
  destruct (split 10 doc2) as [|m rest]; [contradiction|].
  cbn [hd] in Hm. cbn [fold_left].
  rewrite !(step_marker ua _ m Hm).
  rewrite !fold_prepend, !flush_prepend. reflexivity.
Qed.

Lemma parse_content_at_marker_witness :
  parse_content (fun _ => false) (lit "## A
- x" ++ 10 :: lit "## B
y")
  = parse_content (fun _ => false) (lit "## A
- x") ++ parse_content (fun _ => false) (lit "## B
y").
Proof.
  apply (parse_content_at_marker (fun _ => false)). vm_compute. reflexivity.
Defined.

(** X3. What stands before the first marker line is discarded: lines
    without a marker, put in front of a document, do not change its
    slides. *)
Theorem preamble_discarded (ua : char -> bool) (pre doc : str) :
  (forall raw, In raw (split 10 pre) -> is_slide_marker (strip raw) = false) ->
  parse_content ua (pre ++ 10 :: doc) = parse_content ua doc.
Proof.
  intros Hall. unfold parse_content. rewrite !parse_content_from_fold.
  rewrite split_app, fold_left_app.
  rewrite (fold_no_marker ua (split 10 pre) initial_state eq_refl Hall).
  reflexivity.
Qed.

Lemma preamble_discarded_witness :
  parse_content (fun _ => false) (lit "# Manual
- lost" ++ 10 :: lit "## A
kept")
  = parse_content (fun _ => false) (lit "## A
kept").
Proof.
  apply (preamble_discarded (fun _ => false)).
  intros raw Hin. vm_compute in Hin.
  repeat (destruct Hin as [<- | Hin]; [vm_compute; reflexivity|]).
  contradiction.
Defined.

(** X4. A marker line followed by lines without a marker gives one slide:
    its title is the cleaned rest of the marker line and its content the
    blocks of the following lines, in order. *)
Theorem one_slide (ua : char -> bool) (marker body : str) :
  contains 10 marker = false ->
  is_slide_marker (strip marker) = true ->
  (forall raw, In raw (split 10 body) -> is_slide_marker (strip raw) = false) ->
  parse_content ua (marker ++ 10 :: body)
  = [ {| title := marker_title ua marker; content := blocks_of (split 10 body) |} ].
Proof.
  intros Hone Hm Hall. unfold parse_content. rewrite parse_content_from_fold.
  rewrite split_app, (split_one_line 10 marker Hone).
  cbn [app fold_left]. rewrite (step_marker ua _ marker Hm).
  cbn [flush initial_state current_slide slides prepend current_content app].
  erewrite fold_body; [reflexivity|reflexivity|exact Hall].
Qed.

Lemma one_slide_witness :
  parse_content (fun _ => false) (lit "## Uso" ++ 10 :: lit "- a

| x | y |")
  = [ {| title := marker_title (fun _ => false) (lit "## Uso");
         content := blocks_of (split 10 (lit "- a

| x | y |")) |} ].
Proof.
  apply (one_slide (fun _ => false)).
  - reflexivity.
  - vm_compute. reflexivity.
  - intros raw Hin. vm_compute in Hin.
    repeat (destruct Hin as [<- | Hin]; [vm_compute; reflexivity|]).
    contradiction.
Defined.

Lemma flush_titles_marker ua (st : PState) (raw : str) :
  is_slide_marker (strip raw) = true ->
  map title (flush (step ua st raw)) = map title (flush st) ++ [marker_title ua raw].
Proof.
  intros Hm. rewrite (step_marker ua st raw Hm), flush_prepend, map_app.
  reflexivity.
Qed.

Lemma flush_titles_other ua (st : PState) (raw : str) :
  is_slide_marker (strip raw) = false ->
  map title (flush (step ua st raw)) = map title (flush st).
Proof.
  intros Hm. destruct (current_slide st) as [cs|] eqn:Hc.
  - rewrite (step_body ua st cs raw Hc Hm). unfold flush.
    cbn [current_slide current_content slides]. rewrite Hc, !map_app.
    reflexivity.
  - now rewrite step_no_marker_closed.
Qed.

Lemma fold_titles ua (lines : list str) (st : PState) :
  map title (flush (fold_left (step ua) lines st))
  = map title (flush st)
    ++ map (marker_title ua)
         (filter (fun raw => is_slide_marker (strip raw)) lines).
Proof.
  revert st. induction lines as [|raw lines IH]; intros st; cbn [fold_left filter].
  - now rewrite app_nil_r.
  - rewrite IH. destruct (is_slide_marker (strip raw)) eqn:Hm.
    + rewrite (flush_titles_marker ua st raw Hm). cbn [map].
      now rewrite <- app_assoc.
    + now rewrite (flush_titles_other ua st raw Hm).
Qed.

(** X5. The slides of a document are as many as its marker lines, and
    their titles are, in order, the cleaned rests of those lines. *)
Theorem slides_follow_markers (ua : char -> bool) (doc : str) :
  map title (parse_content ua doc) = map (marker_title ua) (marker_lines doc)
  /\ List.length (parse_content ua doc) = List.length (marker_lines doc).
Proof.
  assert (H : map title (parse_content ua doc)
              = map (marker_title ua) (marker_lines doc)).
  { unfold parse_content. rewrite parse_content_from_fold. cbn [app].
    rewrite fold_titles. reflexivity. }
  split; [exact H|].
  rewrite <- (length_map title), H. apply length_map.
Qed.

(** X6. Blanks around a line never matter to the parser: a line and the
    same line trimmed move every state to the same state. *)
Theorem step_ignores_blanks (ua : char -> bool) (lines : list str) (st : PState) :
  fold_left (step ua) (map strip lines) st = fold_left (step ua) lines st.
Proof.
  revert st. induction lines as [|raw lines IH]; intros st; cbn [map fold_left].
  - reflexivity.
  - rewrite IH. f_equal. unfold step. rewrite strip_strip. reflexivity.
Qed.

Lemma lstrip_keeps (s : str) :
  existsb (fun c => negb (isspace c)) s = true ->
  existsb (fun c => negb (isspace c)) (lstrip s) = true.
Proof.
  induction s as [|c s IH]; cbn [existsb lstrip]; [discriminate|].
  destruct (isspace c) eqn:E; cbn [negb orb]; [exact IH|].
  intros _. cbn [existsb]. now rewrite E.
Qed.

Lemma existsb_rev {A} (f : A -> bool) (l : list A) :
  existsb f (rev l) = existsb f l.
Proof.
  induction l as [|x l IH]; [reflexivity|].
  cbn [rev existsb]. rewrite existsb_app, IH. cbn [existsb].
  rewrite orb_false_r. apply orb_comm.
Qed.

(** A string that holds a character other than white space is not trimmed
    to nothing. *)
Lemma strip_keeps (s : str) :
  existsb (fun c => negb (isspace c)) s = true -> truthy (strip s) = true.
Proof.
  intros H. unfold strip, rstrip.
  apply lstrip_keeps in H. rewrite <- existsb_rev in H.
  apply lstrip_keeps in H. rewrite <- existsb_rev in H.
  destruct (rev (lstrip (rev (lstrip s)))); [discriminate|reflexivity].
Qed.

Lemma last_not_space_exists (c : char) (s : str) :
  isspace (last (c :: s) 0) = false ->
  existsb (fun x => negb (isspace x)) (c :: s) = true.
Proof.
  intros H. apply existsb_exists. exists (last (c :: s) 0). split.
  - destruct (exists_last (l := c :: s)) as (l' & a & E); [discriminate|].
    rewrite E, last_last. apply in_or_app. right. now left.
  - now rewrite H.
Qed.

(** Of a trimmed line the classification never makes a subtitle, a bullet
    or a plain-text block with an empty text. *)
Lemma classify_text_not_empty (raw : str) (b : ContentBlock) :
  classify (strip raw) = Some b ->
  type b <> Bold ->
  truthy (text b) = true.
Proof.
  intros Hc Hty.
  pose proof (strip_ends raw) as Hends. revert Hc. unfold classify.
  destruct (startswith (strip raw) (lit "### ")) eqn:E1.
  { intros Hb. injection Hb as <-. cbn [text]. apply strip_keeps.
    revert E1. eval_lits. intros E1.
    destruct (strip raw) as [|a l]; [discriminate|].
    apply startswith_cons in E1 as [-> E1].
    destruct l as [|b' l]; [discriminate|]. apply startswith_cons in E1 as [-> E1].
    destruct l as [|c l]; [discriminate|]. apply startswith_cons in E1 as [-> E1].
    destruct l as [|d l]; [discriminate|]. apply startswith_cons in E1 as [-> E1].
    destruct Hends as [_ Hl].
    destruct l as [|r rs]; [discriminate Hl|].
    apply last_not_space_exists. exact Hl. }
  destruct (startswith (strip raw) (lit "- ")) eqn:E2.
  { intros Hb. injection Hb as <-. cbn [text]. apply strip_keeps.
    revert E2. eval_lits. intros E2.
    destruct (strip raw) as [|a l]; [discriminate|].
    apply startswith_cons in E2 as [-> E2].
    destruct l as [|b' l]; [discriminate|]. apply startswith_cons in E2 as [-> E2].
    destruct Hends as [_ Hl].
    destruct l as [|r rs]; [discriminate Hl|].
    apply last_not_space_exists. exact Hl. }
  destruct (startswith (strip raw) (lit "**") && endswith (strip raw) (lit "**")).
  { intros Hb. injection Hb as <-. now contradiction Hty. }
  destruct (startswith (strip raw) (lit "|")
            && contains 124 (slice_from 1 (strip raw))).
  { destruct (contains 124 (strip raw)
              && negb (startswith (strip raw) (lit "|---"))); [|discriminate].
    destruct (map strip (slice 1 1 (split 124 (strip raw)))) as [|c0 cells];
      [discriminate|].
    destruct (truthy c0) eqn:E0; [|discriminate].
    intros Hb. injection Hb as <-. cbn [text].
    destruct c0 as [|x c0]; [discriminate|]. destruct cells; reflexivity. }
  destruct (truthy (strip raw)) eqn:E5; [|discriminate].
  destruct (negb (startswith (strip raw) (lit "---"))); [|discriminate].
  intros Hb. injection Hb as <-. exact E5.
Qed.

Lemma texts_present_app (a b : list ContentBlock) :
  texts_present a -> texts_present b -> texts_present (a ++ b).
Proof.
  intros Ha Hb x Hin. apply in_app_or in Hin as [Hin|Hin]; auto.
Qed.

(** Every iteration of the loop keeps the texts in place, in the open
    slide and in the finished ones. *)
Lemma step_texts ua (st : PState) (raw : str) :
  texts_present (current_content st) ->
  (forall s, In s (slides st) -> texts_present (content s)) ->
  texts_present (current_content (step ua st raw))
  /\ (forall s, In s (slides (step ua st raw)) -> texts_present (content s)).
Proof.
  intros Hcur Hdone. unfold step.
  destruct (is_slide_marker (strip raw)).
  - cbn [current_content slides]. split; [intros b Hb; destruct Hb|].
    unfold flush. destruct (current_slide st) as [cs|]; [|exact Hdone].
    intros x Hin. apply in_app_or in Hin as [Hin|[<-|[]]]; [now apply Hdone|].
    exact Hcur.
  - destruct (current_slide st) as [cs|]; [|now split].
    destruct (truthy (strip raw)); [|now split].
    destruct (classify (strip raw)) as [item|] eqn:Hcl; [|now split].
    cbn [append_item current_content slides]. split; [|exact Hdone].
    apply texts_present_app; [exact Hcur|].
    intros b [<-|[]]. now apply (classify_text_not_empty raw).
Qed.

Lemma fold_texts ua (lines : list str) (st : PState) :
  texts_present (current_content st) ->
  (forall s, In s (slides st) -> texts_present (content s)) ->
  forall s, In s (flush (fold_left (step ua) lines st)) -> texts_present (content s).
Proof.
  revert st. induction lines as [|raw lines IH]; intros st Hcur Hdone; cbn [fold_left].
  - unfold flush. destruct (current_slide st) as [cs|]; [|exact Hdone].
    intros x Hin. apply in_app_or in Hin as [Hin|[<-|[]]]; [now apply Hdone|].
    exact Hcur.
  - destruct (step_texts ua st raw Hcur Hdone) as [H1 H2]. now apply IH.
Qed.

(** X7. In every slide [parse_content] returns, the subtitles, the bullets
    and the plain texts have a text that is not empty: only a bold block
    can be empty (from a line of nothing but asterisks). *)
Theorem parsed_text_not_empty (ua : char -> bool) (doc : str) (s : Slide)
    (b : ContentBlock) :
  In s (parse_content ua doc) ->
  In b (content s) ->
  type b <> Bold ->
  truthy (text b) = true.
Proof.
  intros Hs Hb Hty. unfold parse_content, parse_content_from in Hs.
  refine (fold_texts ua _ _ _ _ s Hs b Hb Hty).
  - intros x Hx. destruct Hx.
  - intros x Hx. destruct Hx.
Qed.

Lemma parsed_text_not_empty_witness : truthy (lit "Detalles") = true.
Proof.
  apply (parsed_text_not_empty (fun _ => false) (lit "## Uso
  ### Detalles  
****")
           {| title := lit "Uso";
              content := [ {| type := Subtitle; text := lit "Detalles" |};
                           {| type := Bold; text := [] |} ] |}
           {| type := Subtitle; text := lit "Detalles" |}).
  - vm_compute. left. reflexivity.
  - left. reflexivity.
  - discriminate.
Defined.

(** ** Escaping, further *)

Lemma escaped_char_safe (c : char) :
  forallb (fun x => negb ((x =? c_lt) || (x =? c_gt) || (x =? c_quot) || (x =? c_apos)))
          (escaped_char c) = true.
Proof.
  unfold escaped_char. case_char c; try reflexivity.
  cbn [forallb].
  repeat match goal with
         | H : c <> ?k |- context [c =? ?k] =>
           rewrite (proj2 (N.eqb_neq c k) H)
         end.
  reflexivity.
Qed.

Lemma escape_xml_safe (s : str) :
  forallb (fun x => negb ((x =? c_lt) || (x =? c_gt) || (x =? c_quot) || (x =? c_apos)))
          (escape_xml s) = true.
Proof.
  rewrite escape_xml_chars.
  induction s as [|c s IH]; cbn [flat_map]; [reflexivity|].
  rewrite forallb_app. apply andb_true_iff.
  split; [apply escaped_char_safe|exact IH].
Qed.

(** [escape_xml] lets every character that is not reserved through as it
    is, so it keeps the illegal ones. *)
Lemma escaped_char_legal (c : char) :
  forallb Xml.legal_char (escaped_char c) = Xml.legal_char c.
Proof.
  unfold escaped_char. case_char c; try reflexivity.
  cbn [forallb]. apply andb_true_r.
Qed.

Lemma escape_xml_legal (s : str) :
  forallb Xml.legal_char (escape_xml s) = forallb Xml.legal_char s.
Proof.
  rewrite escape_xml_chars.
  induction s as [|c s IH]; cbn [flat_map forallb]; [reflexivity|].
  now rewrite forallb_app, escaped_char_legal, IH.
Qed.


Lemma text_from_html_escaped_char (c : char) (rest : str) :
  Xml.text_from 0 (html_escaped_char c ++ rest)
  = option_map (cons c) (Xml.text_from 0 rest).
Proof.
  unfold html_escaped_char.
  case_char c; eval_lits.
  1-3: cbn; destruct (Xml.text_from 0 rest); reflexivity.
  cbn [app]. now rewrite text_from_plain.
Qed.

(** What [html.escape] alone produces reads back as the text. *)
Lemma text_of_html_escape (s : str) : Xml.text_of (html_escape s false) = Some s.
Proof.
  rewrite html_escape_chars. unfold Xml.text_of.
  induction s as [|c s IH]; cbn [flat_map]; [reflexivity|].
  now rewrite text_from_html_escaped_char, IH.
Qed.

(** X9. [escape_xml] loses nothing: reading its result back twice gives
    the text, so two different texts never get the same escaped form. *)
Theorem escape_xml_read_twice (s : str) :
  match Xml.text_of (escape_xml s) with
  | Some once => Xml.text_of once
  | None => None
  end = Some s
  /\ forall s', escape_xml s = escape_xml s' -> s = s'.
Proof.
  assert (H : forall x,
             match Xml.text_of (escape_xml x) with
             | Some once => Xml.text_of once
             | None => None
             end = Some x).
  { intros x. rewrite text_of_escape_xml. apply text_of_html_escape. }
  split; [apply H|].
  intros s' Heq. pose proof (H s) as Hs. rewrite Heq, H in Hs. congruence.
Qed.

Lemma escaped_char_at_most (c : char) : (List.length (escaped_char c) <= 9)%nat.
Proof. unfold escaped_char. case_char c; vm_compute; lia. Qed.

(** X10. [escape_xml] works piece by piece: the escaped form of two texts
    put together is their escaped forms put together, and it is at least as
    long as the text and at most nine times as long. *)
Theorem escape_xml_pieces (a b : str) :
  escape_xml (a ++ b) = escape_xml a ++ escape_xml b
  /\ (List.length a <= List.length (escape_xml a) <= 9 * List.length a)%nat.
Proof.
  split.
  - rewrite !escape_xml_chars. apply flat_map_app.
  - split; [apply escape_xml_length|].
    rewrite escape_xml_chars.
    induction a as [|c a IH]; cbn [flat_map List.length]; [lia|].
    rewrite length_app. pose proof (escaped_char_at_most c). lia.
Qed.

(** ** The page generator, further *)

(** X11. Whatever its content, a page has the title shape and one shape
    for each of its first eight qualifying blocks, no more: at most nine
    shapes, in seven lines plus five for each content shape. *)
Theorem page_shapes (slide : Slide) (n : nat) :
  count_frames (create_slide_xml_lines slide n)
  = S (Nat.min 8 (List.length (filter qualifying (content slide))))
  /\ (count_frames (create_slide_xml_lines slide n) <= 9)%nat
  /\ create_slide_xml_lines slide n
     = [page_open n] ++ title_frame (escape_xml (title slide))
       ++ layout (firstn 8 (filter qualifying (content slide))) 40
       ++ [page_close].
Proof.
  assert (Heq : create_slide_xml_lines slide n
                = [page_open n] ++ title_frame (escape_xml (title slide))
                  ++ layout (firstn 8 (filter qualifying (content slide))) 40
                  ++ [page_close]).
  { unfold create_slide_xml_lines.
    rewrite (content_loop_layout (content slide) 40 0) by lia. reflexivity. }
  assert (Hc : count_frames (create_slide_xml_lines slide n)
               = S (Nat.min 8 (List.length (filter qualifying (content slide))))).
  { rewrite Heq, !count_frames_app, count_frames_page_open, count_frames_title,
      count_frames_layout, length_firstn.
    change (count_frames [page_close]) with 0%nat. lia. }
  split; [exact Hc|]. split; [rewrite Hc; lia|exact Heq].
Qed.

(** ** Reading the generated document *)

Lemma emit_nil o : emit [] o = o.
Proof. destruct o as [[ts st]|]; reflexivity. Qed.

Lemma emit_emit ts1 ts2 o : emit ts1 (emit ts2 o) = emit (ts1 ++ ts2) o.
Proof. destruct o as [[ts st]|]; cbn [emit]; [now rewrite app_assoc|reflexivity]. Qed.

Lemma tokenize_run (s : str) :
  forall in_tag quote buf,
    Xml.tokenize s in_tag quote buf
    = match xml_run s in_tag quote buf with
      | Some (ts, (false, _, b)) => Some (ts ++ Xml.chars_token b)
      | _ => None
      end.
Proof.
  induction s as [|c r IH]; intros in_tag quote buf; cbn [Xml.tokenize xml_run].
  - destruct in_tag; reflexivity.
  - destruct in_tag.
    + destruct (c =? c_lt); [reflexivity|].
      destruct quote as [q|]; [apply IH|].
      destruct (c =? c_gt).
      * rewrite IH. destruct (xml_run r false None []) as [[ts [[m q] b]]|];
          [|reflexivity].
        destruct m; reflexivity.
      * destruct ((c =? c_quot) || (c =? c_apos)); apply IH.
    + destruct (c =? c_lt); [|apply IH].
      rewrite IH. destruct (xml_run r true None []) as [[ts [[m q] b]]|];
        [|reflexivity].
      destruct m; cbn [emit option_map]; [reflexivity|].
      now rewrite app_assoc.
Qed.

Lemma xml_run_app (a b : str) :
  forall in_tag quote buf,
    xml_run (a ++ b) in_tag quote buf
    = match xml_run a in_tag quote buf with
      | Some (ts, (m, q, buf')) => emit ts (xml_run b m q buf')
      | None => None
      end.
Proof.
  induction a as [|c a IH]; intros in_tag quote buf; cbn [app xml_run].
  - now rewrite emit_nil.
  - destruct in_tag.
    + destruct (c =? c_lt); [reflexivity|].
      destruct quote as [q|]; [apply IH|].
      destruct (c =? c_gt).
      * rewrite IH. destruct (xml_run a false None []) as [[ts [[m q] b']]|];
          [|reflexivity].
        cbn [emit]. apply emit_emit.
      * destruct ((c =? c_quot) || (c =? c_apos)); apply IH.
    + destruct (c =? c_lt); [|apply IH].
      rewrite IH. destruct (xml_run a true None []) as [[ts [[m q] b']]|];
        [|reflexivity].
      cbn [emit]. apply emit_emit.
Qed.

Lemma closed_tokens (s : str) :
  closed s -> xml_run s false None [] = Some (tokens_of s, (false, None, [])).
Proof. intros [ts H]. unfold tokens_of. now rewrite H. Qed.

Lemma closed_app (a b : str) :
  closed a -> closed b ->
  closed (a ++ b) /\ tokens_of (a ++ b) = tokens_of a ++ tokens_of b.
Proof.
  intros Ha Hb. apply closed_tokens in Ha, Hb.
  assert (H : xml_run (a ++ b) false None []
              = Some (tokens_of a ++ tokens_of b, (false, None, []))).
  { rewrite xml_run_app, Ha, Hb. reflexivity. }
  split; [eexists; exact H|].
  unfold tokens_of at 1. now rewrite H.
Qed.

Lemma closed_nil : closed [].
Proof. now exists []. Qed.

Lemma nest_run_app (a b : list Xml.Token) :
  forall stack roots,
    nest_run (a ++ b) stack roots
    = match nest_run a stack roots with
      | Some (stack', roots') => nest_run b stack' roots'
      | None => None
      end.
Proof.
  induction a as [|t a IH]; intros stack roots; cbn [app nest_run]; [reflexivity|].
  destruct t as [t|m].
  - destruct stack.
    + destruct (forallb Xml.xml_space t); [apply IH|reflexivity].
    + destruct (Xml.text_of t); [apply IH|reflexivity].
  - destruct (Xml.parse_tag m) as [[|n|n|n]|]; try reflexivity.
    + destruct stack; [destruct roots|]; try reflexivity; apply IH.
    + destruct stack as [|top below']; [reflexivity|].
      destruct (str_eqb top n); [apply IH|reflexivity].
    + destruct stack; [destruct roots|]; try reflexivity; apply IH.
Qed.

Lemma nested_run (ts : list Xml.Token) :
  forall stack roots,
    Xml.nested ts stack roots
    = match nest_run ts stack roots with
      | Some ([], 1%nat) => true
      | _ => false
      end.
Proof.
  induction ts as [|t ts IH]; intros stack roots; cbn [Xml.nested nest_run].
  - destruct stack; [|reflexivity].
    destruct roots as [|[|k]]; reflexivity.
  - destruct t as [t|m].
    + destruct stack.
      * destruct (forallb Xml.xml_space t); [apply IH|reflexivity].
      * destruct (Xml.text_of t); [apply IH|reflexivity].
    + destruct (Xml.parse_tag m) as [[|n|n|n]|]; try reflexivity.
      * destruct stack; [destruct roots|]; try reflexivity; apply IH.
      * destruct stack as [|top below']; [reflexivity|].
        destruct (str_eqb top n); [apply IH|reflexivity].
      * destruct stack; [destruct roots|]; try reflexivity; apply IH.
Qed.

Lemma piece_nil : piece [] Keep 0.
Proof.
  split; [apply closed_nil|]. split; [|reflexivity].
  intros top stack roots. reflexivity.
Qed.

Lemma piece_app (a b : str) (j k : nat) :
  piece a Keep j -> piece b Keep k -> piece (a ++ b) Keep (j + k).
Proof.
  intros (Ca & Ea & Na) (Cb & Eb & Nb).
  destruct (closed_app a b Ca Cb) as [C T]. split; [exact C|].
  rewrite T. split.
  - intros top stack roots. rewrite nest_run_app, (Ea top stack roots).
    apply Eb.
  - now rewrite filter_app, length_app, Na, Nb.
Qed.

Lemma piece_wrap (a m b name : str) (i j k : nat) :
  piece a (Push name) i -> piece m Keep j -> piece b (Pop name) k ->
  piece (a ++ m ++ b) Keep (i + j + k).
Proof.
  intros (Ca & Ea & Na) (Cm & Em & Nm) (Cb & Eb & Nb).
  destruct (closed_app m b Cm Cb) as [C1 T1].
  destruct (closed_app a (m ++ b) Ca C1) as [C T]. split; [exact C|].
  rewrite T, T1. split.
  - intros top stack roots.
    rewrite nest_run_app, (Ea top stack roots).
    rewrite nest_run_app, (Em name (top :: stack) roots).
    apply Eb.
  - rewrite !filter_app, !length_app, Na, Nm, Nb. lia.
Qed.

Lemma piece_flat_map {A} (g : A -> str) (k : nat) (l : list A) :
  (forall x, In x l -> piece (g x) Keep k) ->
  piece (flat_map g l) Keep (k * List.length l).
Proof.
  induction l as [|x l IH]; intros H; cbn [flat_map List.length].
  - rewrite Nat.mul_0_r. apply piece_nil.
  - replace (k * S (List.length l))%nat with (k + k * List.length l)%nat by lia.
    apply piece_app; [apply H; now left|].
    apply IH. intros y Hy. apply H. now right.
Qed.

Lemma run_text (t : str) :
  forall buf,
    forallb (fun c => negb (c =? c_lt)) t = true ->
    xml_run t false None buf = Some ([], (false, None, rev t ++ buf)).
Proof.
  induction t as [|c t IH]; intros buf H; cbn [xml_run forallb rev app] in *.
  - reflexivity.
  - apply andb_true_iff in H as [Hc Ht]. apply negb_true_iff in Hc.
    rewrite Hc, (IH _ Ht), <- app_assoc. reflexivity.
Qed.

Lemma run_value (q : char) (v : str) :
  forall buf,
    value_text q v = true ->
    xml_run v true (Some q) buf = Some ([], (true, Some q, rev v ++ buf)).
Proof.
  unfold value_text.
  induction v as [|c v IH]; intros buf H; cbn [xml_run forallb rev app] in *.
  - reflexivity.
  - apply andb_true_iff in H as [Hc Hv].
    apply andb_true_iff in Hc as [Hc _]. apply andb_true_iff in Hc as [Hl Hq].
    apply negb_true_iff in Hl, Hq.
    rewrite Hl, Hq, (IH _ Hv), <- app_assoc. reflexivity.
Qed.

Lemma run_tag_shift (s : str) :
  forall q b m,
    xml_run s true q b = Some ([Xml.Markup m], (false, None, [])) ->
    forall extra,
      xml_run s true q (b ++ extra)
      = Some ([Xml.Markup (rev extra ++ m)], (false, None, [])).
Proof.
  induction s as [|c s IH]; intros q b m H extra; cbn [xml_run] in *.
  - discriminate.
  - destruct (c =? c_lt); [discriminate|].
    destruct q as [q|].
    + apply (IH _ (c :: b) m H).
    + destruct (c =? c_gt).
      * destruct (xml_run s false None []) as [[ts st]|]; [|discriminate].
        cbn [emit app] in *. injection H as Hm Hts Hst.
        subst. now rewrite rev_app_distr.
      * destruct ((c =? c_quot) || (c =? c_apos)); apply (IH _ (c :: b) m H).
Qed.

(** A line that opens a tag, puts a text in one of its values and closes
    it. *)
Lemma run_value_line (P hole S : str) (ts1 : list Xml.Token) (q : char)
    (bufP S1 : str) :
  xml_run P false None [] = Some (ts1, (true, Some q, bufP)) ->
  value_text q hole = true ->
  xml_run S true (Some q) [] = Some ([Xml.Markup S1], (false, None, [])) ->
  xml_run (P ++ hole ++ S) false None []
  = Some (ts1 ++ [Xml.Markup (rev bufP ++ hole ++ S1)], (false, None, [])).
Proof.
  intros HP Hh HS.
  rewrite xml_run_app, HP, xml_run_app, (run_value q hole bufP Hh).
  cbn [emit app].
  pose proof (run_tag_shift S (Some q) [] S1 HS (rev hole ++ bufP)) as Hs.
  cbn [app] in Hs. rewrite Hs.
  cbn [emit]. rewrite rev_app_distr, rev_involutive, <- app_assoc.
  reflexivity.
Qed.

(** A line that holds a text between a tag and the tag [<S>]. *)
Lemma run_text_line (P esc S : str) (ts1 ts2 : list Xml.Token) (bufP : str) :
  xml_run P false None [] = Some (ts1, (false, None, bufP)) ->
  forallb (fun c => negb (c =? c_lt)) esc = true ->
  xml_run S true None [] = Some (ts2, (false, None, [])) ->
  xml_run (P ++ esc ++ c_lt :: S) false None []
  = Some (ts1 ++ Xml.chars_token (rev esc ++ bufP) ++ ts2, (false, None, [])).
Proof.
  intros HP He HS.
  rewrite xml_run_app, HP, xml_run_app, (run_text esc bufP He).
  cbn [emit app xml_run]. rewrite N.eqb_refl, HS. reflexivity.
Qed.

Lemma attrs_ok_app (a b : str) :
  forall st,
    Xml.attrs_ok (a ++ b) st
    = match attrs_run a st with
      | Some st' => Xml.attrs_ok b st'
      | None => false
      end.
Proof.
  induction a as [|c a IH]; intros st; cbn [app Xml.attrs_ok attrs_run].
  - reflexivity.
  - destruct st.
    + destruct (Xml.xml_space c); [apply IH|reflexivity].
    + destruct (Xml.xml_space c); [apply IH|].
      destruct (Xml.name_ok [c]); [apply IH|reflexivity].
    + destruct (c =? 61); [apply IH|].
      destruct (Xml.name_char c); [apply IH|reflexivity].
    + destruct ((c =? c_quot) || (c =? c_apos)); [apply IH|reflexivity].
    + destruct (c =? q); [apply IH|].
      destruct (negb (c =? c_amp)); [apply IH|reflexivity].
Qed.

Lemma attrs_run_value (q : char) (v : str) :
  value_text q v = true -> attrs_run v (Xml.InValue q) = Some (Xml.InValue q).
Proof.
  unfold value_text. induction v as [|c v IH]; intros H; cbn [attrs_run forallb] in *.
  - reflexivity.
  - apply andb_true_iff in H as [Hc Hv].
    apply andb_true_iff in Hc as [Hc Ha]. apply andb_true_iff in Hc as [_ Hq].
    apply negb_true_iff in Hq. rewrite Hq, Ha. now apply IH.
Qed.

Lemma take_name_app (a x : str) :
  forall n rest,
    Xml.take_name a = (n, rest) -> rest <> [] ->
    Xml.take_name (a ++ x) = (n, rest ++ x).
Proof.
  induction a as [|c a IH]; intros n rest H Hne; cbn [Xml.take_name app] in *.
  - injection H as <- <-. contradiction.
  - destruct (Xml.xml_space c).
    + injection H as <- <-. reflexivity.
    + destruct (Xml.take_name a) as [n' rest'] eqn:E.
      injection H as <- <-. now rewrite (IH n' rest' eq_refl Hne).
Qed.

Lemma endswith_app (x s1 : str) (c : char) :
  s1 <> [] -> endswith (x ++ s1) [c] = endswith s1 [c].
Proof.
  intros Hne. unfold endswith. rewrite rev_app_distr.
  destruct (rev s1) as [|y ys] eqn:E.
  - apply (f_equal (@rev char)) in E. rewrite rev_involutive in E. contradiction.
  - reflexivity.
Qed.

(** The tag made of a start, a value text and an end opens its element. *)
Lemma parse_value_tag (B hole S1 name : str) (q : char) :
  value_tag B S1 name q = true ->
  value_text q hole = true ->
  Xml.parse_tag (B ++ hole ++ S1) = Some (Xml.Open name).
Proof.
  unfold value_tag. destruct B as [|c0 B']; [discriminate|].
  intros H Hh.
  apply andb_true_iff in H as [H Hs1].
  apply andb_true_iff in H as [H Hn].
  apply andb_true_iff in H as [H Ht].
  apply andb_true_iff in H as [H He].
  apply andb_true_iff in H as [H63 H47].
  apply negb_true_iff in H63, H47, He.
  destruct (Xml.take_name (c0 :: B')) as [n A] eqn:En.
  apply andb_true_iff in Hn as [Hn Hq].
  apply andb_true_iff in Hn as [Hn Hok].
  apply andb_true_iff in Hn as [Hname HA].
  apply str_eqb_eq in Hname. subst n.
  destruct (attrs_run A Xml.AfterItem) as [[| | | |q']|] eqn:Ea; try discriminate.
  apply N.eqb_eq in Hq. subst q'.
  assert (HS1 : S1 <> []) by (destruct S1; [discriminate|discriminate]).
  assert (HAne : A <> []) by (destruct A; [discriminate|discriminate]).
  unfold Xml.parse_tag. cbn [app]. rewrite H63, H47.
  change (c0 :: B' ++ hole ++ S1) with ((c0 :: B') ++ hole ++ S1).
  rewrite app_assoc, (endswith_app _ S1 47 HS1).
  match goal with
  | |- context [endswith S1 ?p] =>
    assert (He' : endswith S1 p = false) by exact He; rewrite He'
  end.
  rewrite <- app_assoc.
  rewrite (take_name_app _ (hole ++ S1) name A En HAne), Hok.
  rewrite attrs_ok_app, Ea, attrs_ok_app, (attrs_run_value q hole Hh), Hs1.
  reflexivity.
Qed.

Lemma text_from_plain_app (p e : str) :
  plain_text p = true ->
  Xml.text_from 0 (p ++ e) = option_map (app p) (Xml.text_from 0 e).
Proof.
  unfold plain_text. induction p as [|c p IH]; intros H; cbn [app forallb] in *.
  - destruct (Xml.text_from 0 e); reflexivity.
  - apply andb_true_iff in H as [Hc Hp]. apply andb_true_iff in Hc as [Hl Ha].
    apply negb_true_iff in Hl, Ha. apply N.eqb_neq in Hl, Ha.
    rewrite (text_from_plain c (p ++ e) Hl Ha), (IH Hp).
    destruct (Xml.text_from 0 e); reflexivity.
Qed.

Lemma text_of_plain (t : str) : plain_text t = true -> Xml.text_of t = Some t.
Proof.
  intros H. unfold Xml.text_of.
  rewrite <- (app_nil_r t) at 1. rewrite (text_from_plain_app t [] H).
  cbn. now rewrite app_nil_r.
Qed.

Lemma nest_run_chars_token (X : str) (rest : list Xml.Token)
    (top : str) (stack : list str) (roots : nat) :
  (exists t, Xml.text_of (rev X) = Some t) ->
  nest_run (Xml.chars_token X ++ rest) (top :: stack) roots
  = nest_run rest (top :: stack) roots.
Proof.
  intros [t Ht]. destruct X as [|x X]; [reflexivity|].
  cbn [Xml.chars_token app nest_run]. now rewrite Ht.
Qed.

Lemma opens_chars_token (name X : str) :
  filter (opens name) (Xml.chars_token X) = [].
Proof. destruct X; reflexivity. Qed.

(** The piece made by a line whose tag holds a value text. *)
Lemma value_line_piece (P hole S ws bufP S1 name : str) (q : char) (k : nat) :
  xml_run P false None [] = Some ([Xml.Chars ws], (true, Some q, bufP)) ->
  plain_text ws = true ->
  xml_run S true (Some q) [] = Some ([Xml.Markup S1], (false, None, [])) ->
  value_tag (rev bufP) S1 name q = true ->
  (if str_eqb name (lit "draw:page") then 1%nat else 0%nat) = k ->
  value_text q hole = true ->
  piece (P ++ hole ++ S) (Push name) k.
Proof.
  intros HP Hws HS Htag Hk Hh.
  pose proof (run_value_line P hole S _ q bufP S1 HP Hh HS) as Hrun.
  pose proof (parse_value_tag _ hole S1 name q Htag Hh) as Hparse.
  split; [eexists; exact Hrun|].
  unfold tokens_of. rewrite Hrun. cbn [app]. split.
  - intros top stack roots. cbn [nest_run].
    now rewrite (text_of_plain ws Hws), Hparse.
  - cbn [filter opens]. rewrite Hparse.
    destruct (str_eqb name (lit "draw:page")); exact Hk.
Qed.

(** The piece made by a line that holds a text in an element of its own. *)
Lemma text_line_piece (P esc S ws B C bufP name : str) :
  xml_run P false None [] = Some ([Xml.Chars ws; Xml.Markup B], (false, None, bufP)) ->
  plain_text ws = true ->
  plain_text (rev bufP) = true ->
  Xml.parse_tag B = Some (Xml.Open name) ->
  str_eqb name (lit "draw:page") = false ->
  xml_run S true None [] = Some ([Xml.Markup C], (false, None, [])) ->
  Xml.parse_tag C = Some (Xml.Close name) ->
  forallb (fun c => negb (c =? c_lt)) esc = true ->
  (exists t, Xml.text_of esc = Some t) ->
  piece (P ++ esc ++ c_lt :: S) Keep 0.
Proof.
  intros HP Hws Hpre HB Hname HS HC Hlt [t Ht].
  pose proof (run_text_line P esc S _ _ bufP HP Hlt HS) as Hrun.
  split; [eexists; exact Hrun|].
  unfold tokens_of. rewrite Hrun. split.
  - intros top stack roots. cbn [app nest_run].
    rewrite (text_of_plain ws Hws), HB.
    rewrite nest_run_chars_token.
    + cbn [nest_run]. now rewrite HC, str_eqb_refl.
    + rewrite rev_app_distr, rev_involutive. unfold Xml.text_of.
      rewrite (text_from_plain_app _ esc Hpre).
      unfold Xml.text_of in Ht. rewrite Ht. eexists. reflexivity.
  - cbn [app filter opens]. rewrite HB, Hname.
    rewrite filter_app, opens_chars_token. cbn [app filter opens].
    now rewrite HC.
Qed.

(** The digits of a number. *)
Lemma utf8_decode_ascii (bs : list N) :
  forallb (fun b => b <? 128) bs = true -> utf8_decode bs = Some bs.
Proof.
  induction bs as [|b bs IH]; intros H; cbn [utf8_decode forallb] in *; [reflexivity|].
  apply andb_true_iff in H as [Hb Hbs]. rewrite Hb, (IH Hbs). reflexivity.
Qed.

Lemma uint_bytes_digits (d : Decimal.uint) :
  forallb is_digit (bytes_of_string (NilEmpty.string_of_uint d)) = true.
Proof.
  induction d; cbn [NilEmpty.string_of_uint]; try reflexivity;
    unfold bytes_of_string in *; cbn [list_ascii_of_string map forallb];
    rewrite IHd; reflexivity.
Qed.

Lemma forallb_weaken {A} (f g : A -> bool) (l : list A) :
  (forall x, f x = true -> g x = true) ->
  forallb f l = true -> forallb g l = true.
Proof.
  intros Hfg. induction l as [|x l IH]; cbn [forallb]; [reflexivity|].
  intros H. apply andb_true_iff in H as [Hx Hl].
  now rewrite (Hfg x Hx), (IH Hl).
Qed.

Lemma is_digit_cases (c : char) :
  is_digit c = true ->
  c = 48 \/ c = 49 \/ c = 50 \/ c = 51 \/ c = 52 \/ c = 53 \/ c = 54 \/ c = 55
  \/ c = 56 \/ c = 57.
Proof.
  unfold is_digit. intros H. apply andb_true_iff in H as [Hl Hh].
  apply N.leb_le in Hl, Hh. lia.
Qed.

Lemma str_of_nat_digits (n : nat) : forallb is_digit (str_of_nat n) = true.
Proof.
  unfold str_of_nat, lit.
  pose proof (uint_bytes_digits (Nat.to_uint n)) as H.
  rewrite utf8_decode_ascii; [exact H|].
  revert H. apply forallb_weaken. intros c Hc.
  apply is_digit_cases in Hc. repeat (destruct Hc as [->|Hc]; [reflexivity|]).
  now subst c.
Qed.

Lemma digits_value_text (ds : str) :
  forallb is_digit ds = true -> value_text c_quot ds = true.
Proof.
  unfold value_text. apply forallb_weaken. intros c Hc.
  apply is_digit_cases in Hc. repeat (destruct Hc as [->|Hc]; [reflexivity|]).
  now subst c.
Qed.

Lemma fmt_1f_value_text (y : N) : value_text c_quot (fmt_1f y) = true.
Proof.
  pose proof (digits_value_text _ (str_of_nat_digits (N.to_nat (y / 10)))) as H1.
  pose proof (digits_value_text _ (str_of_nat_digits (N.to_nat (y mod 10)))) as H2.
  unfold fmt_1f, value_text in *. rewrite !forallb_app.
  apply andb_true_iff. split; [exact H1|].
  apply andb_true_iff. split; [reflexivity|exact H2].
Qed.

(** A line without holes is read by computation. *)
Ltac concrete_piece :=
  split;
  [ eexists; vm_compute; reflexivity
  | split;
    [ intros top stack roots; vm_compute; reflexivity
    | vm_compute; reflexivity ] ].

Lemma escape_xml_no_lt (s : str) :
  forallb (fun c => negb (c =? c_lt)) (escape_xml s) = true.
Proof.
  pose proof (escape_xml_safe s) as H.
  revert H. apply forallb_weaken. intros c Hc.
  apply negb_true_iff in Hc. apply negb_true_iff.
  repeat (apply orb_false_iff in Hc as [Hc _]). exact Hc.
Qed.

Lemma page_open_piece (n : nat) :
  piece (next_line (page_open n)) (Push (lit "draw:page")) 1.
Proof.
  unfold next_line, page_open. rewrite app_assoc.
  eapply (value_line_piece _ _ _ _ _ _ (lit "draw:page") c_quot).
  - vm_compute. reflexivity.
  - vm_compute. reflexivity.
  - vm_compute. reflexivity.
  - vm_compute. reflexivity.
  - vm_compute. reflexivity.
  - apply digits_value_text, str_of_nat_digits.
Qed.

Lemma page_close_piece : piece (next_line page_close) (Pop (lit "draw:page")) 0.
Proof. concrete_piece. Qed.

Lemma text_box_open_piece :
  piece (next_line (lit "          <draw:text-box>")) (Push (lit "draw:text-box")) 0.
Proof. concrete_piece. Qed.

Lemma text_box_close_piece :
  piece (next_line (lit "          </draw:text-box>")) (Pop (lit "draw:text-box")) 0.
Proof. concrete_piece. Qed.

Lemma frame_close_piece :
  piece (next_line (lit "        </draw:frame>")) (Pop (lit "draw:frame")) 0.
Proof. concrete_piece. Qed.

Lemma frame_piece (l1 l3 : str) :
  piece (next_line l1) (Push (lit "draw:frame")) 0 ->
  piece (next_line l3) Keep 0 ->
  piece (flat_map next_line
           [ l1; lit "          <draw:text-box>"; l3;
             lit "          </draw:text-box>"; lit "        </draw:frame>" ])
        Keep 0.
Proof.
  intros H1 H3. cbn [flat_map]. rewrite app_nil_r.
  replace (next_line l1 ++ next_line (lit "          <draw:text-box>")
           ++ next_line l3 ++ next_line (lit "          </draw:text-box>")
           ++ next_line (lit "        </draw:frame>"))
    with (next_line l1
          ++ (next_line (lit "          <draw:text-box>") ++ next_line l3
              ++ next_line (lit "          </draw:text-box>"))
          ++ next_line (lit "        </draw:frame>"))
    by (now rewrite <- !app_assoc).
  apply (piece_wrap _ _ _ (lit "draw:frame") 0 0 0);
    [exact H1| |exact frame_close_piece].
  apply (piece_wrap _ _ _ (lit "draw:text-box") 0 0 0);
    [exact text_box_open_piece|exact H3|exact text_box_close_piece].
Qed.

(** The line of a frame that holds the escaped text. *)
Ltac text_line :=
  unfold next_line; rewrite app_assoc;
  change (lit "</text:p>") with (c_lt :: lit "/text:p>");
  eapply (text_line_piece _ _ _ _ _ _ _ (lit "text:p"));
  [ vm_compute; reflexivity | vm_compute; reflexivity | vm_compute; reflexivity
  | vm_compute; reflexivity | vm_compute; reflexivity | vm_compute; reflexivity
  | vm_compute; reflexivity
  | apply escape_xml_no_lt
  | eexists; apply text_of_escape_xml ].

(** The line that opens the frame of a content shape. *)
Ltac frame_open_line :=
  unfold next_line; rewrite app_assoc;
  eapply (value_line_piece _ _ _ _ _ _ (lit "draw:frame") c_quot);
  [ vm_compute; reflexivity | vm_compute; reflexivity | vm_compute; reflexivity
  | vm_compute; reflexivity | vm_compute; reflexivity
  | apply fmt_1f_value_text ].

Lemma title_frame_piece (t : str) :
  piece (flat_map next_line (title_frame (escape_xml t))) Keep 0.
Proof.
  unfold title_frame. apply frame_piece.
  - concrete_piece.
  - text_line.
Qed.

Lemma shape_piece (b : ContentBlock) (y : N) :
  piece (flat_map next_line (shape b y)) Keep 0.
Proof.
  unfold shape, subtitle_frame, bullet_frame, text_frame.
  destruct (type b); apply frame_piece; (frame_open_line || text_line).
Qed.

Lemma layout_piece (items : list ContentBlock) :
  forall y, piece (flat_map next_line (layout items y)) Keep 0.
Proof.
  induction items as [|b rest IH]; intros y; cbn [layout flat_map].
  - apply piece_nil.
  - rewrite flat_map_app.
    apply (piece_app _ _ 0 0); [apply shape_piece|apply IH].
Qed.

(** A page is one [draw:page] element, closed and properly nested. *)
Lemma page_piece (slide : Slide) (n : nat) :
  piece (flat_map next_line (create_slide_xml_lines slide n)) Keep 1.
Proof.
  unfold create_slide_xml_lines.
  rewrite (content_loop_layout (content slide) 40 0) by lia.
  rewrite !flat_map_app. cbn [flat_map]. rewrite !app_nil_r.
  rewrite app_assoc with (n := next_line page_close).
  apply (piece_wrap _ _ _ (lit "draw:page") 1 0 0);
    [apply page_open_piece| |apply page_close_piece].
  apply (piece_app _ _ 0 0); [apply title_frame_piece|apply layout_piece].
Qed.

Lemma join_lines (sep x : str) (rest : list str) :
  join sep (x :: rest) = x ++ flat_map (fun l => sep ++ l) rest.
Proof.
  revert x. induction rest as [|y rest IH]; intros x.
  - cbn [join flat_map]. now rewrite app_nil_r.
  - change (join sep (x :: y :: rest)) with (x ++ sep ++ join sep (y :: rest)).
    cbn [flat_map]. rewrite IH, <- app_assoc. reflexivity.
Qed.

Lemma join_app_lines (sep : str) (a b : list str) :
  a <> [] -> join sep (a ++ b) = join sep a ++ flat_map (fun l => sep ++ l) b.
Proof.
  destruct a as [|x a]; [contradiction|]. intros _.
  cbn [app]. rewrite !join_lines, flat_map_app, app_assoc. reflexivity.
Qed.

Lemma flat_map_flat_map {A B C} (f : B -> list C) (g : A -> list B) (l : list A) :
  flat_map f (flat_map g l) = flat_map (fun x => flat_map f (g x)) l.
Proof.
  induction l as [|x l IH]; cbn [flat_map]; [reflexivity|].
  now rewrite flat_map_app, IH.
Qed.

(** The document is the opening lines, the pages and the closing lines. *)
Lemma content_xml_parts (slides : list Slide) :
  content_xml slides
  = header_text
    ++ flat_map (fun '(i, slide) => flat_map next_line (create_slide_xml_lines slide i))
         (enumerate slides)
    ++ footer_text.
Proof.
  unfold content_xml, content_xml_lines, header_text, footer_text.
  rewrite join_app_lines by discriminate.
  change (fun l : str => newline ++ l) with next_line.
  rewrite flat_map_app, flat_map_flat_map. f_equal. f_equal.
  apply flat_map_ext. intros [i slide]. reflexivity.
Qed.

Lemma pages_piece (slides : list Slide) :
  piece (flat_map (fun '(i, slide) => flat_map next_line (create_slide_xml_lines slide i))
           (enumerate slides))
        Keep (List.length slides).
Proof.
  replace (List.length slides) with (1 * List.length (enumerate slides))%nat.
  - apply piece_flat_map. intros [i slide] _. apply page_piece.
  - unfold enumerate. rewrite length_combine, length_seq. lia.
Qed.

Lemma header_closed : closed header_text.
Proof. eexists. vm_compute. reflexivity. Qed.

Lemma footer_closed : closed footer_text.
Proof. eexists. vm_compute. reflexivity. Qed.

Lemma after_decl_app (ts rest : list Xml.Token) :
  ts <> [] -> Xml.after_decl (ts ++ rest) = Xml.after_decl ts ++ rest.
Proof.
  destruct ts as [|[t|m] ts]; [contradiction| |]; intros _; cbn [app Xml.after_decl].
  - reflexivity.
  - destruct (Xml.parse_tag m) as [[| | |]|]; reflexivity.
Qed.

Lemma header_nesting :
  tokens_of header_text <> []
  /\ nest_run (Xml.after_decl (tokens_of header_text)) [] 0 = Some (open_after_header, 0%nat)
  /\ filter (opens (lit "draw:page")) (Xml.after_decl (tokens_of header_text)) = []
  /\ filter (opens (lit "draw:page")) (tokens_of header_text) = [].
Proof. repeat split; vm_compute; (discriminate || reflexivity). Qed.

Lemma footer_nesting :
  nest_run (tokens_of footer_text) open_after_header 0 = Some ([], 1%nat)
  /\ filter (opens (lit "draw:page")) (tokens_of footer_text) = [].
Proof. split; vm_compute; reflexivity. Qed.

(** The markup of the content part is sound and holds one page element for
    each slide, whatever the slides. *)
Lemma content_xml_structure (slides : list Slide) :
  Xml.structure_ok (content_xml slides) = true
  /\ Xml.count_elements (lit "draw:page") (content_xml slides) = List.length slides.
Proof.
  destruct (pages_piece slides) as (Cp & Ep & Np).
  destruct header_nesting as (Hne & Hh & _ & Hcount).
  destruct footer_nesting as (Hf & Fcount).
  set (pages := flat_map _ (enumerate slides)) in *.
  destruct (closed_app pages footer_text Cp footer_closed) as [C1 T1].
  destruct (closed_app header_text (pages ++ footer_text) header_closed C1) as [C T].
  assert (Htok : Xml.tokenize (content_xml slides) false None []
                 = Some (tokens_of header_text ++ tokens_of pages
                         ++ tokens_of footer_text)).
  { rewrite content_xml_parts. fold pages.
    rewrite tokenize_run, (closed_tokens _ C), T, T1.
    cbn [Xml.chars_token]. now rewrite app_nil_r. }
  split.
  - unfold Xml.structure_ok. rewrite Htok.
    rewrite after_decl_app by exact Hne.
    rewrite nested_run, nest_run_app, Hh.
    unfold open_after_header in *.
    rewrite nest_run_app, (Ep _ _ 0%nat), Hf. reflexivity.
  - unfold Xml.count_elements. rewrite Htok.
    change (List.length
              (filter (opens (lit "draw:page"))
                 (tokens_of header_text ++ tokens_of pages ++ tokens_of footer_text))
            = List.length slides).
    rewrite !filter_app, Hcount, Fcount, app_nil_r. exact Np.
Qed.

(** *** The characters of the generated document *)

Lemma forallb_flat_map {A B} (f : B -> bool) (g : A -> list B) (l : list A) :
  forallb f (flat_map g l) = forallb (fun x => forallb f (g x)) l.
Proof.
  induction l as [|x l IH]; cbn [flat_map forallb]; [reflexivity|].
  now rewrite forallb_app, IH.
Qed.

Lemma lines_legal (ls : list str) :
  forallb Xml.legal_char (flat_map next_line ls)
  = forallb (forallb Xml.legal_char) ls.
Proof.
  rewrite forallb_flat_map.
  induction ls as [|l ls IH]; cbn [forallb]; [reflexivity|].
  rewrite IH. unfold next_line at 1. rewrite forallb_app. reflexivity.
Qed.

Lemma wrap_legal (pre e post : str) :
  forallb Xml.legal_char pre = true ->
  forallb Xml.legal_char post = true ->
  forallb Xml.legal_char (pre ++ e ++ post) = forallb Xml.legal_char e.
Proof. intros Hp Hq. rewrite !forallb_app, Hp, Hq. apply andb_true_r. Qed.

Lemma digits_legal (ds : str) :
  forallb is_digit ds = true -> forallb Xml.legal_char ds = true.
Proof.
  apply forallb_weaken. intros c Hc.
  apply is_digit_cases in Hc. repeat (destruct Hc as [->|Hc]; [reflexivity|]).
  now subst c.
Qed.

Lemma fmt_1f_legal (y : N) : forallb Xml.legal_char (fmt_1f y) = true.
Proof.
  unfold fmt_1f. rewrite !forallb_app.
  apply andb_true_iff. split; [apply digits_legal, str_of_nat_digits|].
  apply andb_true_iff. split; [reflexivity|apply digits_legal, str_of_nat_digits].
Qed.

(** The fixed parts of a line are legal. *)
Ltac legal_consts :=
  repeat match goal with
         | |- context [forallb Xml.legal_char (lit ?s)] =>
           let H := fresh "H" in
           assert (H : forallb Xml.legal_char (lit s) = true)
             by (vm_compute; reflexivity);
           rewrite H; clear H
         end;
  cbn [andb]; rewrite ?andb_true_r.

Lemma title_frame_legal (e : str) :
  forallb (forallb Xml.legal_char) (title_frame e) = forallb Xml.legal_char e.
Proof.
  unfold title_frame. cbn [forallb].
  rewrite (wrap_legal _ e) by (vm_compute; reflexivity).
  match goal with
  | |- context [forallb Xml.legal_char (qlit ?s)] =>
    let H := fresh "H" in
    assert (H : forallb Xml.legal_char (qlit s) = true) by (vm_compute; reflexivity);
    rewrite H; clear H
  end.
  legal_consts. reflexivity.
Qed.

Lemma shape_legal (b : ContentBlock) (y : N) :
  forallb (forallb Xml.legal_char) (shape b y) = forallb Xml.legal_char (text b).
Proof.
  unfold shape, subtitle_frame, bullet_frame, text_frame.
  destruct (type b); cbn [forallb];
    rewrite (wrap_legal _ (fmt_1f y)), (wrap_legal _ (escape_xml (text b)))
      by (vm_compute; reflexivity);
    rewrite fmt_1f_legal, escape_xml_legal; legal_consts; reflexivity.
Qed.

Lemma layout_legal (items : list ContentBlock) (y : N) :
  forallb (forallb Xml.legal_char) (layout items y)
  = forallb (forallb Xml.legal_char) (map text items).
Proof.
  revert y. induction items as [|b rest IH]; intros y; cbn [layout map forallb];
    [reflexivity|].
  now rewrite forallb_app, shape_legal, IH.
Qed.

Lemma page_open_legal (n : nat) : forallb Xml.legal_char (page_open n) = true.
Proof.
  unfold page_open. rewrite wrap_legal by (vm_compute; reflexivity).
  apply digits_legal, str_of_nat_digits.
Qed.

Lemma page_legal (slide : Slide) (n : nat) :
  forallb (forallb Xml.legal_char) (create_slide_xml_lines slide n)
  = legal_page slide.
Proof.
  unfold create_slide_xml_lines, legal_page, page_texts.
  rewrite (content_loop_layout (content slide) 40 0) by lia.
  rewrite !forallb_app, title_frame_legal, escape_xml_legal, layout_legal.
  cbn [forallb]. rewrite page_open_legal.
  change (forallb Xml.legal_char page_close) with true.
  cbn [andb Nat.sub]. now rewrite !andb_true_r.
Qed.

Lemma pages_legal (slides : list Slide) (k : nat) :
  forallb Xml.legal_char
    (flat_map (fun '(i, slide) => flat_map next_line (create_slide_xml_lines slide i))
       (combine (seq k (List.length slides)) slides))
  = forallb legal_page slides.
Proof.
  revert k. induction slides as [|s slides IH]; intros k;
    cbn [List.length seq combine flat_map forallb]; [reflexivity|].
  now rewrite forallb_app, lines_legal, page_legal, IH.
Qed.

Lemma content_xml_legal (slides : list Slide) :
  forallb Xml.legal_char (content_xml slides) = forallb legal_page slides.
Proof.
  rewrite content_xml_parts, !forallb_app. unfold enumerate. rewrite pages_legal.
  replace (forallb Xml.legal_char header_text) with true by (vm_compute; reflexivity).
  replace (forallb Xml.legal_char footer_text) with true by (vm_compute; reflexivity).
  cbn [andb]. apply andb_true_r.
Qed.

(** X12. The markup of the content part is always sound (one declaration,
    one root element, every tag closed in order, references that exist),
    with exactly one page element for each slide.  The part is well-formed
    XML exactly when the titles and the texts that reach the pages hold
    legal XML characters only: [escape_xml] lets control characters
    through, and a slide with one of them makes the part ill-formed. *)
Theorem content_xml_well_formed (slides : list Slide) :
  Xml.well_formed (content_xml slides) = forallb legal_page slides
  /\ Xml.structure_ok (content_xml slides) = true
  /\ Xml.count_elements (lit "draw:page") (content_xml slides) = List.length slides.
Proof.
  destruct (content_xml_structure slides) as [Hs Hc].
  split; [|split; assumption].
  unfold Xml.well_formed. rewrite Hs, content_xml_legal. apply andb_true_r.
Qed.

(** ** Files, further *)

(** X13. When the source cannot be read (no such file, or bytes that are
    not UTF-8), [convert] ends with that error at once: nothing is staged
    and the world is as it was. *)
Theorem unreadable_source (ua : char -> bool) (env : Env) (self : Converter)
    (w w' : World) (e : Exn) :
  read_markdown self w = (w', Raise e) ->
  convert ua env self w = (w, Raise e) /\ w' = w.
Proof.
  intros H.
  assert (Hw : w' = w).
  { unfold read_markdown in H.
    destruct (lookup (markdown_file self) (files w)) as [[bs|es]|];
      [destruct (utf8_decode bs)| |]; now injection H as <- _. }
  subst w'. split; [|reflexivity].
  unfold convert, bind. now rewrite H.
Qed.

Lemma unreadable_source_witness :
  convert (fun _ => false) demo_env
    {| markdown_file := lit "missing.md"; output_file := lit "manual.odp" |} demo_world
  = (demo_world, Raise (FileNotFoundError (lit "missing.md")))
  /\ demo_world = demo_world.
Proof.
  apply (unreadable_source (fun _ => false) demo_env _ demo_world demo_world).
  reflexivity.
Defined.

Lemma lookup_app (p : str) (a b : list (str * FileData)) :
  lookup p (a ++ b)
  = match lookup p a with Some d => Some d | None => lookup p b end.
Proof.
  induction a as [|[q d] a IH]; cbn [app lookup]; [reflexivity|].
  destruct (str_eqb q p); [reflexivity|exact IH].
Qed.

Lemma set_file_new (p : str) (d : FileData) (fs : list (str * FileData)) :
  lookup p fs = None -> set_file p d fs = fs ++ [(p, d)].
Proof.
  induction fs as [|[q d'] fs IH]; cbn [lookup set_file app]; [reflexivity|].
  destruct (str_eqb q p); [discriminate|]. intros H. now rewrite IH.
Qed.

Lemma set_file_end (p : str) (d : FileData) (fs tail : list (str * FileData)) :
  lookup p fs = None -> lookup p tail = None ->
  set_file p d (fs ++ tail) = fs ++ tail ++ [(p, d)].
Proof.
  intros Hf Ht. rewrite set_file_new, <- app_assoc; [reflexivity|].
  now rewrite lookup_app, Hf.
Qed.

Lemma lookup_none_outside (p : str) (fs : list (str * FileData)) :
  forallb (fun '(q, _) => outside_staging q) fs = true ->
  below temp_dir_name p = true ->
  lookup p fs = None.
Proof.
  intros Hall Hp. induction fs as [|[q d] fs IH]; cbn [lookup forallb] in *;
    [reflexivity|].
  apply andb_true_iff in Hall as [Hq Hfs].
  destruct (str_eqb q p) eqn:E; [|now apply IH].
  apply str_eqb_eq in E. subst q. unfold outside_staging in Hq.
  rewrite Hp in Hq. discriminate.
Qed.

Lemma filter_all {A} (f : A -> bool) (l : list A) :
  forallb f l = true -> filter f l = l.
Proof.
  induction l as [|x l IH]; cbn [forallb filter]; [reflexivity|].
  intros H. apply andb_true_iff in H as [Hx Hl]. now rewrite Hx, IH.
Qed.

Lemma forallb_filter_same {A} (f : A -> bool) (l : list A) :
  forallb f (filter f l) = true.
Proof.
  induction l as [|x l IH]; cbn [filter]; [reflexivity|].
  destruct (f x) eqn:E; [cbn [forallb]; now rewrite E|exact IH].
Qed.

Lemma str_eqb_sym (a b : str) : str_eqb a b = str_eqb b a.
Proof.
  revert b. induction a as [|x a IH]; intros [|y b]; cbn [str_eqb]; auto.
  now rewrite N.eqb_sym, IH.
Qed.

Lemma not_staging_absent (ds : list str) :
  forallb not_staging ds = true ->
  existsb (str_eqb temp_dir_name) ds = false
  /\ existsb (str_eqb (temp_dir_name ++ lit "/META-INF")) ds = false.
Proof.
  induction ds as [|d ds IH]; cbn [forallb existsb]; [auto|].
  intros H. apply andb_true_iff in H as [Hd Hds].
  destruct (IH Hds) as [H1 H2]. rewrite H1, H2.
  unfold not_staging in Hd. apply negb_true_iff, orb_false_iff in Hd as [He Hb].
  split.
  - now rewrite str_eqb_sym, He.
  - destruct (str_eqb (temp_dir_name ++ lit "/META-INF") d) eqn:E; [|reflexivity].
    apply str_eqb_eq in E. subst d. discriminate Hb.
Qed.

(** The world after the removal of a staging directory left behind. *)
Lemma staging_cleared (w wa : World) (u : unit) :
  sane_staging w ->
  (if path_exists temp_dir_name w then rmtree temp_dir_name w else (w, Ok tt))
  = (wa, Ok u) ->
  files wa = filter (fun '(p, _) => outside_staging p) (files w)
  /\ dirs wa = filter not_staging (dirs w)
  /\ self_slides wa = self_slides w.
Proof.
  intros Hsane H. unfold rmtree in H.
  destruct (existsb (str_eqb temp_dir_name) (dirs w)) eqn:Ed.
  - assert (Hp : path_exists temp_dir_name w = true)
      by (unfold path_exists; now rewrite Ed).
    rewrite Hp in H. injection H as <- _. repeat split.
  - destruct (Hsane Ed) as [Hf Hd].
    assert (Hw : wa = w).
    { destruct (path_exists temp_dir_name w); [|now injection H as <- _].
      destruct (existsb _ (files w)); discriminate. }
    subst wa. repeat split.
    + symmetry. apply filter_all. exact Hf.
    + symmetry. apply filter_all.
      clear -Ed Hd. induction (dirs w) as [|d ds IH]; [reflexivity|].
      cbn [existsb forallb] in *.
      apply orb_false_iff in Ed as [E1 E2]. apply andb_true_iff in Hd as [D1 D2].
      unfold not_staging at 1. rewrite str_eqb_sym, E1.
      apply negb_true_iff in D1. rewrite D1. cbn [orb negb andb]. now apply IH.
Qed.

Lemma makedirs_new (d : str) (w w' : World) (u : unit) :
  existsb (str_eqb d) (dirs w) = false ->
  makedirs d w = (w', Ok u) ->
  files w' = files w /\ dirs w' = dirs w ++ [d] /\ self_slides w' = self_slides w
  /\ existsb (fun '(q, _) => str_eqb d q) (files w) = false.
Proof.
  intros Hd. unfold makedirs. rewrite Hd.
  destruct (existsb _ (files w)); [discriminate|].
  intros H. injection H as <- _. repeat split.
Qed.

Lemma staging_made (env : Env) (w w1 : World) (td : str) :
  sane_staging w ->
  create_fixed_odp env w = (w1, Ok td) ->
  td = temp_dir_name
  /\ existsb (fun '(q, _) => str_eqb temp_dir_name q)
       (filter (fun '(p, _) => outside_staging p) (files w)) = false
  /\ exists bm bc bs bt,
    utf8_encode (join newline manifest_lines) = Some bm
    /\ utf8_encode (content_xml (self_slides w)) = Some bc
    /\ utf8_encode (join newline styles_lines) = Some bs
    /\ utf8_encode (join newline (meta_lines (now_iso env))) = Some bt
    /\ files w1
       = filter (fun '(p, _) => outside_staging p) (files w)
         ++ staged_files bm bc bs bt
    /\ dirs w1
       = filter not_staging (dirs w)
         ++ [temp_dir_name; temp_dir_name ++ lit "/META-INF"]
    /\ self_slides w1 = self_slides w.
Proof.
  intros Hsane H. unfold create_fixed_odp in H.
  apply bind_ok in H as (u0 & wa & H0 & H).
  apply bind_ok in H as (u1 & wb & H1 & H).
  apply bind_ok in H as (u2 & wc & H2 & H).
  apply bind_ok in H as (u3 & wd & H3 & H).
  apply bind_ok in H as (u4 & we & H4 & H).
  apply bind_ok in H as (u5 & wf & H5 & H).
  apply bind_ok in H as (u6 & wg & H6 & H).
  apply bind_ok in H as (u7 & wh & H7 & H).
  unfold ret in H. injection H as <- <-.
  apply (staging_cleared w wa u0 Hsane) in H0 as (Fa & Da & Sa).
  set (F := filter (fun '(p, _) => outside_staging p) (files w)) in *.
  set (D := filter not_staging (dirs w)) in *.
  assert (HF : forallb (fun '(p, _) => outside_staging p) F = true)
    by apply forallb_filter_same.
  destruct (not_staging_absent D (forallb_filter_same _ _)) as [HD1 HD2].
  apply makedirs_new in H1 as (Fb & Db & Sb & Hnofile); [|now rewrite Da].
  apply makedirs_new in H2 as (Fc & Dc & Sc & _);
    [|rewrite Db, Da, existsb_app, HD2; reflexivity].
  rewrite Fa in Hnofile.
  split; [reflexivity|]. split; [exact Hnofile|].
  unfold create_manifest in H4. unfold create_content_xml in H5.
  unfold create_styles_xml in H6. unfold create_meta_xml in H7.
  destruct u3, u4, u5, u6, u7.
  apply write_text_world in H3 as (Dd & Sd & b0 & Fd & E0).
  apply write_text_world in H4 as (De & Se & bm & Fe & Em).
  apply write_text_world in H5 as (Df & Sf & bc & Ff & Ec).
  apply write_text_world in H6 as (Dg & Sg & bs & Fg & Es).
  apply write_text_world in H7 as (Dh & Sh & bt & Fh & Et).
  specialize (E0 eq_refl). specialize (Em eq_refl). specialize (Ec eq_refl).
  specialize (Es eq_refl). specialize (Et eq_refl).
  assert (b0 = mimetype_bytes)
    by (vm_compute in E0; injection E0 as <-; reflexivity).
  subst b0.
  exists bm, bc, bs, bt.
  rewrite Se, Sd, Sc, Sb, Sa in Ec.
  repeat (split; [assumption|]).
  split; [|split].
  - rewrite Fh, Fg, Ff, Fe, Fd, Fc, Fb, Fa.
    rewrite (set_file_new _ _ F)
      by (apply lookup_none_outside; [exact HF|reflexivity]).
    rewrite (set_file_end (temp_dir_name ++ lit "/META-INF/manifest.xml") _ F)
      by first [apply lookup_none_outside; [exact HF|reflexivity] | reflexivity].
    rewrite (set_file_end (temp_dir_name ++ lit "/content.xml") _ F)
      by first [apply lookup_none_outside; [exact HF|reflexivity] | reflexivity].
    rewrite (set_file_end (temp_dir_name ++ lit "/styles.xml") _ F)
      by first [apply lookup_none_outside; [exact HF|reflexivity] | reflexivity].
    rewrite (set_file_end (temp_dir_name ++ lit "/meta.xml") _ F)
      by first [apply lookup_none_outside; [exact HF|reflexivity] | reflexivity].
    reflexivity.
  - rewrite Dh, Dg, Df, De, Dd, Dc, Db, Da, <- app_assoc. reflexivity.
  - now rewrite Sh, Sg, Sf, Se, Sd, Sc, Sb, Sa.
Qed.

(** X14. Whatever an earlier run left in it, the staging directory made by
    [create_fixed_odp] holds exactly the five files of the package, each
    the UTF-8 bytes of its text, in the directories [temp_odp_fixed] and
    [temp_odp_fixed/META-INF]; everything outside it is as it was. *)
Theorem fresh_staging (env : Env) (w w1 : World) (td : str) :
  sane_staging w ->
  create_fixed_odp env w = (w1, Ok td) ->
  exists bm bc bs bt,
    utf8_encode (join newline manifest_lines) = Some bm
    /\ utf8_encode (content_xml (self_slides w)) = Some bc
    /\ utf8_encode (join newline styles_lines) = Some bs
    /\ utf8_encode (join newline (meta_lines (now_iso env))) = Some bt
    /\ files w1
       = filter (fun '(p, _) => outside_staging p) (files w)
         ++ staged_files bm bc bs bt
    /\ dirs w1
       = filter not_staging (dirs w)
         ++ [temp_dir_name; temp_dir_name ++ lit "/META-INF"]
    /\ self_slides w1 = self_slides w.
Proof.
  intros Hsane H.
  destruct (staging_made env w w1 td Hsane H) as (_ & _ & Hfiles).
  exact Hfiles.
Qed.

Lemma fresh_staging_witness :
  exists bm bc bs bt,
    utf8_encode (join newline manifest_lines) = Some bm
    /\ utf8_encode (content_xml (self_slides stale_world)) = Some bc
    /\ utf8_encode (join newline styles_lines) = Some bs
    /\ utf8_encode (join newline (meta_lines (now_iso demo_env))) = Some bt
    /\ files (fst (create_fixed_odp demo_env stale_world))
       = filter (fun '(p, _) => outside_staging p) (files stale_world)
         ++ staged_files bm bc bs bt
    /\ dirs (fst (create_fixed_odp demo_env stale_world))
       = filter not_staging (dirs stale_world)
         ++ [temp_dir_name; temp_dir_name ++ lit "/META-INF"]
    /\ self_slides (fst (create_fixed_odp demo_env stale_world))
       = self_slides stale_world.
Proof.
  apply (fresh_staging demo_env stale_world _ temp_dir_name).
  - intros H. vm_compute in H. discriminate.
  - vm_compute. reflexivity.
Defined.

(** ** A whole run *)

Lemma startswith_app_l (p a b : str) :
  startswith p (a ++ b) = true -> startswith p a = true.
Proof.
  revert p. induction a as [|x a IH]; intros p; [reflexivity|].
  destruct p as [|c p]; cbn [app startswith]; [discriminate|].
  intros H. apply andb_true_iff in H as [Hc Hp].
  now rewrite Hc, (IH p Hp).
Qed.

Lemma startswith_trans (p d x : str) :
  startswith p d = true -> startswith d x = true -> startswith p x = true.
Proof.
  revert p d. induction x as [|c x IH]; intros p d Hp Hd; [reflexivity|].
  destruct d as [|e d]; [discriminate|].
  destruct p as [|f p]; [discriminate|].
  cbn [startswith] in *.
  apply andb_true_iff in Hp as [H1 Hp]. apply andb_true_iff in Hd as [H2 Hd].
  apply N.eqb_eq in H1, H2. subst. rewrite N.eqb_refl. apply (IH p d Hp Hd).
Qed.

Lemma parent_is_outside (d p : str) :
  str_eqb d temp_dir_name || below temp_dir_name d = true ->
  below temp_dir_name p = false ->
  parent_is d p = false.
Proof.
  intros Hd Hp. unfold parent_is.
  destruct (below d p) eqn:E; [|reflexivity]. exfalso.
  apply orb_true_iff in Hd as [Hd|Hd].
  - apply str_eqb_eq in Hd. subst d. congruence.
  - unfold below in *. apply startswith_app_l in E.
    rewrite (startswith_trans p d _ E Hd) in Hp. discriminate.
Qed.

Lemma filter_set_file_skip (g : str -> bool) (p : str) (d : FileData)
    (fs : list (str * FileData)) :
  g p = false ->
  lookup p fs <> None ->
  filter (fun '(q, _) => g q) (set_file p d fs) = filter (fun '(q, _) => g q) fs.
Proof.
  intros Hg. induction fs as [|[q d'] fs IH]; cbn [set_file lookup filter].
  - contradiction.
  - destruct (str_eqb q p) eqn:E; intros Hl.
    + apply str_eqb_eq in E. subst q. cbn [filter]. now rewrite Hg.
    + cbn [filter]. now rewrite (IH Hl).
Qed.

Lemma filter_outside_none (g : str -> bool) (fs : list (str * FileData)) :
  (forall p, below temp_dir_name p = false -> g p = false) ->
  forallb (fun '(p, _) => outside_staging p) fs = true ->
  filter (fun '(q, _) => g q) fs = [].
Proof.
  intros Hg. induction fs as [|[q d] fs IH]; cbn [forallb filter]; [reflexivity|].
  intros H. apply andb_true_iff in H as [Hq Hfs].
  unfold outside_staging in Hq. apply negb_true_iff in Hq.
  now rewrite (Hg q Hq), (IH Hfs).
Qed.

Lemma filter_dirs_none (ds : list str) :
  forallb not_staging ds = true ->
  filter (fun d => str_eqb d temp_dir_name || below temp_dir_name d) ds = [].
Proof.
  induction ds as [|d ds IH]; cbn [forallb filter]; [reflexivity|].
  intros H. apply andb_true_iff in H as [Hd Hds].
  unfold not_staging in Hd. apply negb_true_iff in Hd.
  now rewrite Hd, (IH Hds).
Qed.

Lemma set_file_twice (p : str) (d1 d2 : FileData) (fs : list (str * FileData)) :
  set_file p d2 (set_file p d1 fs) = set_file p d2 fs.
Proof.
  induction fs as [|[q d] fs IH]; cbn [set_file].
  - now rewrite str_eqb_refl.
  - destruct (str_eqb q p) eqn:E; cbn [set_file]; rewrite E; [reflexivity|].
    now rewrite IH.
Qed.

Lemma outside_inside_differ (out f : str) :
  below temp_dir_name out = false -> below temp_dir_name f = true ->
  str_eqb out f = false.
Proof.
  intros Ho Hf. destruct (str_eqb out f) eqn:E; [|reflexivity].
  apply str_eqb_eq in E. subst. congruence.
Qed.

(** What [os.walk] yields once the archive is open: the files of the
    staging directory itself as the file system lists them, then those of
    [META-INF]. *)
Lemma walk_staged (env : Env) (out : str) (Z : FileData) (F : list (str * FileData))
    (D : list str) (sl : list Slide) (bm bc bs bt : list N) :
  below temp_dir_name out = false ->
  forallb (fun '(p, _) => outside_staging p) F = true ->
  forallb not_staging D = true ->
  walk_files env temp_dir_name
    {| files := set_file out Z (F ++ staged_files bm bc bs bt);
       dirs := D ++ [temp_dir_name; temp_dir_name ++ lit "/META-INF"];
       self_slides := sl |}
  = map walked (listing env staged_root)
    ++ map walked (listing env [staged_manifest]).
Proof.
  intros Hout HF HD. unfold walk_files. cbn [files dirs].
  rewrite filter_app, (filter_dirs_none D HD).
  assert (Hskip : forall d,
             str_eqb d temp_dir_name || below temp_dir_name d = true ->
             filter (fun '(p, _) => parent_is d p)
               (set_file out Z (F ++ staged_files bm bc bs bt))
             = filter (fun '(p, _) => parent_is d p) (staged_files bm bc bs bt)).
  { intros d Hd.
    assert (HFd : filter (fun '(q, _) => parent_is d q) F = []).
    { apply filter_outside_none; [|exact HF].
      intros p Hp. now apply parent_is_outside. }
    destruct (lookup out (F ++ staged_files bm bc bs bt)) eqn:El.
    - rewrite (filter_set_file_skip (parent_is d))
        by first [apply parent_is_outside; assumption|rewrite El; discriminate].
      now rewrite filter_app, HFd.
    - rewrite (set_file_new _ _ _ El), !filter_app, HFd.
      cbn [filter app]. rewrite (parent_is_outside d out Hd Hout).
      now rewrite app_nil_r. }
  cbn [app filter flat_map].
  change (str_eqb temp_dir_name temp_dir_name || below temp_dir_name temp_dir_name)
    with true.
  change (str_eqb (temp_dir_name ++ lit "/META-INF") temp_dir_name
          || below temp_dir_name (temp_dir_name ++ lit "/META-INF")) with true.
  cbn [flat_map]. rewrite !Hskip by reflexivity.
  rewrite app_nil_r. reflexivity.
Qed.

(** One member written to the archive at [out] from a staged file. *)
Lemma zip_step (env : Env) (k : nat) (out f arc : str) (b : list N)
    (es : list ZipEntry) (G : list (str * FileData)) (ds : list str)
    (sl : list Slide) (w' : World) (u : unit) :
  below temp_dir_name out = false ->
  below temp_dir_name f = true ->
  lookup f G = Some (Bytes b) ->
  ZipFile_write env k {| zpath := out; compression := ZIP_DEFLATED |} f arc None
    {| files := set_file out (Zip es) G; dirs := ds; self_slides := sl |}
  = (w', Ok u) ->
  w' = {| files := set_file out (Zip (es ++ [deflated arc b])) G;
          dirs := ds; self_slides := sl |}.
Proof.
  intros Hout Hf Hl. unfold ZipFile_write. cbn [zpath files compression dirs self_slides].
  destruct (zip_fault env k); [discriminate|].
  rewrite lookup_set_other by (apply outside_inside_differ; assumption).
  rewrite Hl, lookup_set_same, set_file_twice.
  intros H. now injection H as <-.
Qed.

(** The loops of [create_odp_file] over files that are all staged: each
    file but the media type becomes a member, in the order of the walk. *)
Lemma write_members_run (env : Env) (out : str) (G : list (str * FileData))
    (ds : list str) (sl : list Slide) (fs : list (str * str)) :
  below temp_dir_name out = false ->
  (forall fa, In fa fs ->
              below temp_dir_name (fst fa) = true
              /\ exists b, lookup (fst fa) G = Some (Bytes b)) ->
  forall (k : nat) (es : list ZipEntry) (w' : World) (u : unit),
    write_members env {| zpath := out; compression := ZIP_DEFLATED |} k fs
      {| files := set_file out (Zip es) G; dirs := ds; self_slides := sl |}
    = (w', Ok u) ->
    w' = {| files := set_file out
                       (Zip (es ++ map (member_of G) (filter not_mimetype fs))) G;
            dirs := ds; self_slides := sl |}.
Proof.
  intros Hout. induction fs as [|[p a] fs IH]; intros Hall k es w' u H.
  - cbn [write_members] in H. injection H as <-.
    cbn [filter map]. now rewrite app_nil_r.
  - cbn [write_members] in H. cbn [filter]. unfold not_mimetype at 1. cbn [fst].
    assert (Hrest : forall fa, In fa fs ->
                      below temp_dir_name (fst fa) = true
                      /\ exists b, lookup (fst fa) G = Some (Bytes b))
      by (intros fa Hin; apply Hall; now right).
    destruct (negb (str_eqb (basename p) (lit "mimetype"))).
    + apply bind_ok in H as (u1 & w1 & Hw & H).
      destruct (Hall (p, a) (or_introl eq_refl)) as (Hp & b & Hb). cbn [fst] in Hp, Hb.
      apply (zip_step env k out p a b es G) in Hw; [|assumption..].
      subst w1. apply (IH Hrest) in H. subst w'.
      cbn [map]. unfold member_of at 2. cbn [fst snd]. rewrite Hb.
      now rewrite <- app_assoc.
    + now apply (IH Hrest) in H.
Qed.

Lemma lookup_staged (f : str) (F : list (str * FileData)) (bm bc bs bt : list N) :
  forallb (fun '(p, _) => outside_staging p) F = true ->
  below temp_dir_name f = true ->
  lookup f (F ++ staged_files bm bc bs bt) = lookup f (staged_files bm bc bs bt).
Proof.
  intros HF Hf. now rewrite lookup_app, (lookup_none_outside f F HF Hf).
Qed.

Lemma read_markdown_ok (self : Converter) (w w0 : World) (content : str) :
  read_markdown self w = (w0, Ok content) ->
  w0 = w
  /\ exists src text, lookup (markdown_file self) (files w) = Some (Bytes src)
                      /\ utf8_decode src = Some text
                      /\ content = universal_newlines text.
Proof.
  unfold read_markdown.
  destruct (lookup (markdown_file self) (files w)) as [[src|es]|]; try discriminate.
  destruct (utf8_decode src) as [c|] eqn:E; [|discriminate].
  intros H. injection H as <- <-. split; [reflexivity|]. now exists src, c.
Qed.

Lemma filter_map_walk {A B} (f : B -> bool) (g : A -> B) (l : list A) :
  filter f (map g l) = map g (filter (fun x => f (g x)) l).
Proof.
  induction l as [|x l IH]; cbn [map filter]; [reflexivity|].
  destruct (f (g x)); cbn [map]; now rewrite IH.
Qed.

Lemma filter_permuted {A} (f : A -> bool) (l l' : list A) :
  Permutation l l' -> Permutation (filter f l) (filter f l').
Proof.
  induction 1 as [|x l l' _ IH|x y l|l l' l'' _ IH1 _ IH2]; cbn [filter].
  - constructor.
  - destruct (f x); [now constructor|exact IH].
  - destruct (f x), (f y); try apply Permutation_refl. constructor.
  - now transitivity (filter f l').
Qed.

(** The staged files, as the archive writer finds them. *)
Lemma staged_lookups (F : list (str * FileData)) (bm bc bs bt : list N) (p : str) :
  forallb (fun '(q, _) => outside_staging q) F = true ->
  In p (staged_manifest :: staged_root) ->
  below temp_dir_name p = true
  /\ exists b, lookup p (F ++ staged_files bm bc bs bt) = Some (Bytes b).
Proof.
  intros HF Hin. cbn [In staged_root] in Hin.
  repeat (destruct Hin as [<- | Hin];
          [split; [reflexivity|];
           rewrite lookup_staged by (exact HF || reflexivity);
           eexists; reflexivity|]).
  contradiction.
Qed.

(** The world a successful run ends in. *)
Lemma run_world (ua : char -> bool) (env : Env) (self : Converter) (w w' : World) :
  sane_staging w ->
  fair_listing env ->
  below temp_dir_name (output_file self) = false ->
  convert ua env self w = (w', Ok tt) ->
  exists src text bm bc bs bt root,
    lookup (markdown_file self) (files w) = Some (Bytes src)
    /\ utf8_decode src = Some text
    /\ utf8_encode (join newline manifest_lines) = Some bm
    /\ utf8_encode
         (content_xml
            (parse_content_from ua (self_slides w) (universal_newlines text)))
       = Some bc
    /\ utf8_encode (join newline styles_lines) = Some bs
    /\ utf8_encode (join newline (meta_lines (now_iso env))) = Some bt
    /\ existsb (fun '(q, _) => str_eqb temp_dir_name q)
         (filter (fun '(p, _) => outside_staging p) (files w)) = false
    /\ str_eqb (output_file self) temp_dir_name = false
    /\ Permutation root (root_members bc bs bt)
    /\ w' = {| files :=
                 filter (fun '(p, _) => outside_staging p)
                   (set_file (output_file self)
                      (Zip (mimetype_entry ZIP_DEFLATED
                            :: root ++ [manifest_member bm]))
                      (filter (fun '(p, _) => outside_staging p) (files w)
                       ++ staged_files bm bc bs bt));
               dirs :=
                 filter not_staging
                   (filter not_staging (dirs w)
                    ++ [temp_dir_name; temp_dir_name ++ lit "/META-INF"]);
               self_slides :=
                 parse_content_from ua (self_slides w) (universal_newlines text) |}.
Proof.
  intros Hsane Hfair Hout H. unfold convert in H.
  apply bind_ok in H as (content & w0 & Hr & H).
  apply bind_ok in H as (u0 & wp & Hp & H).
  apply bind_ok in H as (td & w1 & Hs & H).
  apply bind_ok in H as (u1 & w2 & Hz & H).
  apply bind_ok in H as (u2 & w3 & Hc & H).
  injection H as <-.
  apply read_markdown_ok in Hr as (-> & src & text & Hsrc & Hdec & ->).
  unfold parse_content_m in Hp. injection Hp as <-.
  apply staging_made in Hs as (-> & Hnofile & bm & bc & bs & bt & Em & Ec & Es & Et
                                & F1 & D1 & S1); [|exact Hsane].
  cbn [files dirs self_slides] in *.
  set (F := filter (fun '(p, _) => outside_staging p) (files w)) in *.
  set (D := filter not_staging (dirs w)) in *.
  assert (HF : forallb (fun '(p, _) => outside_staging p) F = true)
    by apply forallb_filter_same.
  assert (HD : forallb not_staging D = true) by apply forallb_filter_same.
  destruct w1 as [f1 d1 s1]. cbn [files dirs self_slides] in F1, D1, S1. subst f1 d1 s1.
  set (out := output_file self) in *.
  set (sl := parse_content_from ua (self_slides w) (universal_newlines text)) in *.
  set (G := F ++ staged_files bm bc bs bt) in *.
  unfold create_odp_file in Hz.
  apply bind_ok in Hz as (zf & wa & Ho & Hz).
  apply bind_ok in Hz as (u3 & wb & Hw & Hz).
  apply ZipFile_open_ok in Ho as (Hnodir & -> & ->).
  cbn [files dirs self_slides] in *.
  assert (Hne : str_eqb out temp_dir_name = false).
  { rewrite existsb_app in Hnodir. apply orb_false_iff in Hnodir as [_ Hnodir].
    cbn [existsb] in Hnodir. apply orb_false_iff in Hnodir as [Hnodir _].
    exact Hnodir. }
  apply (zip_step env 1 out _ _ mimetype_bytes [] G) in Hw;
    [|exact Hout|reflexivity
     |unfold G; rewrite lookup_staged by (exact HF || reflexivity); reflexivity].
  subst wb. cbn [app] in Hz.
  unfold G in Hz at 1.
  rewrite (walk_staged env out _ F D sl bm bc bs bt Hout HF HD) in Hz.
  fold G in Hz.
  pose proof (Hfair staged_root) as Proot.
  pose proof (Hfair [staged_manifest]) as Pman.
  apply Permutation_sym, Permutation_length_1_inv in Pman.
  rewrite Pman in Hz.
  apply (write_members_run env out G _ sl) in Hz; [|exact Hout|].
  2:{ intros fa Hin. apply in_app_or in Hin as [Hin|Hin];
        apply in_map_iff in Hin as (p & <- & Hin); cbn [walked fst];
        apply (staged_lookups F bm bc bs bt p HF).
      - right. apply (Permutation_in _ Proot Hin).
      - destruct Hin as [<-|[]]. now left. }
  subst w2.
  rewrite filter_app, map_app, !filter_map_walk, !map_map in Hc.
  set (keep := fun p => not_mimetype (walked p)) in *.
  set (mk := fun p => member_of G (walked p)) in *.
  assert (Hman : map mk (filter keep [staged_manifest]) = [manifest_member bm]).
  { change (filter keep [staged_manifest]) with [staged_manifest].
    cbn [map]. unfold mk, member_of, walked. cbn [fst snd].
    unfold G. rewrite lookup_staged by (exact HF || reflexivity). reflexivity. }
  assert (Hroot : map mk (filter keep staged_root) = root_members bc bs bt).
  { change (filter keep staged_root) with (tl staged_root).
    cbn [map tl staged_root]. unfold mk, member_of, walked. cbn [fst snd].
    unfold G. rewrite !lookup_staged by (exact HF || reflexivity). reflexivity. }
  rewrite Hman in Hc.
  exists src, text, bm, bc, bs, bt, (map mk (filter keep (listing env staged_root))).
  repeat (split; [assumption|]).
  split.
  { rewrite <- Hroot. apply Permutation_map, filter_permuted, Proot. }
  unfold cleanup, rmtree, path_exists in Hc. cbn [files dirs self_slides] in Hc.
  match type of Hc with
  | context [existsb (str_eqb temp_dir_name) ?l] =>
    assert (Htd : existsb (str_eqb temp_dir_name) l = true)
      by (rewrite existsb_app; apply orb_true_iff; right; reflexivity)
  end.
  rewrite Htd in Hc. cbn [orb] in Hc. injection Hc as <-.
  reflexivity.
Qed.

(** X15. After a run that succeeds, with a destination given as a plain
    path outside the staging directory, the destination is an archive of
    five deflated members: [mimetype] first, then [content.xml],
    [styles.xml] and [meta.xml] in the order in which the file system lists
    the staging directory, then [META-INF/manifest.xml].  Each holds the
    UTF-8 bytes of its text, and [content.xml] is the content part of the
    slides parsed from the source as the text file hands it over: decoded,
    with its line ends translated. *)
Theorem archive_of_a_run (ua : char -> bool) (env : Env) (self : Converter)
    (w w' : World) :
  sane_staging w ->
  fair_listing env ->
  plain_path (output_file self) = true ->
  below temp_dir_name (output_file self) = false ->
  convert ua env self w = (w', Ok tt) ->
  exists src text bm bc bs bt root,
    lookup (markdown_file self) (files w) = Some (Bytes src)
    /\ utf8_decode src = Some text
    /\ utf8_encode (join newline manifest_lines) = Some bm
    /\ utf8_encode
         (content_xml
            (parse_content_from ua (self_slides w) (universal_newlines text)))
       = Some bc
    /\ utf8_encode (join newline styles_lines) = Some bs
    /\ utf8_encode (join newline (meta_lines (now_iso env))) = Some bt
    /\ lookup (output_file self) (files w')
       = Some (Zip (mimetype_entry ZIP_DEFLATED
                    :: root ++ [deflated (lit "META-INF/manifest.xml") bm]))
    /\ Permutation root
         [ deflated (lit "content.xml") bc;
           deflated (lit "styles.xml") bs;
           deflated (lit "meta.xml") bt ].
Proof.
  intros Hsane Hfair _ Hout H.
  destruct (run_world ua env self w w' Hsane Hfair Hout H)
    as (src & text & bm & bc & bs & bt & root & Hsrc & Hdec & Em & Ec & Es & Et
        & _ & _ & Hroot & ->).
  exists src, text, bm, bc, bs, bt, root.
  repeat (split; [assumption|]).
  split; [|exact Hroot].
  cbn [files]. unfold outside_staging.
  rewrite (lookup_outside temp_dir_name _ _ Hout), lookup_set_same.
  reflexivity.
Qed.

Lemma archive_of_a_run_witness :
  exists src text bm bc bs bt root,
    lookup (markdown_file demo_converter) (files demo_world) = Some (Bytes src)
    /\ utf8_decode src = Some text
    /\ utf8_encode (join newline manifest_lines) = Some bm
    /\ utf8_encode
         (content_xml
            (parse_content_from (fun _ => false) (self_slides demo_world)
               (universal_newlines text)))
       = Some bc
    /\ utf8_encode (join newline styles_lines) = Some bs
    /\ utf8_encode (join newline (meta_lines (now_iso demo_env))) = Some bt
    /\ lookup (output_file demo_converter)
         (files (fst (convert (fun _ => false) demo_env demo_converter demo_world)))
       = Some (Zip (mimetype_entry ZIP_DEFLATED
                    :: root ++ [deflated (lit "META-INF/manifest.xml") bm]))
    /\ Permutation root
         [ deflated (lit "content.xml") bc;
           deflated (lit "styles.xml") bs;
           deflated (lit "meta.xml") bt ].
Proof.
  apply (archive_of_a_run (fun _ => false) demo_env demo_converter demo_world).
  - intros _. split; reflexivity.
  - intros names. apply Permutation_sym, Permutation_rev.
  - reflexivity.
  - reflexivity.
  - vm_compute. reflexivity.
Defined.

Lemma existsb_filter_false {A} (f g : A -> bool) (l : list A) :
  existsb f l = false -> existsb f (filter g l) = false.
Proof.
  induction l as [|x l IH]; cbn [existsb filter]; [reflexivity|].
  intros H. apply orb_false_iff in H as [Hx Hl].
  destruct (g x); cbn [existsb]; [now rewrite Hx, IH|now apply IH].
Qed.

Lemma existsb_named_set_file (x p : str) (d : FileData) (fs : list (str * FileData)) :
  str_eqb x p = false ->
  existsb (fun '(q, _) => str_eqb x q) (set_file p d fs)
  = existsb (fun '(q, _) => str_eqb x q) fs.
Proof.
  intros Hx. induction fs as [|[q d'] fs IH]; cbn [set_file existsb].
  - now rewrite Hx.
  - destruct (str_eqb q p) eqn:E; cbn [existsb]; [reflexivity|now rewrite IH].
Qed.

Lemma lookup_staged_outside (p : str) (bm bc bs bt : list N) :
  below temp_dir_name p = false -> lookup p (staged_files bm bc bs bt) = None.
Proof.
  intros Hp. unfold staged_files. cbn [lookup].
  repeat match goal with
         | |- context [str_eqb ?k p] =>
           let E := fresh "E" in
           destruct (str_eqb k p) eqn:E;
           [apply str_eqb_eq in E; subst p; discriminate Hp|]
         end.
  reflexivity.
Qed.

(** X16. A run that succeeds, with a destination given as a plain path
    outside the staging directory, leaves no staging directory and nothing
    below it, and touches no other file than the destination: every other
    plain path outside the staging directory holds what it held, and the
    directories are those of before, without the staging ones. *)
Theorem footprint_of_a_run (ua : char -> bool) (env : Env) (self : Converter)
    (w w' : World) :
  sane_staging w ->
  fair_listing env ->
  plain_path (output_file self) = true ->
  below temp_dir_name (output_file self) = false ->
  convert ua env self w = (w', Ok tt) ->
  path_exists temp_dir_name w' = false
  /\ (forall p, plain_path p = true ->
                below temp_dir_name p = true -> lookup p (files w') = None)
  /\ (forall p, plain_path p = true ->
                below temp_dir_name p = false ->
                str_eqb p (output_file self) = false ->
                lookup p (files w') = lookup p (files w))
  /\ dirs w' = filter not_staging (dirs w).
Proof.
  intros Hsane Hfair _ Hout H.
  destruct (run_world ua env self w w' Hsane Hfair Hout H)
    as (src & text & bm & bc & bs & bt & root & _ & _ & _ & _ & _ & _
        & Hnofile & Hne & _ & ->).
  cbn [files dirs].
  set (F := filter (fun '(p, _) => outside_staging p) (files w)) in *.
  assert (Hdirs : filter not_staging
                    (filter not_staging (dirs w)
                     ++ [temp_dir_name; temp_dir_name ++ lit "/META-INF"])
                  = filter not_staging (dirs w)).
  { rewrite filter_app, (filter_all _ _ (forallb_filter_same _ _)).
    apply app_nil_r. }
  split; [|split; [|split]].
  - unfold path_exists. cbn [files dirs]. rewrite Hdirs.
    rewrite (proj1 (not_staging_absent _ (forallb_filter_same _ _))).
    cbn [orb]. apply existsb_filter_false.
    rewrite existsb_named_set_file by (now rewrite str_eqb_sym).
    rewrite existsb_app, Hnofile. reflexivity.
  - intros p _ Hp. apply lookup_none_outside; [apply forallb_filter_same|exact Hp].
  - intros p _ Hp Hpo. unfold outside_staging.
    rewrite (lookup_outside temp_dir_name p _ Hp).
    rewrite lookup_set_other by (now rewrite str_eqb_sym).
    rewrite lookup_app, (lookup_staged_outside p bm bc bs bt Hp).
    unfold F, outside_staging. rewrite (lookup_outside temp_dir_name p _ Hp).
    destruct (lookup p (files w)); reflexivity.
  - exact Hdirs.
Qed.

Lemma footprint_of_a_run_witness :
  path_exists temp_dir_name
    (fst (convert (fun _ => false) demo_env demo_converter stale_world)) = false
  /\ (forall p, plain_path p = true ->
                below temp_dir_name p = true ->
                lookup p (files (fst (convert (fun _ => false) demo_env
                                        demo_converter stale_world))) = None)
  /\ (forall p, plain_path p = true ->
                below temp_dir_name p = false ->
                str_eqb p (output_file demo_converter) = false ->
                lookup p (files (fst (convert (fun _ => false) demo_env
                                        demo_converter stale_world)))
                = lookup p (files stale_world))
  /\ dirs (fst (convert (fun _ => false) demo_env demo_converter stale_world))
     = filter not_staging (dirs stale_world).
Proof.
  apply (footprint_of_a_run (fun _ => false) demo_env demo_converter stale_world).
  - intros H. vm_compute in H. discriminate.
  - intros names. apply Permutation_sym, Permutation_rev.
  - reflexivity.
  - reflexivity.
  - vm_compute. reflexivity.
Defined.
